(** * http-dataserve: pagination and synthetic-record generation

    A shallow embedding of [main.py]: the two record synthesizers
    ([generate_data_object], [generate_data_object_with_different_dates]),
    the helpers they call, the two paginated endpoints ([get_data],
    [get_data_with_date_formats]) and the schema document of [get_schema].

    Python integers are unbounded, so they are [Z].  The program draws from
    [random], [uuid] and [datetime.now()]; these are effects on a [World]
    that is threaded through every call, and an exception is a [Raise]
    result.  Floats only occur as [round(random.uniform(a, b), 2)]; such a
    value is represented by its number of hundredths. *)

From Stdlib Require Import ZArith QArith Qround Ascii String.
From stdpp Require Import base tactics option list strings pretty.

Open Scope Z_scope.

(** ** Calendar values of the [datetime] module *)

Record date := Date { year : Z; month : Z; day : Z }.

(** A naive [datetime].  [fold] tells the two passes through a repeated
    local hour apart: 0 for the first, 1 for the second. *)
Record datetime := DateTime {
  dt_year : Z; dt_month : Z; dt_day : Z;
  hour : Z; minute : Z; second : Z; microsecond : Z;
  fold : Z
}.

(** ** Effects: exceptions, the randomness source and the wall clock *)

Inductive exn := ValueError | IndexError | ZeroDivisionError.

Inductive result (A : Type) :=
  | Ok (a : A)
  | Raise (e : exn).
Arguments Ok {A} a.
Arguments Raise {A} e.

(** What the program reads but does not compute: the raw draws of the
    randomness source, the readings of the wall clock ([fold] included, as
    [datetime.now()] sets it), and the local-time rules of the host: the UTC
    offset, in seconds, of local time at an instant given in seconds since
    the epoch. *)
Record Platform := {
  entropy : nat → Z;
  wallclock : nat → datetime;
  utcoffset : Z → Z
}.

(** The world is the platform with a cursor into each sequence. *)
Record World := { platform : Platform; draws : nat; ticks : nat }.

Definition M (A : Type) : Type := World → result (A * World).

Global Instance M_ret : MRet M := λ A a w, Ok (a, w).
Global Instance M_bind : MBind M := λ A B f m w,
  match m w with
  | Ok (a, w') => f a w'
  | Raise e => Raise e
  end.

Definition raise {A} (e : exn) : M A := λ _, Raise e.

Definition next_draw : M Z := λ w,
  Ok (entropy (platform w) (draws w),
      {| platform := platform w; draws := S (draws w); ticks := ticks w |}).

(** [datetime.now()] *)
Definition now : M datetime := λ w,
  Ok (wallclock (platform w) (ticks w),
      {| platform := platform w; draws := draws w; ticks := S (ticks w) |}).

Definition local_zone : M (Z → Z) := λ w, Ok (utcoffset (platform w), w).

(** [seq[i]] for a non-negative index; out of range raises [IndexError]. *)
Definition getitem {A} (l : list A) (i : Z) : M A :=
  match l !! Z.to_nat i with
  | Some x => mret x
  | None => raise IndexError
  end.

(** *** The [random] module *)

(** A uniform integer in [0, n), for [n > 0]. *)
Definition randbelow (n : Z) : M Z :=
  r ← next_draw; mret (r `mod` n).

(** [random.randint(a, b)] is [randrange(a, b + 1)]: an empty range raises. *)
Definition randint (a b : Z) : M Z :=
  let width := b + 1 - a in
  if 0 <? width then r ← randbelow width; mret (a + r)
  else raise ValueError.

(** [random.choice(seq)] *)
Definition choice {A} (l : list A) : M A :=
  if decide (l = []) then raise IndexError
  else i ← randbelow (Z.of_nat (length l)); getitem l i.

(** [random.choices(population, k=k)]: [k] draws with replacement. *)
Fixpoint choices {A} (population : list A) (k : nat) : M (list A) :=
  match k with
  | O => mret []
  | S k' =>
      i ← randbelow (Z.of_nat (length population));
      x ← getitem population i;
      rest ← choices population k';
      mret (x :: rest)
  end.

(** [random.sample(population, k)], the pool branch that CPython takes for
    populations of at most 21 entries (the two populations of this program
    have 14 and 6):
<<
    pool = list(population)
    for i in range(k):
        j = randbelow(n - i)
        result[i] = pool[j]
        pool[j] = pool[n - i - 1]
>>
    [result] is filled from index 0 upwards, which is an append. *)
Fixpoint sample_loop {A} (n : Z) (k : nat) (i : Z)
    (pool result : list A) : M (list A) :=
  match k with
  | O => mret result
  | S k' =>
      j ← randbelow (n - i);
      x ← getitem pool j;
      moved ← getitem pool (n - i - 1);
      sample_loop n k' (i + 1) (<[Z.to_nat j := moved]> pool) (result ++ [x])
  end.

Definition sample {A} (population : list A) (k : Z) : M (list A) :=
  let n := Z.of_nat (length population) in
  if (0 <=? k) && (k <=? n)
  then sample_loop n (Z.to_nat k) 0 population []
  else raise ValueError.

(** [round(random.uniform(a, b), 2)], in hundredths: any multiple of 0.01
    between [a] and [b]. *)
Definition uniform_round2 (a b : Z) : M Z :=
  r ← randbelow ((b - a) * 100 + 1); mret (a * 100 + r).

(** ** The [datetime] module: construction *)

(** [_is_leap], [_days_in_month], [_days_before_month], [_days_before_year]
    and [_ymd2ord] of CPython's [datetime]. *)
Definition is_leap (y : Z) : bool :=
  (y `mod` 4 =? 0) && (negb (y `mod` 100 =? 0) || (y `mod` 400 =? 0)).

Definition DAYS_IN_MONTH : list Z :=
  [31; 28; 31; 30; 31; 30; 31; 31; 30; 31; 30; 31].

Definition DAYS_BEFORE_MONTH : list Z :=
  [0; 31; 59; 90; 120; 151; 181; 212; 243; 273; 304; 334].

Definition days_in_month (y m : Z) : Z :=
  if (m =? 2) && is_leap y then 29
  else default 0 (DAYS_IN_MONTH !! Z.to_nat (m - 1)).

Definition days_before_month (y m : Z) : Z :=
  default 0 (DAYS_BEFORE_MONTH !! Z.to_nat (m - 1))
  + (if (2 <? m) && is_leap y then 1 else 0).

Definition days_before_year (y : Z) : Z :=
  let y := y - 1 in y * 365 + y / 4 - y / 100 + y / 400.

Definition ymd2ord (y m d : Z) : Z :=
  days_before_year y + days_before_month y m + d.

Definition check_date_fields (y m d : Z) : bool :=
  (1 <=? y) && (y <=? 9999) && (1 <=? m) && (m <=? 12)
  && (1 <=? d) && (d <=? days_in_month y m).

Definition check_time_fields (hh mm ss us fd : Z) : bool :=
  (0 <=? hh) && (hh <=? 23) && (0 <=? mm) && (mm <=? 59)
  && (0 <=? ss) && (ss <=? 59) && (0 <=? us) && (us <=? 999999)
  && ((fd =? 0) || (fd =? 1)).

(** [date(year, month, day)] raises [ValueError] on fields out of range. *)
Definition date_new (y m d : Z) : M date :=
  if check_date_fields y m d then mret (Date y m d) else raise ValueError.

Definition datetime_new (y m d hh mm ss us fd : Z) : M datetime :=
  if check_date_fields y m d && check_time_fields hh mm ss us fd
  then mret (DateTime y m d hh mm ss us fd)
  else raise ValueError.

(** [dt.replace(year=, month=, day=, hour=, minute=)]: a new [datetime]
    built by the checking constructor; every field that is not named is
    kept: second, microsecond and [fold]. *)
Definition replace_ymdhm (dt : datetime) (y m d hh mm : Z) : M datetime :=
  datetime_new y m d hh mm (second dt) (microsecond dt) (fold dt).

Definition date_ok (d : date) : Prop :=
  check_date_fields (year d) (month d) (day d) = true.

Definition datetime_ok (dt : datetime) : Prop :=
  check_date_fields (dt_year dt) (dt_month dt) (dt_day dt)
  && check_time_fields (hour dt) (minute dt) (second dt) (microsecond dt)
       (fold dt) = true.

(** The clock only ever reads valid [datetime] values. *)
Definition clock_ok (p : Platform) : Prop := ∀ n, datetime_ok (wallclock p n).

(** Local time is within a day of UTC. *)
Definition zone_ok (p : Platform) : Prop :=
  ∀ u, -86400 < utcoffset p u < 86400.

(** ** The [datetime] module: rendering *)

(** [string.ascii_letters] and [string.digits] *)
Definition ascii_letters : string :=
  "abcdefghijklmnopqrstuvwxyzABCDEFGHIJKLMNOPQRSTUVWXYZ".
Definition digits : string := "0123456789".

(** The character of a decimal digit. *)
Definition digit_char (d : Z) : ascii :=
  default "0"%char (list_ascii_of_string digits !! Z.to_nat d).

(** ["%0wd" % n] for [0 <= n < 10^w], most significant digit first.  Every
    use below prints a field of a checked [date] or [datetime] in the width
    its range fits in. *)
Fixpoint zpad (w : nat) (n : Z) : string :=
  match w with
  | O => ""
  | S w' => String (digit_char (n / 10 ^ Z.of_nat w'))
                   (zpad w' (n `mod` 10 ^ Z.of_nat w'))
  end.

Definition MONTH_NAMES : list string :=
  ["January"; "February"; "March"; "April"; "May"; "June"; "July";
   "August"; "September"; "October"; "November"; "December"].

Definition MONTH_ABBR : list string :=
  ["Jan"; "Feb"; "Mar"; "Apr"; "May"; "Jun"; "Jul"; "Aug"; "Sep"; "Oct";
   "Nov"; "Dec"].

Definition DAY_ABBR : list string :=
  ["Mon"; "Tue"; "Wed"; "Thu"; "Fri"; "Sat"; "Sun"].

(** [date.weekday()]: Monday is 0. *)
Definition weekday (y m d : Z) : Z := (ymd2ord y m d + 6) `mod` 7.

(** One [strftime] directive, in the C locale.  [%Y] is printed in four
    digits, as the C library prints the years from 1000 on. *)
Definition strftime_directive (c : ascii) (dt : datetime) : string :=
  match c with
  | "Y"%char => zpad 4 (dt_year dt)
  | "m"%char => zpad 2 (dt_month dt)
  | "d"%char => zpad 2 (dt_day dt)
  | "B"%char => default "" (MONTH_NAMES !! Z.to_nat (dt_month dt - 1))
  | "b"%char => default "" (MONTH_ABBR !! Z.to_nat (dt_month dt - 1))
  | "a"%char =>
      default ""
        (DAY_ABBR !! Z.to_nat (weekday (dt_year dt) (dt_month dt) (dt_day dt)))
  | "I"%char => zpad 2 ((hour dt + 11) `mod` 12 + 1)
  | "M"%char => zpad 2 (minute dt)
  | "p"%char => if hour dt <? 12 then "AM" else "PM"
  | "%"%char => "%"
  | _ => String "%" (String c "")
  end.

(** [dt.strftime(fmt)] *)
Fixpoint strftime (fmt : string) (dt : datetime) : string :=
  match fmt with
  | "" => ""
  | String "%"%char (String c rest) =>
      strftime_directive c dt +:+ strftime rest dt
  | String c rest => String c (strftime rest dt)
  end.

(** [d.strftime(fmt)] on a [date] formats midnight of that day. *)
Definition date_strftime (fmt : string) (d : date) : string :=
  strftime fmt (DateTime (year d) (month d) (day d) 0 0 0 0 0).

(** [d.isoformat()] is ["%04d-%02d-%02d"]. *)
Definition date_isoformat (d : date) : string :=
  zpad 4 (year d) +:+ "-" +:+ zpad 2 (month d) +:+ "-" +:+ zpad 2 (day d).

(** [dt.isoformat()]: the fraction is printed only when it is not zero. *)
Definition datetime_isoformat (dt : datetime) : string :=
  zpad 4 (dt_year dt) +:+ "-" +:+ zpad 2 (dt_month dt) +:+ "-"
  +:+ zpad 2 (dt_day dt) +:+ "T"
  +:+ zpad 2 (hour dt) +:+ ":" +:+ zpad 2 (minute dt) +:+ ":"
  +:+ zpad 2 (second dt)
  +:+ (if microsecond dt =? 0 then "" else "." +:+ zpad 6 (microsecond dt)).

(** *** POSIX timestamps of naive values

    [dt.timestamp()] of a naive [datetime] reads it as local time, under the
    host's local-time rules [tz]: the UTC offset, in seconds, at an
    instant. *)
Definition EPOCH_ORDINAL : Z := Eval cbv in ymd2ord 1970 1 1.

Definition wall_seconds (dt : datetime) : Z :=
  (ymd2ord (dt_year dt) (dt_month dt) (dt_day dt) - EPOCH_ORDINAL) * 86400
  + hour dt * 3600 + minute dt * 60 + second dt.

(** [time.localtime(u)], as seconds on the wall clock. *)
Definition local (tz : Z → Z) (u : Z) : Z := u + tz u.

Definition max_fold_seconds : Z := 24 * 3600.

(** [dt._mktime()]: the instant [u] with [local u = t], where [t] is the
    wall-clock reading of [dt].
<<
    a = local(t) - t
    u1 = t - a
    t1 = local(u1)
    if t1 == t:
        u2 = u1 + (-max_fold_seconds, max_fold_seconds)[self.fold]
        b = local(u2) - u2
        if a == b:
            return u1
    else:
        b = t1 - u1
    u2 = t - b
    t2 = local(u2)
    if t2 == t:
        return u2
    if t1 == t:
        return u1
    return (max, min)[self.fold](u1, u2)
>>
    In a repeated hour two instants have the reading [t]; [fold] picks the
    earlier (0) or the later (1). *)
Definition mktime (tz : Z → Z) (dt : datetime) : Z :=
  let t := wall_seconds dt in
  let a := local tz t - t in
  let u1 := t - a in
  let t1 := local tz u1 in
  let b :=
    if t1 =? t
    then let u2 := u1 + (if fold dt =? 0 then - max_fold_seconds
                         else max_fold_seconds) in
         local tz u2 - u2
    else t1 - u1 in
  if (t1 =? t) && (a =? b) then u1
  else
    let u2 := t - b in
    let t2 := local tz u2 in
    if t2 =? t then u2
    else if t1 =? t then u1
    else if fold dt =? 0 then Z.max u1 u2 else Z.min u1 u2.

(** [int(dt.timestamp())]: [timestamp] is [mktime + microsecond / 1e6], taken
    here exactly as a count of microseconds, and [int] truncates toward
    zero.  (Doubles near 2^31 are 2^-22 apart, less than a microsecond, so
    rounding the sum cannot reach the next second.) *)
Definition int_timestamp (tz : Z → Z) (dt : datetime) : Z :=
  (mktime tz dt * 1000000 + microsecond dt) ÷ 1000000.

(** ** Decoding the renderings

    The readers a client applies to the strings above: [strptime] with the
    format the string was written with, and [fromisoformat].  They accept the
    zero-padded forms that [strftime] and [isoformat] print. *)

Definition char_digit (c : ascii) : option Z :=
  (λ found, Z.of_nat found.1)
  <$> list_find (λ x, x = c) (list_ascii_of_string digits).

(** Reads exactly [w] decimal digits. *)
Fixpoint read_digits (w : nat) (acc : Z) (s : string) : option (Z * string) :=
  match w, s with
  | O, _ => Some (acc, s)
  | S w', String c s' => d ← char_digit c; read_digits w' (acc * 10 + d) s'
  | S _, EmptyString => None
  end.

Fixpoint strip_prefix (p s : string) : option string :=
  match p, s with
  | EmptyString, _ => Some s
  | String a p', String b s' => if decide (a = b) then strip_prefix p' s' else None
  | String _ _, EmptyString => None
  end.

(** The 1-based position, counted from [i], of the first name that [s]
    starts with. *)
Fixpoint read_name (names : list string) (i : Z) (s : string)
    : option (Z * string) :=
  match names with
  | [] => None
  | name :: names' =>
      match strip_prefix name s with
      | Some s' => Some (i, s')
      | None => read_name names' (i + 1) s
      end
  end.

Definition strptime_directive (c : ascii) (acc : date) (s : string)
    : option (date * string) :=
  match c with
  | "Y"%char => '(v, s') ← read_digits 4 0 s; Some (Date v (month acc) (day acc), s')
  | "m"%char => '(v, s') ← read_digits 2 0 s; Some (Date (year acc) v (day acc), s')
  | "d"%char => '(v, s') ← read_digits 2 0 s; Some (Date (year acc) (month acc) v, s')
  | "B"%char =>
      '(v, s') ← read_name MONTH_NAMES 1 s; Some (Date (year acc) v (day acc), s')
  | _ => None
  end.

Fixpoint strptime_from (fmt : string) (acc : date) (s : string) : option date :=
  match fmt with
  | EmptyString => match s with EmptyString => Some acc | _ => None end
  | String "%"%char (String c rest) =>
      '(acc', s') ← strptime_directive c acc s; strptime_from rest acc' s'
  | String c rest =>
      match s with
      | String c' s' => if decide (c = c') then strptime_from rest acc s' else None
      | EmptyString => None
      end
  end.

(** [datetime.strptime(s, fmt).date()]; fields not named by [fmt] default to
    1900-01-01, and an impossible date is refused. *)
Definition strptime_date (s fmt : string) : option date :=
  d ← strptime_from fmt (Date 1900 1 1) s;
  if check_date_fields (year d) (month d) (day d) then Some d else None.

Definition expect (c : ascii) (s : string) : option string :=
  match s with
  | String c' s' => if decide (c = c') then Some s' else None
  | EmptyString => None
  end.

(** [date.fromisoformat(s)] *)
Definition date_fromisoformat (s : string) : option date :=
  '(y, s) ← read_digits 4 0 s; s ← expect "-" s;
  '(m, s) ← read_digits 2 0 s; s ← expect "-" s;
  '(d, s) ← read_digits 2 0 s;
  match s with
  | EmptyString => if check_date_fields y m d then Some (Date y m d) else None
  | _ => None
  end.

(** [datetime.fromisoformat(s)] for the naive form with a [T] separator and
    an optional six-digit fraction.  The string has no place for [fold]: the
    value read has [fold = 0]. *)
Definition datetime_fromisoformat (s : string) : option datetime :=
  '(y, s) ← read_digits 4 0 s; s ← expect "-" s;
  '(m, s) ← read_digits 2 0 s; s ← expect "-" s;
  '(d, s) ← read_digits 2 0 s; s ← expect "T" s;
  '(hh, s) ← read_digits 2 0 s; s ← expect ":" s;
  '(mm, s) ← read_digits 2 0 s; s ← expect ":" s;
  '(ss, s) ← read_digits 2 0 s;
  '(us, s) ← match s with
             | EmptyString => Some (0, s)
             | _ => s ← expect "." s; read_digits 6 0 s
             end;
  match s with
  | EmptyString =>
      if check_date_fields y m d && check_time_fields hh mm ss us 0
      then Some (DateTime y m d hh mm ss us 0) else None
  | _ => None
  end.

(** The instant, in whole seconds since the epoch, that a naive ISO string
    denotes under the local-time rules [tz]:
    [int(datetime.fromisoformat(s).replace(microsecond=0).timestamp())]. *)
Definition instant_of_iso (tz : Z → Z) (s : string) : option Z :=
  dt ← datetime_fromisoformat s; Some (mktime tz dt).

(** The instant that an epoch timestamp denotes. *)
Definition instant_of_timestamp (ts : Z) : option Z := Some ts.

(** ** [uuid.uuid4()] and [str] of it *)

Definition hex_char (d : Z) : ascii :=
  default "0"%char (list_ascii_of_string "0123456789abcdef" !! Z.to_nat d).

(** ["%0wx" % n] for [0 <= n < 16^w]. *)
Fixpoint hexpad (w : nat) (n : Z) : string :=
  match w with
  | O => ""
  | S w' => String (hex_char (n / 16 ^ Z.of_nat w'))
                   (hexpad w' (n `mod` 16 ^ Z.of_nat w'))
  end.

(** 128 random bits with the variant and version fields set as
    [UUID(bytes=os.urandom(16), version=4)] sets them. *)
Definition uuid4 : M Z :=
  r ← randbelow (2 ^ 128);
  let i := Z.lor (Z.ldiff r (Z.shiftl 0xc000 48)) (Z.shiftl 0x8000 48) in
  let i := Z.lor (Z.ldiff i (Z.shiftl 0xf000 64)) (Z.shiftl 4 76) in
  mret i.

Definition uuid_str (u : Z) : string :=
  let hex := hexpad 32 u in
  substring 0 8 hex +:+ "-" +:+ substring 8 4 hex +:+ "-"
  +:+ substring 12 4 hex +:+ "-" +:+ substring 16 4 hex +:+ "-"
  +:+ substring 20 12 hex.

(** ** The helpers of [main.py] *)

(** [s.lower()] on ASCII text *)
Definition lower_char (c : ascii) : ascii :=
  let n := nat_of_ascii c in
  if (65 <=? n)%nat && (n <=? 90)%nat then ascii_of_nat (n + 32) else c.

Definition lower (s : string) : string :=
  string_of_list_ascii (lower_char <$> list_ascii_of_string s).

Definition generate_random_string (length : nat) : M string :=
  cs ← choices (list_ascii_of_string (ascii_letters +:+ digits)) length;
  mret (string_of_list_ascii cs).

Definition generate_random_email : M string :=
  let domains := ["gmail.com"; "yahoo.com"; "hotmail.com"; "example.com";
                  "test.org"] in
  s ← generate_random_string 8;
  let username := lower s in
  domain ← choice domains;
  mret (username +:+ "@" +:+ domain).

Definition all_tags : list string :=
  ["python"; "javascript"; "api"; "web"; "mobile"; "data"; "ai"; "ml";
   "backend"; "frontend"; "database"; "cloud"; "devops"; "security"].

Definition generate_random_tags : M (list string) :=
  num_tags ← randint 1 5;
  sample all_tags num_tags.

(** The dictionary built by [generate_random_metadata] has six fixed keys;
    it is a record with one field per key. *)
Record Metadata := {
  department : string;
  location : string;
  experience_years : Z;
  skills : list string;
  certification : bool;
  last_login : string
}.

Definition all_skills : list string :=
  ["Python"; "Java"; "React"; "Node.js"; "SQL"; "Docker"].

Definition generate_random_metadata : M Metadata :=
  department ← choice ["Engineering"; "Marketing"; "Sales"; "HR"; "Finance"];
  location ← choice ["New York"; "San Francisco"; "London"; "Tokyo"; "Berlin"];
  experience_years ← randint 1 20;
  k ← randint 2 4;
  skills ← sample all_skills k;
  certification ← choice [true; false];
  t ← now;
  mret {| department := department; location := location;
          experience_years := experience_years; skills := skills;
          certification := certification;
          last_login := datetime_isoformat t |}.

(** ** The data models *)

Module DataObject.
Record t := {
  id : Z;
  uuid : string;
  name : string;
  email : string;
  age : Z;
  height : Z;          (* hundredths *)
  weight : Z;          (* hundredths *)
  is_active : bool;
  balance : Z;         (* hundredths *)
  birth_date : string;
  created_at : string;
  tags : list string;
  metadata : Metadata;
  score : option Z;    (* hundredths *)
  description : option string
}.
End DataObject.

Module DataObjectWithDifferentDates.
Record t := {
  id : Z;
  uuid : string;
  name : string;
  email : string;
  age : Z;
  height : Z;
  weight : Z;
  is_active : bool;
  balance : Z;
  birth_date_iso : string;
  birth_date_us : string;
  birth_date_eu : string;
  birth_date_long : string;
  created_at_iso : string;
  created_at_timestamp : Z;
  created_at_readable : string;
  tags : list string;
  metadata : Metadata;
  score : option Z;
  description : option string
}.
End DataObjectWithDifferentDates.

(** [PaginatedResponse] and [PaginatedResponseWithDifferentDates] differ
    only in the type of the entries of [data]. *)
Record PaginatedResponse (A : Type) := {
  data : list A;
  total : Z;
  page : Z;
  page_size : Z;
  total_pages : Z;
  has_next : bool;
  has_previous : bool
}.
Arguments data {A} _.
Arguments total {A} _.
Arguments page {A} _.
Arguments page_size {A} _.
Arguments total_pages {A} _.
Arguments has_next {A} _.
Arguments has_previous {A} _.

(** ** The record synthesizers

    Keyword arguments are evaluated left to right, and the condition of a
    conditional expression before its branch; the draws are made in that
    order. *)

Definition generate_data_object (id : Z) : M DataObject.t :=
  u ← uuid4;
  s ← generate_random_string 6;
  email ← generate_random_email;
  age ← randint 18 80;
  height ← uniform_round2 150 200;
  weight ← uniform_round2 45 120;
  is_active ← choice [true; false];
  balance ← uniform_round2 0 100000;
  y ← randint 1940 2005;
  m ← randint 1 12;
  d ← randint 1 28;
  birth ← date_new y m d;
  created ← now;
  tags ← generate_random_tags;
  metadata ← generate_random_metadata;
  with_score ← choice [true; false];
  score ← (if with_score : bool
           then v ← uniform_round2 0 100; mret (Some v)
           else mret None);
  with_description ← choice [true; false];
  mret {| DataObject.id := id;
          DataObject.uuid := uuid_str u;
          DataObject.name := "User " +:+ s;
          DataObject.email := email;
          DataObject.age := age;
          DataObject.height := height;
          DataObject.weight := weight;
          DataObject.is_active := is_active;
          DataObject.balance := balance;
          DataObject.birth_date := date_isoformat birth;
          DataObject.created_at := datetime_isoformat created;
          DataObject.tags := tags;
          DataObject.metadata := metadata;
          DataObject.score := score;
          DataObject.description :=
            if with_description : bool
            then Some ("This is a sample description for user " +:+ pretty id)
            else None |}.

Definition generate_data_object_with_different_dates (id : Z)
    : M DataObjectWithDifferentDates.t :=
  y ← randint 1940 2005;
  m ← randint 1 12;
  d ← randint 1 28;
  birth_date_obj ← date_new y m d;
  t ← now;
  cy ← randint 2020 2024;
  cm ← randint 1 12;
  cd ← randint 1 28;
  chh ← randint 0 23;
  cmm ← randint 0 59;
  created_datetime ← replace_ymdhm t cy cm cd chh cmm;
  u ← uuid4;
  s ← generate_random_string 6;
  email ← generate_random_email;
  age ← randint 18 80;
  height ← uniform_round2 150 200;
  weight ← uniform_round2 45 120;
  is_active ← choice [true; false];
  balance ← uniform_round2 0 100000;
  tz ← local_zone;
  tags ← generate_random_tags;
  metadata ← generate_random_metadata;
  with_score ← choice [true; false];
  score ← (if with_score : bool
           then v ← uniform_round2 0 100; mret (Some v)
           else mret None);
  with_description ← choice [true; false];
  mret {| DataObjectWithDifferentDates.id := id;
          DataObjectWithDifferentDates.uuid := uuid_str u;
          DataObjectWithDifferentDates.name := "User " +:+ s;
          DataObjectWithDifferentDates.email := email;
          DataObjectWithDifferentDates.age := age;
          DataObjectWithDifferentDates.height := height;
          DataObjectWithDifferentDates.weight := weight;
          DataObjectWithDifferentDates.is_active := is_active;
          DataObjectWithDifferentDates.balance := balance;
          DataObjectWithDifferentDates.birth_date_iso :=
            date_isoformat birth_date_obj;
          DataObjectWithDifferentDates.birth_date_us :=
            date_strftime "%m/%d/%Y" birth_date_obj;
          DataObjectWithDifferentDates.birth_date_eu :=
            date_strftime "%d/%m/%Y" birth_date_obj;
          DataObjectWithDifferentDates.birth_date_long :=
            date_strftime "%B %d, %Y" birth_date_obj;
          DataObjectWithDifferentDates.created_at_iso :=
            datetime_isoformat created_datetime;
          DataObjectWithDifferentDates.created_at_timestamp :=
            int_timestamp tz created_datetime;
          DataObjectWithDifferentDates.created_at_readable :=
            strftime "%a, %b %d %Y %I:%M %p" created_datetime;
          DataObjectWithDifferentDates.tags := tags;
          DataObjectWithDifferentDates.metadata := metadata;
          DataObjectWithDifferentDates.score := score;
          DataObjectWithDifferentDates.description :=
            if with_description : bool
            then Some ("This is a sample description for user " +:+ pretty id)
            else None |}.

(** ** The paginated endpoints *)

(** [a // b] *)
Definition floordiv (a b : Z) : M Z :=
  if b =? 0 then raise ZeroDivisionError else mret (a / b).

(** [range(start, stop)] *)
Definition range (start stop : Z) : list Z := seqZ start (stop - start).

(** [for i in l: data.append(body(i))] *)
Fixpoint for_append {A} (body : Z → M A) (l : list Z) (data : list A)
    : M (list A) :=
  match l with
  | [] => mret data
  | i :: l' => x ← body i; for_append body l' (data ++ [x])
  end.

Definition get_data (page page_size total_records : Z)
    : M (PaginatedResponse DataObject.t) :=
  let total_items := total_records in
  total_pages ← floordiv (total_items + page_size - 1) page_size;
  let start_index := (page - 1) * page_size in
  let end_index := Z.min (start_index + page_size) total_items in
  data ← for_append (λ i, generate_data_object (i + 1))
           (range start_index end_index) [];
  mret {| data := data;
          total := total_items;
          page := page;
          page_size := page_size;
          total_pages := total_pages;
          has_next := page <? total_pages;
          has_previous := 1 <? page |}.

Definition get_data_with_date_formats (page page_size total_records : Z)
    : M (PaginatedResponse DataObjectWithDifferentDates.t) :=
  let total_items := total_records in
  total_pages ← floordiv (total_items + page_size - 1) page_size;
  let start_index := (page - 1) * page_size in
  let end_index := Z.min (start_index + page_size) total_items in
  data ← for_append (λ i, generate_data_object_with_different_dates (i + 1))
           (range start_index end_index) [];
  mret {| data := data;
          total := total_items;
          page := page;
          page_size := page_size;
          total_pages := total_pages;
          has_next := page <? total_pages;
          has_previous := 1 <? page |}.

(** *** Query parameters

    [Query(default, ge=.., le=..)] declares an integer parameter; the
    framework answers 422 when a supplied value breaks a bound and calls the
    endpoint body only with values that pass.  A request carries, for each
    parameter, either no value or an integer. *)
Record Query := { q_default : Z; ge : option Z; le : option Z }.

Definition within (q : Query) (v : Z) : bool :=
  match ge q with Some lo => lo <=? v | None => true end
  && match le q with Some hi => v <=? hi | None => true end.

Definition resolve (q : Query) (raw : option Z) : option Z :=
  let v := default (q_default q) raw in
  if within q v then Some v else None.

Definition page_query : Query :=
  {| q_default := 1; ge := Some 1; le := None |}.
Definition page_size_query : Query :=
  {| q_default := 10; ge := Some 1; le := Some 100 |}.
Definition total_records_query : Query :=
  {| q_default := 1000; ge := Some 1; le := Some 10000 |}.

Inductive response (A : Type) :=
  | Status200 (body : A)
  | Status422.
Arguments Status200 {A} body.
Arguments Status422 {A}.

Record request := {
  raw_page : option Z;
  raw_page_size : option Z;
  raw_total_records : option Z
}.

Definition route {A} (body : Z → Z → Z → M A) (req : request) : M (response A) :=
  match resolve page_query (raw_page req),
        resolve page_size_query (raw_page_size req),
        resolve total_records_query (raw_total_records req) with
  | Some page, Some page_size, Some total_records =>
      r ← body page page_size total_records; mret (Status200 r)
  | _, _, _ => mret Status422
  end.

(** [GET /api/data] and [GET /api/data-with-date-formats] *)
Definition api_data := route get_data.
Definition api_data_with_date_formats := route get_data_with_date_formats.

(** ** JSON values and the schema document *)

#[warnings="-register-all"]
Inductive json :=
  | JNull
  | JBool (b : bool)
  | JInt (n : Z)
  | JFloat (hundredths : Z)
  | JString (s : string)
  | JArray (l : list json)
  | JObject (fields : list (string * json)).

Inductive jtype := TInteger | TNumber | TString | TBoolean | TArray | TObject | TNull.

Global Instance jtype_eq_dec : EqDecision jtype.
Proof. solve_decision. Defined.

(** One entry of the schema's ["properties"]. *)
Record property := {
  p_type : list jtype;
  p_format : option string;
  p_minimum : option Z;
  p_maximum : option Z;
  p_items : option jtype;
  p_description : string
}.

Record schema := {
  s_title : string;
  s_description : string;
  s_type : jtype;
  properties : list (string * property);
  required : list string
}.

Definition prop (ty : list jtype) (descr : string) : property :=
  {| p_type := ty; p_format := None; p_minimum := None; p_maximum := None;
     p_items := None; p_description := descr |}.

Definition get_schema : schema := {|
  s_title := "DataObject Schema";
  s_description := "Schema for the JSON objects returned by the API";
  s_type := TObject;
  properties := [
    ("id", prop [TInteger] "Unique identifier");
    ("uuid", {| p_type := [TString]; p_format := Some "uuid"; p_minimum := None;
                p_maximum := None; p_items := None;
                p_description := "UUID string" |});
    ("name", prop [TString] "User name");
    ("email", {| p_type := [TString]; p_format := Some "email";
                 p_minimum := None; p_maximum := None; p_items := None;
                 p_description := "Email address" |});
    ("age", {| p_type := [TInteger]; p_format := None; p_minimum := Some 0;
               p_maximum := Some 150; p_items := None;
               p_description := "Age in years" |});
    ("height", prop [TNumber] "Height in centimeters");
    ("weight", prop [TNumber] "Weight in kilograms");
    ("is_active", prop [TBoolean] "Active status");
    ("balance", prop [TNumber] "Account balance");
    ("birth_date", {| p_type := [TString]; p_format := Some "date";
                      p_minimum := None; p_maximum := None; p_items := None;
                      p_description := "Birth date in ISO format" |});
    ("created_at", {| p_type := [TString]; p_format := Some "date-time";
                      p_minimum := None; p_maximum := None; p_items := None;
                      p_description := "Creation timestamp" |});
    ("tags", {| p_type := [TArray]; p_format := None; p_minimum := None;
                p_maximum := None; p_items := Some TString;
                p_description := "Array of tags" |});
    ("metadata", prop [TObject] "Additional metadata object");
    ("score", prop [TNumber; TNull] "Optional score value");
    ("description", prop [TString; TNull] "Optional description")
  ];
  required := ["id"; "uuid"; "name"; "email"; "age"; "height"; "weight";
               "is_active"; "balance"; "birth_date"; "created_at"; "tags";
               "metadata"]
|}.

(** JSON Schema validation, for the keywords the document uses: ["type"],
    ["minimum"], ["maximum"], ["items"] and ["required"] (["format"] and
    ["description"] are annotations). *)
Definition has_type (v : json) (ty : jtype) : bool :=
  match v, ty with
  | JNull, TNull => true
  | JBool _, TBoolean => true
  | JInt _, TInteger | JInt _, TNumber => true
  | JFloat h, TNumber => true
  | JFloat h, TInteger => h `mod` 100 =? 0
  | JString _, TString => true
  | JArray _, TArray => true
  | JObject _, TObject => true
  | _, _ => false
  end.

(** A bound applies to numbers only; [b] is in units, a float in hundredths. *)
Definition at_least (b : Z) (v : json) : bool :=
  match v with JInt n => b <=? n | JFloat h => b * 100 <=? h | _ => true end.
Definition at_most (b : Z) (v : json) : bool :=
  match v with JInt n => n <=? b | JFloat h => h <=? b * 100 | _ => true end.

Definition valid_property (p : property) (v : json) : bool :=
  existsb (has_type v) (p_type p)
  && match p_minimum p with Some b => at_least b v | None => true end
  && match p_maximum p with Some b => at_most b v | None => true end
  && match p_items p, v with
     | Some ty, JArray l => forallb (λ x, has_type x ty) l
     | _, _ => true
     end.

(** [d.get(k)] on a dictionary kept as its list of items *)
Fixpoint assoc {V} (k : string) (l : list (string * V)) : option V :=
  match l with
  | [] => None
  | (k', v) :: l' => if decide (k = k') then Some v else assoc k l'
  end.

Definition validate (s : schema) (v : json) : bool :=
  has_type v (s_type s)
  && match v with
     | JObject fields =>
         forallb (λ k, bool_decide (is_Some (assoc k fields))) (required s)
         && forallb (λ kv, match assoc kv.1 (properties s) with
                           | Some p => valid_property p kv.2
                           | None => true
                           end) fields
     | _ => true
     end.

(** *** The JSON body of a [DataObject] (the response model's encoding:
    every field is written, [None] as [null]) *)
Definition metadata_json (m : Metadata) : json :=
  JObject [("department", JString (department m));
           ("location", JString (location m));
           ("experience_years", JInt (experience_years m));
           ("skills", JArray (JString <$> skills m));
           ("certification", JBool (certification m));
           ("last_login", JString (last_login m))].

Definition data_object_fields (r : DataObject.t) : list (string * json) :=
  [("id", JInt (DataObject.id r));
   ("uuid", JString (DataObject.uuid r));
   ("name", JString (DataObject.name r));
   ("email", JString (DataObject.email r));
   ("age", JInt (DataObject.age r));
   ("height", JFloat (DataObject.height r));
   ("weight", JFloat (DataObject.weight r));
   ("is_active", JBool (DataObject.is_active r));
   ("balance", JFloat (DataObject.balance r));
   ("birth_date", JString (DataObject.birth_date r));
   ("created_at", JString (DataObject.created_at r));
   ("tags", JArray (JString <$> DataObject.tags r));
   ("metadata", metadata_json (DataObject.metadata r));
   ("score", from_option JFloat JNull (DataObject.score r));
   ("description", from_option JString JNull (DataObject.description r))].

Definition data_object_json (r : DataObject.t) : json :=
  JObject (data_object_fields r).

(** ** Vocabulary of the statements *)

(** [returns m w P]: run in world [w], [m] raises nothing, leaves the
    platform as it is and returns a value that satisfies [P]. *)
Definition returns {A} (m : M A) (w : World) (P : A → Prop) : Prop :=
  ∃ a w', m w = Ok (a, w') ∧ platform w' = platform w ∧ P a.

(** What [generate_random_tags] promises of its result. *)
Definition tags_post (l : list string) : Prop :=
  (1 ≤ length l ≤ 5)%nat ∧ l ⊆+ all_tags.

(** What [generate_random_metadata] promises of ["skills"]. *)
Definition skills_post (l : list string) : Prop :=
  (2 ≤ length l ≤ 4)%nat ∧ l ⊆+ all_skills.

(** The ranges the date fields are drawn from. *)
Definition birth_range (d : date) : Prop :=
  1940 ≤ year d ≤ 2005 ∧ 1 ≤ month d ≤ 12 ∧ 1 ≤ day d ≤ 28.

Definition created_range (dt : datetime) : Prop :=
  2020 ≤ dt_year dt ≤ 2024 ∧ 1 ≤ dt_month dt ≤ 12 ∧ 1 ≤ dt_day dt ≤ 28
  ∧ 0 ≤ hour dt ≤ 23 ∧ 0 ≤ minute dt ≤ 59.

(** What the synthesizers promise of a record. *)
Definition standard_post (id : Z) (r : DataObject.t) : Prop :=
  DataObject.id r = id
  ∧ 18 ≤ DataObject.age r ≤ 80
  ∧ (∃ d, birth_range d ∧ DataObject.birth_date r = date_isoformat d)
  ∧ tags_post (DataObject.tags r)
  ∧ skills_post (skills (DataObject.metadata r)).

Definition multi_date_post (p : Platform) (id : Z)
    (r : DataObjectWithDifferentDates.t) : Prop :=
  DataObjectWithDifferentDates.id r = id
  ∧ (∃ d, birth_range d
        ∧ DataObjectWithDifferentDates.birth_date_iso r = date_isoformat d
        ∧ DataObjectWithDifferentDates.birth_date_us r
          = date_strftime "%m/%d/%Y" d
        ∧ DataObjectWithDifferentDates.birth_date_eu r
          = date_strftime "%d/%m/%Y" d
        ∧ DataObjectWithDifferentDates.birth_date_long r
          = date_strftime "%B %d, %Y" d)
  ∧ (∃ dt, created_range dt ∧ datetime_ok dt
        ∧ (∃ n, fold dt = fold (wallclock p n))
        ∧ DataObjectWithDifferentDates.created_at_iso r = datetime_isoformat dt
        ∧ DataObjectWithDifferentDates.created_at_timestamp r
          = int_timestamp (utcoffset p) dt)
  ∧ tags_post (DataObjectWithDifferentDates.tags r)
  ∧ skills_post (skills (DataObjectWithDifferentDates.metadata r)).

(** The code the two endpoint bodies share, around either synthesizer. *)
Definition paginate {A} (generate : Z → M A) (page page_size total_records : Z)
    : M (PaginatedResponse A) :=
  let total_items := total_records in
  total_pages ← floordiv (total_items + page_size - 1) page_size;
  let start_index := (page - 1) * page_size in
  let end_index := Z.min (start_index + page_size) total_items in
  data ← for_append (λ i, generate (i + 1)) (range start_index end_index) [];
  mret {| data := data;
          total := total_items;
          page := page;
          page_size := page_size;
          total_pages := total_pages;
          has_next := page <? total_pages;
          has_previous := 1 <? page |}.

(** What the envelope says of the plan, whatever the records are. *)
Definition planned {A} (pg sz tot : Z) (e : PaginatedResponse A) : Prop :=
  total e = tot
  ∧ page e = pg
  ∧ page_size e = sz
  ∧ total_pages e = (tot + sz - 1) / sz
  ∧ has_next e = (pg <? total_pages e)
  ∧ has_previous e = (1 <? pg).

(** The half-open range of indices of a page. *)
Definition start_index (pg sz : Z) : Z := (pg - 1) * sz.
Definition end_index (pg sz tot : Z) : Z := Z.min (start_index pg sz + sz) tot.

(** The inputs that pass the boundary. *)
Definition valid_input (pg sz tot : Z) : Prop :=
  1 ≤ pg ∧ 1 ≤ sz ≤ 100 ∧ 1 ≤ tot ≤ 10000.

(** The values the endpoint body is called with: the supplied ones, or the
    defaults. *)
Definition page_of (req : request) : Z := default 1 (raw_page req).
Definition page_size_of (req : request) : Z := default 10 (raw_page_size req).
Definition total_records_of (req : request) : Z :=
  default 1000 (raw_total_records req).

(** A platform and a world to run the program in. *)
Definition sample_platform : Platform := {|
  entropy := λ n, Z.of_nat n * 7919 + 12345678901234567;
  wallclock := λ _, DateTime 2026 11 3 9 31 7 123456 0;
  utcoffset := λ _, 19800
|}.

Definition sample_world : World :=
  {| platform := sample_platform; draws := 0; ticks := 0 |}.

(** What an envelope shows of the plan: every field but the records, and of
    the records their number and their identities. *)
Definition plan_view {A} (ident : A → Z) (e : PaginatedResponse A)
    : Z * Z * Z * Z * bool * bool * nat * list Z :=
  (total e, page e, page_size e, total_pages e, has_next e, has_previous e,
   length (data e), ident <$> data e).

Definition response_view {A} (ident : A → Z) (resp : response (PaginatedResponse A))
    : option (Z * Z * Z * Z * bool * bool * nat * list Z) :=
  match resp with
  | Status200 e => Some (plan_view ident e)
  | Status422 => None
  end.

Definition request_of (pg sz tot : Z) : request :=
  {| raw_page := Some pg; raw_page_size := Some sz;
     raw_total_records := Some tot |}.

(** The value of a run, if it raised nothing. *)
Definition outcome {A} (m : M A) (w : World) : option A :=
  match m w with
  | Ok (a, _) => Some a
  | Raise _ => None
  end.

(** A second platform, with another randomness source, clock and zone. *)
Definition other_platform : Platform := {|
  entropy := λ n, Z.of_nat (n * n) + 31;
  wallclock := λ n, DateTime 2025 2 28 23 59 (Z.of_nat n `mod` 60) 0 0;
  utcoffset := λ _, -18000
|}.

Definition other_world : World :=
  {| platform := other_platform; draws := 5; ticks := 2 |}.

(** What [isoformat] keeps of a value: every field but [fold]. *)
Definition unfolded (dt : datetime) : datetime :=
  DateTime (dt_year dt) (dt_month dt) (dt_day dt) (hour dt) (minute dt)
    (second dt) (microsecond dt) 0.

(** The clock is never read during the second pass through a repeated
    hour. *)
Definition first_pass (p : Platform) : Prop := ∀ n, fold (wallclock p n) = 0.

(** New York in the autumn of 2021: daylight time, four hours behind UTC,
    until 2021-11-07 06:00:00 UTC, standard time, five hours behind, from
    then on.  The local hour from 01:00 to 02:00 of that day comes twice. *)
Definition new_york_2021 (u : Z) : Z :=
  if u <? 1636264800 then -14400 else -18000.

(** A host in that zone that serves a request at 06:30:07.123456 UTC of that
    day, in the second pass through the repeated hour, so that
    [datetime.now()] reads 01:30:07.123456 with [fold = 1]; and a randomness
    source whose draws for the created instant are 2021, 11, 7, 1 and 30. *)
Definition repeated_hour_platform : Platform := {|
  entropy := λ n, default 0 ([0; 0; 0; 1; 10; 6; 1; 30] !! n);
  wallclock := λ _, DateTime 2021 11 7 1 30 7 123456 1;
  utcoffset := new_york_2021
|}.

Definition repeated_hour_world : World :=
  {| platform := repeated_hour_platform; draws := 0; ticks := 0 |}.

(** A platform whose every draw is 1: each coin lands on [False]. *)
Definition tails_platform : Platform := {|
  entropy := λ _, 1;
  wallclock := λ _, DateTime 2026 11 3 9 31 7 0 0;
  utcoffset := λ _, 0
|}.

Definition tails_world : World :=
  {| platform := tails_platform; draws := 0; ticks := 0 |}.

(** The properties the schema does not require. *)
Definition optional_properties (s : schema) : list string :=
  filter (λ k, k ∉ required s) (properties s).*1.

(** ** Vocabulary of the further statements *)

(** [runs m w Q]: run in world [w], [m] raises nothing and ends with a value
    and a world that satisfy [Q]. *)
Definition runs {A} (m : M A) (w : World) (Q : A → World → Prop) : Prop :=
  ∃ a w', m w = Ok (a, w') ∧ Q a w'.

(** [w'] is [w] after [k] more readings of the clock. *)
Definition later (k : nat) (w w' : World) : Prop :=
  platform w' = platform w ∧ ticks w' = (ticks w + k)%nat.

(** [m] never reads the clock. *)
Definition clockless {A} (m : M A) : Prop :=
  ∀ w a w', m w = Ok (a, w') → ticks w' = ticks w.

(** The reading of the clock at cursor position [n], as [isoformat] prints
    it. *)
Definition reading (w : World) (n : nat) : string :=
  datetime_isoformat (wallclock (platform w) n).

(** Text over an alphabet. *)
Definition text_over (alphabet s : string) : Prop :=
  Forall (λ c, c ∈ list_ascii_of_string alphabet) (list_ascii_of_string s).

(** The alphabets of the generated text. *)
Definition alphanumeric : string := ascii_letters +:+ digits.
Definition lower_alphanumeric : string := "abcdefghijklmnopqrstuvwxyz0123456789".

Definition domains : list string :=
  ["gmail.com"; "yahoo.com"; "hotmail.com"; "example.com"; "test.org"].
Definition departments : list string :=
  ["Engineering"; "Marketing"; "Sales"; "HR"; "Finance"].
Definition locations : list string :=
  ["New York"; "San Francisco"; "London"; "Tokyo"; "Berlin"].

(** The integer [uuid4] makes of 128 random bits. *)
Definition uuid4_of (r : Z) : Z :=
  Z.lor (Z.ldiff (Z.lor (Z.ldiff r (Z.shiftl 0xc000 48)) (Z.shiftl 0x8000 48))
           (Z.shiftl 0xf000 64))
    (Z.shiftl 4 76).

(** What [generate_random_email] returns: eight lower-case characters, an
    at sign and one of the five domains. *)
Definition email_shape (e : string) : Prop :=
  ∃ username domain,
    e = username +:+ "@" +:+ domain
    ∧ String.length username = 8%nat
    ∧ text_over lower_alphanumeric username
    ∧ domain ∈ domains.

(** What [generate_random_metadata] returns when the clock is at [n]. *)
Definition metadata_detail (w : World) (n : nat) (m : Metadata) : Prop :=
  department m ∈ departments
  ∧ location m ∈ locations
  ∧ 1 ≤ experience_years m ≤ 20
  ∧ skills_post (skills m)
  ∧ last_login m = reading w n.

(** The fields the two record shapes share. *)
Definition common_detail (id : Z) (uuid name email : string)
    (age height weight balance : Z) (tags : list string)
    (score : option Z) (description : option string) : Prop :=
  (∃ r, 0 ≤ r < 2 ^ 128 ∧ uuid = uuid_str (uuid4_of r))
  ∧ (∃ s, name = "User " +:+ s ∧ String.length s = 6%nat
          ∧ text_over alphanumeric s)
  ∧ email_shape email
  ∧ 18 ≤ age ≤ 80
  ∧ 15000 ≤ height ≤ 20000
  ∧ 4500 ≤ weight ≤ 12000
  ∧ 0 ≤ balance ≤ 10000000
  ∧ tags_post tags
  ∧ (∀ v, score = Some v → 0 ≤ v ≤ 10000)
  ∧ (∀ t, description = Some t →
       t = "This is a sample description for user " +:+ pretty id).

(** Everything [generate_data_object] settles of a record made in world
    [w]. *)
Definition standard_detail (w : World) (id : Z) (r : DataObject.t) : Prop :=
  DataObject.id r = id
  ∧ common_detail id (DataObject.uuid r) (DataObject.name r)
      (DataObject.email r) (DataObject.age r) (DataObject.height r)
      (DataObject.weight r) (DataObject.balance r) (DataObject.tags r)
      (DataObject.score r) (DataObject.description r)
  ∧ (∃ d, birth_range d ∧ DataObject.birth_date r = date_isoformat d)
  ∧ DataObject.created_at r = reading w (ticks w)
  ∧ metadata_detail w (S (ticks w)) (DataObject.metadata r).

(** Everything [generate_data_object_with_different_dates] settles of a
    record made in world [w]: the created instant keeps the second, the
    microsecond and the [fold] of the clock reading it replaces the other
    fields of. *)
Definition multi_date_detail (w : World) (id : Z)
    (r : DataObjectWithDifferentDates.t) : Prop :=
  DataObjectWithDifferentDates.id r = id
  ∧ common_detail id (DataObjectWithDifferentDates.uuid r)
      (DataObjectWithDifferentDates.name r)
      (DataObjectWithDifferentDates.email r)
      (DataObjectWithDifferentDates.age r)
      (DataObjectWithDifferentDates.height r)
      (DataObjectWithDifferentDates.weight r)
      (DataObjectWithDifferentDates.balance r)
      (DataObjectWithDifferentDates.tags r)
      (DataObjectWithDifferentDates.score r)
      (DataObjectWithDifferentDates.description r)
  ∧ (∃ d, birth_range d
        ∧ DataObjectWithDifferentDates.birth_date_iso r = date_isoformat d
        ∧ DataObjectWithDifferentDates.birth_date_us r
          = date_strftime "%m/%d/%Y" d
        ∧ DataObjectWithDifferentDates.birth_date_eu r
          = date_strftime "%d/%m/%Y" d
        ∧ DataObjectWithDifferentDates.birth_date_long r
          = date_strftime "%B %d, %Y" d)
  ∧ (∃ dt, created_range dt ∧ datetime_ok dt
        ∧ second dt = second (wallclock (platform w) (ticks w))
        ∧ microsecond dt = microsecond (wallclock (platform w) (ticks w))
        ∧ fold dt = fold (wallclock (platform w) (ticks w))
        ∧ DataObjectWithDifferentDates.created_at_iso r = datetime_isoformat dt
        ∧ DataObjectWithDifferentDates.created_at_timestamp r
          = int_timestamp (utcoffset (platform w)) dt
        ∧ DataObjectWithDifferentDates.created_at_readable r
          = strftime "%a, %b %d %Y %I:%M %p" dt)
  ∧ metadata_detail w (S (ticks w)) (DataObjectWithDifferentDates.metadata r).

(** The world of platform [p] with the clock at [n]. *)
Definition world_at (p : Platform) (n : nat) : World :=
  {| platform := p; draws := 0; ticks := n |}.

(** The identities an envelope shows, for either record shape. *)
Definition standard_ids (e : PaginatedResponse DataObject.t) : list Z :=
  DataObject.id <$> data e.
Definition multi_date_ids (e : PaginatedResponse DataObjectWithDifferentDates.t)
    : list Z :=
  DataObjectWithDifferentDates.id <$> data e.

(** The pages 1 .. total_pages of a record set, fetched in one world. *)
Definition sample_pages : list (PaginatedResponse DataObject.t) :=
  default [] (mapM (λ pg, outcome (get_data pg 3 10) sample_world) (seqZ 1 4)).

(** *** Reading the readable rendering

    [datetime.strptime(s, fmt)] for the directives of
    ["%a, %b %d %Y %I:%M %p"].  [found] is what the directives collect; the
    weekday is read and not used, and the hour is put together from [%I]
    and [%p] as CPython does. *)
Record found := Found {
  found_year : Z; found_month : Z; found_day : Z;
  found_hour12 : Z; found_minute : Z; found_pm : bool; found_weekday : Z
}.

Definition strptime_field (c : ascii) (acc : found) (s : string)
    : option (found * string) :=
  let '(Found y m d h12 mi pm wd) := acc in
  match c with
  | "a"%char => '(v, s') ← read_name DAY_ABBR 0 s; Some (Found y m d h12 mi pm v, s')
  | "b"%char => '(v, s') ← read_name MONTH_ABBR 1 s; Some (Found y v d h12 mi pm wd, s')
  | "d"%char => '(v, s') ← read_digits 2 0 s; Some (Found y m v h12 mi pm wd, s')
  | "Y"%char => '(v, s') ← read_digits 4 0 s; Some (Found v m d h12 mi pm wd, s')
  | "I"%char =>
      '(v, s') ← read_digits 2 0 s;
      if (1 <=? v) && (v <=? 12) then Some (Found y m d v mi pm wd, s') else None
  | "M"%char => '(v, s') ← read_digits 2 0 s; Some (Found y m d h12 v pm wd, s')
  | "p"%char =>
      '(v, s') ← read_name ["AM"; "PM"] 0 s;
      Some (Found y m d h12 mi (v =? 1) wd, s')
  | _ => None
  end.

Fixpoint strptime_fields (fmt : string) (acc : found) (s : string)
    : option found :=
  match fmt with
  | EmptyString => match s with EmptyString => Some acc | _ => None end
  | String "%"%char (String c rest) =>
      '(acc', s') ← strptime_field c acc s; strptime_fields rest acc' s'
  | String c rest =>
      match s with
      | String c' s' =>
          if decide (c = c') then strptime_fields rest acc s' else None
      | EmptyString => None
      end
  end.

(** The hour of a 12-hour reading: 12 AM is 0, and PM adds 12 to every hour
    but 12. *)
Definition hour_of_12 (h12 : Z) (pm : bool) : Z :=
  if pm then (if h12 =? 12 then h12 else h12 + 12)
  else (if h12 =? 12 then 0 else h12).

Definition strptime (s fmt : string) : option datetime :=
  f ← strptime_fields fmt (Found 1900 1 1 12 0 false 0) s;
  let hh := hour_of_12 (found_hour12 f) (found_pm f) in
  if check_date_fields (found_year f) (found_month f) (found_day f)
     && check_time_fields hh (found_minute f) 0 0 0
  then Some (DateTime (found_year f) (found_month f) (found_day f)
               hh (found_minute f) 0 0 0)
  else None.

(** A value cut to the minute. *)
Definition to_the_minute (dt : datetime) : datetime :=
  DateTime (dt_year dt) (dt_month dt) (dt_day dt) (hour dt) (minute dt) 0 0 0.

(** A platform whose draws are 1 at the positions [ones] and 0 elsewhere: a
    coin drawn at a position of [ones] lands on [False], any other on
    [True]. *)
Definition coin_platform (ones : list nat) : Platform := {|
  entropy := λ n, if bool_decide (n ∈ ones) then 1 else 0;
  wallclock := λ _, DateTime 2026 11 3 9 31 7 0 0;
  utcoffset := λ _, 0
|}.

Definition coin_world (ones : list nat) : World :=
  {| platform := coin_platform ones; draws := 0; ticks := 0 |}.

(** *** The JSON body of a [DataObjectWithDifferentDates] *)
Definition multi_date_fields (r : DataObjectWithDifferentDates.t)
    : list (string * json) :=
  [("id", JInt (DataObjectWithDifferentDates.id r));
   ("uuid", JString (DataObjectWithDifferentDates.uuid r));
   ("name", JString (DataObjectWithDifferentDates.name r));
   ("email", JString (DataObjectWithDifferentDates.email r));
   ("age", JInt (DataObjectWithDifferentDates.age r));
   ("height", JFloat (DataObjectWithDifferentDates.height r));
   ("weight", JFloat (DataObjectWithDifferentDates.weight r));
   ("is_active", JBool (DataObjectWithDifferentDates.is_active r));
   ("balance", JFloat (DataObjectWithDifferentDates.balance r));
   ("birth_date_iso", JString (DataObjectWithDifferentDates.birth_date_iso r));
   ("birth_date_us", JString (DataObjectWithDifferentDates.birth_date_us r));
   ("birth_date_eu", JString (DataObjectWithDifferentDates.birth_date_eu r));
   ("birth_date_long",
    JString (DataObjectWithDifferentDates.birth_date_long r));
   ("created_at_iso", JString (DataObjectWithDifferentDates.created_at_iso r));
   ("created_at_timestamp",
    JInt (DataObjectWithDifferentDates.created_at_timestamp r));
   ("created_at_readable",
    JString (DataObjectWithDifferentDates.created_at_readable r));
   ("tags", JArray (JString <$> DataObjectWithDifferentDates.tags r));
   ("metadata", metadata_json (DataObjectWithDifferentDates.metadata r));
   ("score", from_option JFloat JNull (DataObjectWithDifferentDates.score r));
   ("description",
    from_option JString JNull (DataObjectWithDifferentDates.description r))].

Definition multi_date_json (r : DataObjectWithDifferentDates.t) : json :=
  JObject (multi_date_fields r).

(** Which of the two optional fields a record carries. *)
Definition standard_options (r : DataObject.t) : bool * bool :=
  (bool_decide (is_Some (DataObject.score r)),
   bool_decide (is_Some (DataObject.description r))).
Definition multi_date_options (r : DataObjectWithDifferentDates.t)
    : bool * bool :=
  (bool_decide (is_Some (DataObjectWithDifferentDates.score r)),
   bool_decide (is_Some (DataObjectWithDifferentDates.description r))).

(** The draws that settle the two coins of a record, by record shape: the
    positions to set to 1 so that the score, respectively the description,
    is left out. *)
Definition standard_coins (with_score with_description : bool) : list nat :=
  (if with_score then [] else [33%nat])
  ++ (if with_description then []
      else [if with_score then 35%nat else 34%nat]).
Definition multi_date_coins (with_score with_description : bool) : list nat :=
  (if with_score then [] else [38%nat])
  ++ (if with_description then []
      else [if with_score then 40%nat else 39%nat]).

(** *** The text of a version-4 UUID *)

Definition hex_digits : string := "0123456789abcdef".

(** The [k]-th hexadecimal digit of [u], counted from the right. *)
Definition nibble (u : Z) (k : nat) : Z :=
  Z.land (Z.shiftr u (4 * Z.of_nat k)) 15.

(** [8-4-4-4-12] lower-case hexadecimal digits between hyphens, the third
    group led by the version [4], the fourth by a variant digit. *)
Definition uuid_shape (s : string) : Prop :=
  ∃ a b c v d e,
    s = a +:+ "-" +:+ b +:+ "-" +:+ String "4" c +:+ "-" +:+ String v d
        +:+ "-" +:+ e
    ∧ String.length a = 8%nat ∧ String.length b = 4%nat
    ∧ String.length c = 3%nat ∧ String.length d = 3%nat
    ∧ String.length e = 12%nat
    ∧ text_over hex_digits (a +:+ b +:+ c +:+ d +:+ e)
    ∧ v ∈ list_ascii_of_string "89ab".

(** * Reasoning about effectful code *)

Section returns_rules.
Context {A B : Type}.
Implicit Types (m : M A) (f : A → M B) (P : A → Prop) (Q : B → Prop).

Lemma returns_intro m w P a w' :
  m w = Ok (a, w') → platform w' = platform w → P a → returns m w P.
Proof. intros. by exists a, w'. Qed.

Lemma returns_ret (a : A) w P : P a → returns (mret a) w P.
Proof. intros HP. by eapply returns_intro. Qed.

Lemma returns_bind m f w P Q :
  returns m w P →
  (∀ a w', platform w' = platform w → P a → returns (f a) w' Q) →
  returns (m ≫= f) w Q.
Proof.
  intros (a & w1 & Hm & Hp & Ha) Hf.
  destruct (Hf a w1 Hp Ha) as (b & w2 & Hb & Hp2 & HQ).
  exists b, w2. split_and!; [|congruence|done].
  unfold mbind, M_bind. by rewrite Hm.
Qed.

Lemma returns_impl m w P (P' : A → Prop) :
  returns m w P → (∀ a, P a → P' a) → returns m w P'.
Proof. intros (a & w' & ? & ? & ?) HPP. exists a, w'. auto. Qed.
End returns_rules.

(** One step through a [bind]: the rule of the first action, then the
    continuation with its result named. *)
Tactic Notation "step" uconstr(rule) "as" simple_intropattern(x)
    simple_intropattern(Hx) :=
  eapply returns_bind; [eapply rule | intros x ? ? Hx; cbv beta in *].
Tactic Notation "step" uconstr(rule) := step rule as ? ?.

(** Every world of a run has the platform of the first. *)
Ltac same_platform :=
  repeat match goal with
         | H : platform ?w = platform _ |- context [platform ?w] => rewrite H
         end.

Lemma returns_randbelow n w : 0 < n → returns (randbelow n) w (λ r, 0 ≤ r < n).
Proof.
  intros Hn. eapply returns_intro; [reflexivity|done|].
  by apply Z.mod_pos_bound.
Qed.

Lemma returns_randint a b w : a ≤ b → returns (randint a b) w (λ r, a ≤ r ≤ b).
Proof.
  intros Hab. unfold randint.
  destruct (Z.ltb_spec 0 (b + 1 - a)); [|lia].
  step returns_randbelow; [lia|].
  apply returns_ret. lia.
Qed.

Lemma returns_uniform_round2 a b w :
  a ≤ b → returns (uniform_round2 a b) w (λ r, a * 100 ≤ r ≤ b * 100).
Proof.
  intros Hab. unfold uniform_round2.
  step returns_randbelow; [lia|].
  apply returns_ret. lia.
Qed.

Lemma returns_getitem {A} (l : list A) i w :
  0 ≤ i < Z.of_nat (length l) →
  returns (getitem l i) w (λ x, l !! Z.to_nat i = Some x).
Proof.
  intros Hi. unfold getitem.
  destruct (lookup_lt_is_Some_2 l (Z.to_nat i)) as [x Hx]; [lia|].
  rewrite Hx. by apply returns_ret.
Qed.

Lemma returns_choice {A} (l : list A) w :
  l ≠ [] → returns (choice l) w (λ x, x ∈ l).
Proof.
  intros Hl. unfold choice. rewrite decide_False by done.
  assert (0 < Z.of_nat (length l)) by (destruct l; simpl; [done|lia]).
  step returns_randbelow; [done|].
  eapply returns_impl; [by apply returns_getitem|].
  intros x Hx. exact (list_elem_of_lookup_2 _ _ _ Hx).
Qed.

Lemma returns_choices {A} (population : list A) k w :
  population ≠ [] →
  returns (choices population k) w
    (λ l, length l = k ∧ Forall (λ x, x ∈ population) l).
Proof.
  intros Hl.
  assert (0 < Z.of_nat (length population))
    by (destruct population; simpl; [done|lia]).
  revert w. induction k as [|k IH]; intros w; simpl.
  - by apply returns_ret.
  - step returns_randbelow; [done|].
    step returns_getitem; [done|].
    eapply returns_bind; [apply IH|]. cbv beta. intros rest w2 _ [Hlen Hall].
    apply returns_ret. split; [simpl; congruence|].
    constructor; [by eapply list_elem_of_lookup_2|done].
Qed.

Lemma returns_now w :
  returns now w (λ t, ∃ n, t = wallclock (platform w) n).
Proof. eapply returns_intro; [reflexivity|done|eauto]. Qed.

Lemma returns_local_zone w :
  returns local_zone w (λ tz, tz = utcoffset (platform w)).
Proof. by eapply returns_intro. Qed.

(** ** [random.sample] draws without replacement *)

(** One round of the pool loop: the entry taken out of the first [m + 1]
    slots and the [m] slots that remain are, together, those [m + 1] slots. *)
Lemma pool_round {A} (pool : list A) (j m : nat) (x y : A) :
  (j ≤ m)%nat → pool !! j = Some x → pool !! m = Some y →
  take m (<[j := y]> pool) ++ [x] ≡ₚ take (S m) pool.
Proof.
  intros Hjm Hx Hy. rewrite (take_S_r _ _ _ Hy).
  destruct (decide (j = m)) as [->|Hne].
  - rewrite take_insert_ge by lia. by simplify_eq.
  - rewrite take_insert_lt by lia.
    assert (take m pool !! j = Some x) as Ht
      by (rewrite lookup_take_lt by lia; done).
    apply list_elem_of_split_length in Ht as (t1 & t2 & -> & ->).
    rewrite insert_app_r_alt, Nat.sub_diag by lia. simpl.
    rewrite <-!app_assoc. simpl. apply Permutation_app_head.
    rewrite !(Permutation_middle t2). apply Permutation_app_head, perm_swap.
Qed.

Lemma returns_sample_loop {A} (n : Z) (k : nat) :
  ∀ (i : Z) (pool result : list A) w,
    0 ≤ i → i + Z.of_nat k ≤ n → Z.of_nat (length pool) = n →
    returns (sample_loop n k i pool result) w
      (λ l, length l = (length result + k)%nat
            ∧ ∃ rest, l ++ rest ≡ₚ result ++ take (Z.to_nat (n - i)) pool).
Proof.
  induction k as [|k IH]; intros i pool result w Hi Hk Hn; simpl.
  - apply returns_ret. split; [lia|]. by eexists.
  - step returns_randbelow as j Hj; [lia|].
    step returns_getitem as x Hx; [lia|].
    step returns_getitem as y Hy; [lia|].
    eapply returns_impl.
    { apply IH; [lia|lia|]. by rewrite length_insert. }
    intros l [Hlen [rest Hperm]]. split.
    { rewrite Hlen, length_app. simpl. lia. }
    exists rest. rewrite Hperm.
    replace (Z.to_nat (n - i)) with (S (Z.to_nat (n - i - 1))) by lia.
    replace (n - (i + 1)) with (n - i - 1) by lia.
    rewrite <-(pool_round pool (Z.to_nat j) _ x y) by (done || lia).
    rewrite <-!app_assoc. apply Permutation_app_head, Permutation_app_comm.
Qed.

Lemma returns_sample {A} (population : list A) (k : Z) w :
  0 ≤ k ≤ Z.of_nat (length population) →
  returns (sample population k) w
    (λ l, Z.of_nat (length l) = k ∧ l ⊆+ population).
Proof.
  intros Hk. unfold sample.
  destruct (Z.leb_spec 0 k); [|lia].
  destruct (Z.leb_spec k (Z.of_nat (length population))); [|lia]. simpl.
  eapply returns_impl; [apply returns_sample_loop; lia|].
  intros l [Hlen [rest Hperm]]. split; [simpl in Hlen; lia|].
  rewrite Z.sub_0_r, Nat2Z.id, firstn_all in Hperm. simpl in Hperm.
  rewrite <-Hperm. by apply submseteq_inserts_r.
Qed.

(** ** The helpers never raise *)

Lemma returns_uuid4 w : returns uuid4 w (λ _, True).
Proof.
  unfold uuid4. step returns_randbelow; [done|]. by apply returns_ret.
Qed.

Lemma returns_generate_random_string n w :
  returns (generate_random_string n) w (λ _, True).
Proof.
  unfold generate_random_string.
  step returns_choices; [done|]. by apply returns_ret.
Qed.

Lemma returns_generate_random_email w :
  returns generate_random_email w (λ _, True).
Proof.
  unfold generate_random_email.
  step returns_generate_random_string.
  step returns_choice; [done|]. by apply returns_ret.
Qed.

Lemma returns_generate_random_tags w :
  returns generate_random_tags w tags_post.
Proof.
  unfold generate_random_tags.
  step returns_randint; [lia|].
  eapply returns_impl; [apply returns_sample; simpl; lia|].
  intros l [Hlen Hsub]. split; [lia|done].
Qed.

Lemma returns_generate_random_metadata w :
  returns generate_random_metadata w (λ m, skills_post (skills m)).
Proof.
  unfold generate_random_metadata.
  step returns_choice; [done|].
  step returns_choice; [done|].
  step returns_randint; [lia|].
  step returns_randint; [lia|].
  step returns_sample as l [Hlen Hsub]; [simpl; lia|].
  step returns_choice; [done|].
  step returns_now.
  apply returns_ret. simpl. split; [lia|done].
Qed.

(** ** Calendar facts *)

Lemma days_in_month_ge_28 y m : 1 ≤ m ≤ 12 → 28 ≤ days_in_month y m.
Proof.
  intros Hm. unfold days_in_month.
  assert (m = 1 ∨ m = 2 ∨ m = 3 ∨ m = 4 ∨ m = 5 ∨ m = 6 ∨ m = 7 ∨ m = 8
          ∨ m = 9 ∨ m = 10 ∨ m = 11 ∨ m = 12) as Hcases by lia.
  destruct_or!; subst m; destruct (is_leap y); simpl; lia.
Qed.

(** A day of at most 28 exists in every month of every year. *)
Lemma check_date_fields_28 y m d :
  1 ≤ y ≤ 9999 → 1 ≤ m ≤ 12 → 1 ≤ d ≤ 28 → check_date_fields y m d = true.
Proof.
  intros Hy Hm Hd. pose proof (days_in_month_ge_28 y m Hm).
  unfold check_date_fields. rewrite !andb_true_iff, !Z.leb_le. lia.
Qed.

Lemma check_time_fields_spec hh mm ss us fd :
  check_time_fields hh mm ss us fd = true ↔
  0 ≤ hh ≤ 23 ∧ 0 ≤ mm ≤ 59 ∧ 0 ≤ ss ≤ 59 ∧ 0 ≤ us ≤ 999999 ∧ 0 ≤ fd ≤ 1.
Proof.
  unfold check_time_fields.
  rewrite !andb_true_iff, orb_true_iff, !Z.leb_le, !Z.eqb_eq. lia.
Qed.

Lemma returns_date_new y m d w :
  check_date_fields y m d = true →
  returns (date_new y m d) w (λ r, r = Date y m d).
Proof. intros H. unfold date_new. rewrite H. by apply returns_ret. Qed.

Lemma returns_replace_ymdhm dt y m d hh mm w :
  datetime_ok dt → check_date_fields y m d = true →
  0 ≤ hh ≤ 23 → 0 ≤ mm ≤ 59 →
  returns (replace_ymdhm dt y m d hh mm) w
    (λ r, r = DateTime y m d hh mm (second dt) (microsecond dt) (fold dt)).
Proof.
  intros Hdt Hd Hhh Hmm. unfold replace_ymdhm, datetime_new.
  apply andb_true_iff in Hdt as [_ Ht%check_time_fields_spec].
  rewrite Hd. simpl.
  rewrite (proj2 (check_time_fields_spec _ _ _ _ _)) by lia.
  by apply returns_ret.
Qed.

(** ** The synthesizers *)

Lemma birth_range_ok d : birth_range d → date_ok d.
Proof. intros (? & ? & ?). apply check_date_fields_28; lia. Qed.

Lemma returns_generate_data_object id w :
  returns (generate_data_object id) w (standard_post id).
Proof.
  unfold generate_data_object.
  step returns_uuid4.
  step returns_generate_random_string.
  step returns_generate_random_email.
  step returns_randint; [lia|].
  step returns_uniform_round2; [lia|].
  step returns_uniform_round2; [lia|].
  step returns_choice; [done|].
  step returns_uniform_round2; [lia|].
  step returns_randint as y Hy; [lia|].
  step returns_randint as m Hm; [lia|].
  step returns_randint as d Hd; [lia|].
  step returns_date_new as birth ->; [apply check_date_fields_28; lia|].
  step returns_now.
  step returns_generate_random_tags.
  step returns_generate_random_metadata.
  step returns_choice as with_score ?; [done|].
  eapply (returns_bind _ _ _ (λ _, True)).
  { destruct with_score; [|by apply returns_ret].
    step returns_uniform_round2; [lia|]. by apply returns_ret. }
  intros score w17 _ _.
  step returns_choice; [done|].
  apply returns_ret. unfold standard_post. simpl.
  split_and!; try done; try lia.
  exists (Date y m d). split; [|done]. unfold birth_range. simpl. lia.
Qed.

Lemma returns_generate_data_object_with_different_dates id w :
  clock_ok (platform w) →
  returns (generate_data_object_with_different_dates id) w
    (multi_date_post (platform w) id).
Proof.
  intros Hclock. unfold generate_data_object_with_different_dates.
  step returns_randint as y Hy; [lia|].
  step returns_randint as m Hm; [lia|].
  step returns_randint as d Hd; [lia|].
  step returns_date_new as birth ->; [apply check_date_fields_28; lia|].
  step returns_now as t [n ->].
  step returns_randint as cy Hcy; [lia|].
  step returns_randint as cm Hcm; [lia|].
  step returns_randint as cd Hcd; [lia|].
  step returns_randint as chh Hchh; [lia|].
  step returns_randint as cmm Hcmm; [lia|].
  assert (datetime_ok (wallclock (platform w) n)) as Hnow by apply Hclock.
  assert (check_date_fields cy cm cd = true) as Hcdate
    by (apply check_date_fields_28; lia).
  step returns_replace_ymdhm as created ->; [by same_platform | done | lia | lia |].
  step returns_uuid4.
  step returns_generate_random_string.
  step returns_generate_random_email.
  step returns_randint; [lia|].
  step returns_uniform_round2; [lia|].
  step returns_uniform_round2; [lia|].
  step returns_choice; [done|].
  step returns_uniform_round2; [lia|].
  step returns_local_zone as tz ->.
  step returns_generate_random_tags as tags Htags.
  step returns_generate_random_metadata as metadata Hskills.
  step returns_choice as with_score ?; [done|].
  eapply (returns_bind _ _ _ (λ _, True)).
  { destruct with_score; [|by apply returns_ret].
    step returns_uniform_round2; [lia|]. by apply returns_ret. }
  intros score ? _ _.
  step returns_choice; [done|].
  apply returns_ret. unfold multi_date_post. simpl. same_platform.
  split_and!; try done.
  - exists (Date y m d). by split_and!.
  - exists (DateTime cy cm cd chh cmm (second (wallclock (platform w) n))
                     (microsecond (wallclock (platform w) n))
                     (fold (wallclock (platform w) n))).
    split; [unfold created_range; simpl; lia|].
    split; [|split; [by exists n|done]].
    unfold datetime_ok. simpl. rewrite Hcdate. simpl.
    apply andb_true_iff in Hnow as [_ Ht%check_time_fields_spec].
    apply check_time_fields_spec. lia.
Qed.

(** ** The pagination plan *)

Lemma returns_for_append {A} (body : Z → M A) (P : Z → A → Prop) l :
  ∀ data w,
    (∀ i w', platform w' = platform w → returns (body i) w' (P i)) →
    returns (for_append body l data) w
      (λ out, ∃ new, out = data ++ new ∧ Forall2 P l new).
Proof.
  induction l as [|i l IH]; intros data w Hbody; simpl.
  - apply returns_ret. exists []. by rewrite app_nil_r.
  - step Hbody as x Hx; [done|].
    eapply returns_impl.
    { apply IH. intros j w'' Hp. apply Hbody. congruence. }
    intros out (new & -> & Hall). exists (x :: new).
    rewrite <-app_assoc. split; [done|]. by constructor.
Qed.

Lemma returns_paginate {A} (generate : Z → M A) (P : Z → A → Prop) pg sz tot w :
  sz ≠ 0 →
  (∀ i w', platform w' = platform w → returns (generate i) w' (P i)) →
  returns (paginate generate pg sz tot) w
    (λ e, planned pg sz tot e
          ∧ Forall2 (λ i r, P (i + 1) r)
              (range (start_index pg sz) (end_index pg sz tot)) (data e)).
Proof.
  intros Hsz Hgen. unfold paginate, floordiv.
  destruct (Z.eqb_spec sz 0) as [|_]; [done|].
  step (returns_ret _ _ (λ r, r = (tot + sz - 1) / sz)) as pages ->; [done|].
  step (returns_for_append _ (λ i r, P (i + 1) r)) as rows (new & -> & Hall).
  { intros i w'' Hp. apply Hgen. congruence. }
  apply returns_ret. by repeat split.
Qed.

(** The identities of a page, read off the records. *)
Lemma Forall2_ids {A} (ident : A → Z) (l : list Z) (rows : list A) :
  Forall2 (λ i r, ident r = i + 1) l rows → ident <$> rows = Z.add 1 <$> l.
Proof.
  induction 1 as [|i r l rows Hi _ IH]; [done|].
  cbv beta in Hi. simpl. f_equal; [lia|exact IH].
Qed.

Lemma succ_range start stop :
  Z.add 1 <$> range start stop = seqZ (start + 1) (stop - start).
Proof. unfold range. by rewrite fmap_add_seqZ, Z.add_comm. Qed.

(** [(a + b - 1) // b] is the ceiling of [a / b]. *)
Lemma ceil_div_opp a b : 0 < b → (a + b - 1) / b = - (- a / b).
Proof.
  intros Hb.
  pose proof (Z.div_mod (- a) b ltac:(lia)) as Hdm.
  pose proof (Z.mod_pos_bound (- a) b Hb) as Hr.
  symmetry. apply (Z.div_unique _ _ _ (b - 1 - (- a) `mod` b)); lia.
Qed.

Lemma Qceiling_div a b :
  0 < b → Qceiling (inject_Z a / inject_Z b) = - (- a / b).
Proof.
  intros Hb. destruct b as [|p|p]; [lia| |lia].
  unfold Qceiling, Qfloor, Qdiv, Qinv, Qmult, Qopp, inject_Z.
  cbn [Qnum Qden]. by rewrite Z.mul_1_r, Pos.mul_1_l.
Qed.

Lemma ceil_div a b :
  0 < b → (a + b - 1) / b = Qceiling (inject_Z a / inject_Z b).
Proof. intros Hb. by rewrite ceil_div_opp, Qceiling_div. Qed.

Lemma get_data_paginate : get_data = paginate generate_data_object.
Proof. reflexivity. Qed.

Lemma get_data_with_date_formats_paginate :
  get_data_with_date_formats
  = paginate generate_data_object_with_different_dates.
Proof. reflexivity. Qed.

Lemma returns_get_data pg sz tot w :
  sz ≠ 0 →
  returns (get_data pg sz tot) w
    (λ e, planned pg sz tot e
          ∧ DataObject.id <$> data e
            = seqZ (start_index pg sz + 1)
                   (end_index pg sz tot - start_index pg sz)
          ∧ Forall (λ r, ∃ i, standard_post i r) (data e)).
Proof.
  intros Hsz. rewrite get_data_paginate. eapply returns_impl.
  { apply (returns_paginate _ standard_post); [done|].
    intros i w' _. apply returns_generate_data_object. }
  intros e [Hplan Hrows]. split_and!; [done| |].
  - rewrite <-succ_range. apply Forall2_ids.
    eapply Forall2_impl; [exact Hrows|]. by intros i r [? _].
  - eapply Forall2_Forall_r; [exact Hrows|].
    apply Forall_forall. intros; eauto.
Qed.

Lemma returns_get_data_with_date_formats pg sz tot w :
  sz ≠ 0 → clock_ok (platform w) →
  returns (get_data_with_date_formats pg sz tot) w
    (λ e, planned pg sz tot e
          ∧ DataObjectWithDifferentDates.id <$> data e
            = seqZ (start_index pg sz + 1)
                   (end_index pg sz tot - start_index pg sz)
          ∧ Forall (λ r, ∃ i, multi_date_post (platform w) i r) (data e)).
Proof.
  intros Hsz Hclock. rewrite get_data_with_date_formats_paginate.
  eapply returns_impl.
  { apply (returns_paginate _ (multi_date_post (platform w))); [done|].
    intros i w' Hp. rewrite <-Hp.
    apply returns_generate_data_object_with_different_dates. by rewrite Hp. }
  intros e [Hplan Hrows]. split_and!; [done| |].
  - rewrite <-succ_range. apply Forall2_ids.
    eapply Forall2_impl; [exact Hrows|]. by intros i r [? _].
  - eapply Forall2_Forall_r; [exact Hrows|].
    apply Forall_forall. intros; eauto.
Qed.

(** ** The boundary *)

Lemma resolve_Some q raw v :
  resolve q raw = Some v ↔ v = default (q_default q) raw ∧ within q v = true.
Proof.
  unfold resolve. destruct (within q (default (q_default q) raw)) eqn:Hw.
  - split; [by intros [= <-]|]. by intros [-> _].
  - split; [done|]. intros [-> ?]. congruence.
Qed.

Lemma within_page v : within page_query v = true ↔ 1 ≤ v.
Proof. unfold within. simpl. rewrite andb_true_r. apply Z.leb_le. Qed.

Lemma within_page_size v : within page_size_query v = true ↔ 1 ≤ v ≤ 100.
Proof. unfold within. simpl. rewrite andb_true_iff, !Z.leb_le. done. Qed.

Lemma within_total_records v :
  within total_records_query v = true ↔ 1 ≤ v ≤ 10000.
Proof. unfold within. simpl. rewrite andb_true_iff, !Z.leb_le. done. Qed.

(** A request either is refused, and then the body is not run, or reaches the
    body with its three values, and then they are within bounds. *)
Lemma route_cases {A} (body : Z → Z → Z → M A) req :
  (¬ valid_input (page_of req) (page_size_of req) (total_records_of req)
   ∧ route body req = mret Status422)
  ∨ (valid_input (page_of req) (page_size_of req) (total_records_of req)
     ∧ route body req
       = (r ← body (page_of req) (page_size_of req) (total_records_of req);
          mret (Status200 r))).
Proof.
  unfold route, valid_input.
  destruct (resolve page_query _) as [pg|] eqn:Hpg.
  2: { left. split; [|done]. intros [Hp _].
       apply within_page in Hp. unfold resolve in Hpg. simpl in Hpg.
       unfold page_of in Hp. by rewrite Hp in Hpg. }
  apply resolve_Some in Hpg as [-> Hpg%within_page].
  destruct (resolve page_size_query _) as [sz|] eqn:Hsz.
  2: { left. split; [|done]. intros (_ & Hs & _).
       apply within_page_size in Hs. unfold resolve in Hsz. simpl in Hsz.
       unfold page_size_of in Hs. by rewrite Hs in Hsz. }
  apply resolve_Some in Hsz as [-> Hsz%within_page_size].
  destruct (resolve total_records_query _) as [tot|] eqn:Htot.
  2: { left. split; [|done]. intros (_ & _ & Ht).
       apply within_total_records in Ht. unfold resolve in Htot. simpl in Htot.
       unfold total_records_of in Ht. by rewrite Ht in Htot. }
  apply resolve_Some in Htot as [-> Htot%within_total_records].
  right. done.
Qed.

Lemma returns_route {A} (body : Z → Z → Z → M A) (P : A → Prop) req w :
  valid_input (page_of req) (page_size_of req) (total_records_of req) →
  returns (body (page_of req) (page_size_of req) (total_records_of req)) w P →
  returns (route body req) w
    (λ resp, ∃ e, resp = Status200 e ∧ P e).
Proof.
  intros Hvalid Hbody.
  destruct (route_cases body req) as [[? _]|[_ ->]]; [done|].
  eapply returns_bind; [exact Hbody|].
  intros e w' _ He. apply returns_ret. eauto.
Qed.

(** ** Consequences of the plan *)

Section plan.
Context {A : Type} (ident : A → Z).
Context (pg sz tot : Z) (e : PaginatedResponse A).
Hypothesis Hvalid : valid_input pg sz tot.
Hypothesis Hplan : planned pg sz tot e.
Hypothesis Hids :
  ident <$> data e
  = seqZ (start_index pg sz + 1) (end_index pg sz tot - start_index pg sz).

Lemma plan_total_pages :
  total_pages e = Qceiling (inject_Z tot / inject_Z sz).
Proof.
  destruct Hvalid as (_ & ? & _), Hplan as (_ & _ & _ & -> & _).
  apply ceil_div. lia.
Qed.

Lemma plan_length :
  Z.of_nat (length (data e)) = Z.min sz (Z.max 0 (tot - (pg - 1) * sz)).
Proof.
  destruct Hvalid as (_ & ? & _).
  rewrite <-(length_fmap ident), Hids, length_seqZ.
  unfold end_index, start_index. lia.
Qed.

Lemma plan_flags :
  has_previous e = bool_decide (pg > 1)
  ∧ has_next e = bool_decide (pg < total_pages e).
Proof.
  destruct Hplan as (_ & _ & _ & _ & -> & ->). split.
  - destruct (Z.ltb_spec 1 pg);
      [rewrite bool_decide_eq_true_2|rewrite bool_decide_eq_false_2]; lia.
  - destruct (Z.ltb_spec pg (total_pages e));
      [by rewrite bool_decide_eq_true_2|rewrite bool_decide_eq_false_2]; lia.
Qed.

Lemma plan_run :
  ident <$> data e
  = seqZ ((pg - 1) * sz + 1) (Z.min (pg * sz) tot - (pg - 1) * sz).
Proof.
  rewrite Hids. unfold end_index, start_index. f_equal. lia.
Qed.

Lemma plan_position (k : nat) (r : A) :
  data e !! k = Some r → ident r = (pg - 1) * sz + Z.of_nat k + 1.
Proof.
  intros Hk.
  assert ((ident <$> data e) !! k = Some (ident r)) as Hid
    by (by rewrite list_lookup_fmap, Hk).
  rewrite Hids in Hid. apply lookup_seqZ in Hid as [-> _].
  unfold start_index. lia.
Qed.

(** Past the end: nothing to show, no page after, one before. *)
Lemma plan_past_end :
  tot ≤ (pg - 1) * sz →
  data e = [] ∧ has_next e = false ∧ has_previous e = true.
Proof.
  intros Hpast. destruct Hvalid as (? & ? & ?).
  split_and!.
  - apply length_zero_iff_nil. pose proof plan_length. lia.
  - destruct Hplan as (_ & _ & _ & Hpages & -> & _).
    apply Z.ltb_ge. rewrite Hpages.
    apply Z.lt_succ_r, Z.div_lt_upper_bound; nia.
  - destruct Hplan as (_ & _ & _ & _ & _ & ->). apply Z.ltb_lt. nia.
Qed.
End plan.

Lemma sample_platform_clock_ok : clock_ok sample_platform.
Proof. intros n. reflexivity. Qed.

Lemma sample_platform_zone_ok : zone_ok sample_platform.
Proof. intros dt. simpl. lia. Qed.

(** * The pagination planner *)

(** C1: for every valid (page, page_size, total_records), the envelope of
    either paginated endpoint has [total_pages = ceil(total_records /
    page_size)] and holds [min(page_size, max(0, total_records - (page - 1) *
    page_size))] records. *)
Theorem envelope_pages_and_count pg sz tot w :
  valid_input pg sz tot → clock_ok (platform w) →
  returns (get_data pg sz tot) w
    (λ e, total_pages e = Qceiling (inject_Z tot / inject_Z sz)
          ∧ Z.of_nat (length (data e))
            = Z.min sz (Z.max 0 (tot - (pg - 1) * sz)))
  ∧ returns (get_data_with_date_formats pg sz tot) w
      (λ e, total_pages e = Qceiling (inject_Z tot / inject_Z sz)
            ∧ Z.of_nat (length (data e))
              = Z.min sz (Z.max 0 (tot - (pg - 1) * sz))).
Proof.
  intros Hvalid Hclock.
  assert (sz ≠ 0) by (destruct Hvalid as (_ & ? & _); lia).
  split.
  - eapply returns_impl; [by apply returns_get_data|].
    intros e (Hplan & Hids & _).
    eauto using plan_total_pages, plan_length.
  - eapply returns_impl; [by apply returns_get_data_with_date_formats|].
    intros e (Hplan & Hids & _).
    eauto using plan_total_pages, plan_length.
Qed.

Lemma envelope_pages_and_count_witness :
  valid_input 4 3 10 ∧ clock_ok (platform sample_world)
  ∧ returns (get_data 4 3 10) sample_world
      (λ e, total_pages e = 4 ∧ Z.of_nat (length (data e)) = 1).
Proof.
  split; [unfold valid_input; lia|].
  split; [exact sample_platform_clock_ok|].
  apply (envelope_pages_and_count 4 3 10 sample_world);
    [unfold valid_input; lia | exact sample_platform_clock_ok].
Defined.

(** C2: for every valid input, also with the page beyond the last one,
    [has_previous = (page > 1)] and [has_next = (page < total_pages)]. *)
Theorem envelope_flags pg sz tot w :
  valid_input pg sz tot → clock_ok (platform w) →
  returns (get_data pg sz tot) w
    (λ e, has_previous e = bool_decide (pg > 1)
          ∧ has_next e = bool_decide (pg < total_pages e))
  ∧ returns (get_data_with_date_formats pg sz tot) w
      (λ e, has_previous e = bool_decide (pg > 1)
            ∧ has_next e = bool_decide (pg < total_pages e)).
Proof.
  intros Hvalid Hclock.
  assert (sz ≠ 0) by (destruct Hvalid as (_ & ? & _); lia).
  split.
  - eapply returns_impl; [by apply returns_get_data|].
    intros e (Hplan & _). by eapply plan_flags.
  - eapply returns_impl; [by apply returns_get_data_with_date_formats|].
    intros e (Hplan & _). by eapply plan_flags.
Qed.

Lemma envelope_flags_witness :
  valid_input 5 3 10 ∧ clock_ok (platform sample_world)
  ∧ returns (get_data 5 3 10) sample_world
      (λ e, has_previous e = bool_decide (5 > 1)
            ∧ has_next e = bool_decide (5 < total_pages e)).
Proof.
  split; [unfold valid_input; lia|].
  split; [exact sample_platform_clock_ok|].
  apply (envelope_flags 5 3 10 sample_world);
    [unfold valid_input; lia | exact sample_platform_clock_ok].
Defined.

(** C3: for every valid input, the identities of the records of the page
    are, in order, [(page - 1) * page_size + 1 .. min(page * page_size,
    total_records)]: the record at position [k] has identity
    [(page - 1) * page_size + k + 1]. *)
Theorem page_identities pg sz tot w :
  valid_input pg sz tot → clock_ok (platform w) →
  returns (get_data pg sz tot) w
    (λ e, DataObject.id <$> data e
          = seqZ ((pg - 1) * sz + 1) (Z.min (pg * sz) tot - (pg - 1) * sz)
          ∧ ∀ (k : nat) r, data e !! k = Some r →
              DataObject.id r = (pg - 1) * sz + Z.of_nat k + 1)
  ∧ returns (get_data_with_date_formats pg sz tot) w
      (λ e, DataObjectWithDifferentDates.id <$> data e
            = seqZ ((pg - 1) * sz + 1) (Z.min (pg * sz) tot - (pg - 1) * sz)
            ∧ ∀ (k : nat) r, data e !! k = Some r →
                DataObjectWithDifferentDates.id r
                = (pg - 1) * sz + Z.of_nat k + 1).
Proof.
  intros Hvalid Hclock.
  assert (sz ≠ 0) by (destruct Hvalid as (_ & ? & _); lia).
  split.
  - eapply returns_impl; [by apply returns_get_data|].
    intros e (Hplan & Hids & _). split; [by eapply plan_run|].
    intros k r. by eapply plan_position.
  - eapply returns_impl; [by apply returns_get_data_with_date_formats|].
    intros e (Hplan & Hids & _). split; [by eapply plan_run|].
    intros k r. by eapply plan_position.
Qed.

Lemma page_identities_witness :
  valid_input 2 3 10 ∧ clock_ok (platform sample_world)
  ∧ returns (get_data 2 3 10) sample_world
      (λ e, DataObject.id <$> data e = [4; 5; 6]
            ∧ ∀ (k : nat) r, data e !! k = Some r →
                DataObject.id r = (2 - 1) * 3 + Z.of_nat k + 1).
Proof.
  split; [unfold valid_input; lia|].
  split; [exact sample_platform_clock_ok|].
  apply (page_identities 2 3 10 sample_world);
    [unfold valid_input; lia | exact sample_platform_clock_ok].
Defined.

(** C4: a valid request for a page past the end is answered, not refused:
    status 200 with an empty [data] list and every other field of the
    envelope as defined. *)
Theorem page_past_end_succeeds pg sz tot w :
  valid_input pg sz tot → tot ≤ (pg - 1) * sz →
  returns (api_data (request_of pg sz tot)) w
    (λ resp, ∃ e, resp = Status200 e
       ∧ data e = [] ∧ total e = tot ∧ page e = pg ∧ page_size e = sz
       ∧ total_pages e = Qceiling (inject_Z tot / inject_Z sz)
       ∧ has_next e = false ∧ has_previous e = true).
Proof.
  intros Hvalid Hpast.
  assert (sz ≠ 0) by (destruct Hvalid as (_ & ? & _); lia).
  eapply returns_impl.
  { apply returns_route; [done|]. by apply returns_get_data. }
  intros resp (e & -> & Hplan & Hids & _). exists e.
  destruct (plan_past_end DataObject.id pg sz tot e) as (? & ? & ?); try done.
  pose proof (plan_total_pages pg sz tot e Hvalid Hplan).
  destruct Hplan as (? & ? & ? & _). done.
Qed.

Lemma page_past_end_succeeds_witness :
  valid_input 5 3 10 ∧ 10 ≤ (5 - 1) * 3
  ∧ returns (api_data (request_of 5 3 10)) sample_world
      (λ resp, ∃ e, resp = Status200 e
         ∧ data e = [] ∧ total e = 10 ∧ page e = 5 ∧ page_size e = 3
         ∧ total_pages e = 4 ∧ has_next e = false ∧ has_previous e = true).
Proof.
  split; [unfold valid_input; lia|]. split; [lia|].
  apply (page_past_end_succeeds 5 3 10 sample_world);
    [unfold valid_input; lia | lia].
Defined.

(** The four scenarios of the specification, run. *)
Example scenario_first_page :
  response_view DataObject.id
    <$> outcome (api_data (request_of 1 3 10)) sample_world
  = Some (Some (10, 1, 3, 4, true, false, 3%nat, [1; 2; 3])).
Proof. by vm_compute. Qed.

Example scenario_last_page :
  response_view DataObject.id
    <$> outcome (api_data (request_of 4 3 10)) sample_world
  = Some (Some (10, 4, 3, 4, false, true, 1%nat, [10])).
Proof. by vm_compute. Qed.

Example scenario_past_end :
  response_view DataObjectWithDifferentDates.id
    <$> outcome (api_data_with_date_formats (request_of 5 3 10)) sample_world
  = Some (Some (10, 5, 3, 4, false, true, 0%nat, [])).
Proof. by vm_compute. Qed.

Example scenario_single_record :
  response_view DataObject.id
    <$> outcome (api_data (request_of 1 100 1)) sample_world
  = Some (Some (1, 1, 100, 1, false, false, 1%nat, [1])).
Proof. by vm_compute. Qed.

Example scenario_defaults :
  response_view DataObject.id
    <$> outcome (api_data {| raw_page := None; raw_page_size := None;
                             raw_total_records := None |}) sample_world
  = Some (Some (1000, 1, 10, 100, true, false, 10%nat, seqZ 1 10)).
Proof. by vm_compute. Qed.

Example scenario_rejected :
  response_view DataObject.id
    <$> outcome (api_data (request_of 0 10 1000)) sample_world
  = Some None.
Proof. by vm_compute. Qed.

(** Both envelopes of a valid plan show the same. *)
Lemma plan_view_determined {A} (ident : A → Z) pg sz tot
    (e1 e2 : PaginatedResponse A) :
  planned pg sz tot e1 → planned pg sz tot e2 →
  ident <$> data e1 = ident <$> data e2 →
  plan_view ident e1 = plan_view ident e2.
Proof.
  intros (Ht1 & Hp1 & Hs1 & Hn1 & Hx1 & Hv1) (Ht2 & Hp2 & Hs2 & Hn2 & Hx2 & Hv2)
    Hids.
  unfold plan_view.
  rewrite Ht1, Ht2, Hp1, Hp2, Hs1, Hs2, Hx1, Hx2, Hv1, Hv2, Hn1, Hn2, Hids.
  by rewrite <-(length_fmap ident (data e1)), Hids, length_fmap.
Qed.

(** C7: the plan is a function of the request alone: two runs on the same
    (page, page_size, total_records), with any two randomness sources and
    clocks, agree on total, page, page_size, total_pages, has_next,
    has_previous, the number of records and the sequence of their
    identities. *)
Theorem plan_independent_of_randomness req w1 w2 :
  clock_ok (platform w1) → clock_ok (platform w2) →
  returns (api_data req) w1 (λ r1,
    returns (api_data req) w2 (λ r2,
      response_view DataObject.id r1 = response_view DataObject.id r2))
  ∧ returns (api_data_with_date_formats req) w1 (λ r1,
      returns (api_data_with_date_formats req) w2 (λ r2,
        response_view DataObjectWithDifferentDates.id r1
        = response_view DataObjectWithDifferentDates.id r2)).
Proof.
  intros Hclock1 Hclock2. unfold api_data, api_data_with_date_formats. split.
  - destruct (route_cases get_data req) as [[_ ->]|[Hvalid ?]].
    { apply returns_ret. by apply returns_ret. }
    assert (page_size_of req ≠ 0) by (destruct Hvalid as (_ & ? & _); lia).
    eapply returns_impl.
    { apply returns_route; [done|]. by apply returns_get_data. }
    intros r1 (e1 & -> & Hplan1 & Hids1 & _).
    eapply returns_impl.
    { apply returns_route; [done|]. by apply returns_get_data. }
    intros r2 (e2 & -> & Hplan2 & Hids2 & _). simpl. f_equal.
    eapply plan_view_determined; [done..|congruence].
  - destruct (route_cases get_data_with_date_formats req)
      as [[_ ->]|[Hvalid ?]].
    { apply returns_ret. by apply returns_ret. }
    assert (page_size_of req ≠ 0) by (destruct Hvalid as (_ & ? & _); lia).
    eapply returns_impl.
    { apply returns_route; [done|].
      by apply returns_get_data_with_date_formats. }
    intros r1 (e1 & -> & Hplan1 & Hids1 & _).
    eapply returns_impl.
    { apply returns_route; [done|].
      by apply returns_get_data_with_date_formats. }
    intros r2 (e2 & -> & Hplan2 & Hids2 & _). simpl. f_equal.
    eapply plan_view_determined; [done..|congruence].
Qed.

Lemma other_platform_clock_ok : clock_ok other_platform.
Proof.
  intros n. unfold datetime_ok.
  pose proof (Z.mod_pos_bound (Z.of_nat n) 60 ltac:(lia)).
  apply andb_true_iff. split; [reflexivity|].
  apply check_time_fields_spec. simpl. lia.
Qed.

Lemma plan_independent_of_randomness_witness :
  clock_ok (platform sample_world) ∧ clock_ok (platform other_world)
  ∧ returns (api_data (request_of 2 3 10)) sample_world (λ r1,
      returns (api_data (request_of 2 3 10)) other_world (λ r2,
        response_view DataObject.id r1 = response_view DataObject.id r2)).
Proof.
  split; [exact sample_platform_clock_ok|].
  split; [exact other_platform_clock_ok|].
  apply (plan_independent_of_randomness (request_of 2 3 10)
           sample_world other_world);
    [exact sample_platform_clock_ok | exact other_platform_clock_ok].
Defined.

(** C8: a request whose page is below 1, whose page_size is outside
    [1, 100] or whose total_records is outside [1, 10000] is answered 422
    and the endpoint body is not run (the answer is the same for every body
    and the world is left as it was); whenever the body is run, its three
    arguments are within bounds. *)
Theorem boundary_validation req :
  (page_of req < 1 ∨ ¬ (1 ≤ page_size_of req ≤ 100)
   ∨ ¬ (1 ≤ total_records_of req ≤ 10000)) →
  (∀ w, api_data req w = Ok (Status422, w))
  ∧ (∀ w, api_data_with_date_formats req w = Ok (Status422, w))
  ∧ (∀ A (body : Z → Z → Z → M A), route body req = mret Status422)
  ∧ (∀ A (body : Z → Z → Z → M A) (req' : request),
       route body req' = mret Status422
       ∨ (valid_input (page_of req') (page_size_of req') (total_records_of req')
          ∧ route body req'
            = (r ← body (page_of req') (page_size_of req')
                        (total_records_of req');
               mret (Status200 r)))).
Proof.
  intros Hbad.
  assert (∀ A (body : Z → Z → Z → M A), route body req = mret Status422)
    as Hrefused.
  { intros A body. destruct (route_cases body req) as [[_ ?]|[Hvalid _]];
      [done|].
    destruct Hvalid as (? & ? & ?), Hbad as [?|[?|?]]; [lia|done|done]. }
  split_and!.
  - intros w. unfold api_data. by rewrite Hrefused.
  - intros w. unfold api_data_with_date_formats. by rewrite Hrefused.
  - done.
  - intros A body req'. destruct (route_cases body req') as [[_ ?]|?]; auto.
Qed.

Lemma boundary_validation_witness :
  ¬ (1 ≤ page_size_of (request_of 1 101 10) ≤ 100)
  ∧ api_data (request_of 1 101 10) sample_world = Ok (Status422, sample_world).
Proof.
  split; [unfold page_size_of; simpl; lia|].
  apply (boundary_validation (request_of 1 101 10)).
  unfold page_of, page_size_of, total_records_of. simpl. lia.
Defined.

(** * Renderings decode to what was rendered *)

Lemma char_digit_digit_char d : 0 ≤ d ≤ 9 → char_digit (digit_char d) = Some d.
Proof.
  intros Hd.
  assert (d = 0 ∨ d = 1 ∨ d = 2 ∨ d = 3 ∨ d = 4 ∨ d = 5 ∨ d = 6 ∨ d = 7
          ∨ d = 8 ∨ d = 9) as Hcases by lia.
  destruct_or!; by subst d.
Qed.

Lemma append_String c s rest : String c s +:+ rest = String c (s +:+ rest).
Proof. reflexivity. Qed.

Lemma append_empty rest : "" +:+ rest = rest.
Proof. reflexivity. Qed.

Lemma read_digits_zpad w : ∀ n acc rest,
  0 ≤ n < 10 ^ Z.of_nat w →
  read_digits w acc (zpad w n +:+ rest) = Some (acc * 10 ^ Z.of_nat w + n, rest).
Proof.
  induction w as [|w IH]; intros n acc rest Hn.
  - simpl in *. do 2 f_equal. lia.
  - rewrite Nat2Z.inj_succ, Z.pow_succ_r in * by lia.
    assert (0 < 10 ^ Z.of_nat w) as Hpos by (apply Z.pow_pos_nonneg; lia).
    pose proof (Z.div_mod n (10 ^ Z.of_nat w) ltac:(lia)) as Hdm.
    pose proof (Z.mod_pos_bound n (10 ^ Z.of_nat w) Hpos) as Hr.
    assert (0 ≤ n / 10 ^ Z.of_nat w ≤ 9) as Hq.
    { split; [apply Z.div_pos; lia|].
      apply Z.lt_succ_r, Z.div_lt_upper_bound; lia. }
    cbn [zpad]. rewrite append_String. cbn [read_digits].
    rewrite (char_digit_digit_char _ Hq). cbn [mbind option_bind].
    rewrite IH by done. do 2 f_equal. lia.
Qed.

Lemma read_name_month m rest :
  1 ≤ m ≤ 12 →
  read_name MONTH_NAMES 1
    (default "" (MONTH_NAMES !! Z.to_nat (m - 1)) +:+ rest) = Some (m, rest).
Proof.
  intros Hm.
  assert (m = 1 ∨ m = 2 ∨ m = 3 ∨ m = 4 ∨ m = 5 ∨ m = 6 ∨ m = 7 ∨ m = 8
          ∨ m = 9 ∨ m = 10 ∨ m = 11 ∨ m = 12) as Hcases by lia.
  destruct_or!; by subst m.
Qed.

Lemma check_date_fields_spec y m d :
  check_date_fields y m d = true ↔
  1 ≤ y ≤ 9999 ∧ 1 ≤ m ≤ 12 ∧ 1 ≤ d ≤ days_in_month y m.
Proof. unfold check_date_fields. rewrite !andb_true_iff, !Z.leb_le. lia. Qed.

Lemma days_in_month_le_31 y m : days_in_month y m ≤ 31.
Proof.
  unfold days_in_month. destruct ((m =? 2) && is_leap y); [lia|].
  destruct (Z.to_nat (m - 1)) as [|[|[|[|[|[|[|[|[|[|[|[|k]]]]]]]]]]]];
    simpl; lia.
Qed.

(** The printed widths fit the fields of a checked date. *)
Lemma date_fields_fit y m d :
  check_date_fields y m d = true →
  0 ≤ y < 10 ^ Z.of_nat 4 ∧ 0 ≤ m < 10 ^ Z.of_nat 2 ∧ 0 ≤ d < 10 ^ Z.of_nat 2.
Proof.
  intros (? & ? & ?)%check_date_fields_spec.
  pose proof (days_in_month_le_31 y m). simpl. lia.
Qed.

#[local] Arguments zpad : simpl never.
#[local] Arguments read_digits : simpl never.
#[local] Arguments read_name : simpl never.
#[local] Arguments check_date_fields : simpl never.
#[local] Arguments check_time_fields : simpl never.

Lemma expect_String c rest : expect c (String c rest) = Some rest.
Proof. unfold expect. by rewrite decide_True. Qed.

Lemma read_digits_zpad0 w n rest :
  0 ≤ n < 10 ^ Z.of_nat w → read_digits w 0 (zpad w n +:+ rest) = Some (n, rest).
Proof. intros Hn. by rewrite read_digits_zpad. Qed.

Lemma read_digits_zpad_end w n :
  0 ≤ n < 10 ^ Z.of_nat w → read_digits w 0 (zpad w n) = Some (n, "").
Proof.
  intros Hn. rewrite <-(read_digits_zpad0 w n "") by done. f_equal.
  induction (zpad w n) as [|c s IH]; [done|]. by rewrite append_String, <-IH.
Qed.

(** Reading back one printed piece after the other. *)
Ltac decode :=
  repeat (progress (simpl;
    rewrite ?append_empty, ?append_String, ?expect_String,
      ?read_digits_zpad0, ?read_digits_zpad_end by done)).

Lemma date_fromisoformat_isoformat d :
  date_ok d → date_fromisoformat (date_isoformat d) = Some d.
Proof.
  destruct d as [y m d]. unfold date_ok. simpl. intros Hok.
  destruct (date_fields_fit _ _ _ Hok) as (Hy & Hm & Hd).
  unfold date_fromisoformat, date_isoformat. decode.
  by rewrite Hok.
Qed.

Lemma strptime_us d :
  date_ok d → strptime_date (date_strftime "%m/%d/%Y" d) "%m/%d/%Y" = Some d.
Proof.
  destruct d as [y m d]. unfold date_ok. simpl. intros Hok.
  destruct (date_fields_fit _ _ _ Hok) as (Hy & Hm & Hd).
  unfold strptime_date, date_strftime. decode.
  by rewrite Hok.
Qed.

Lemma strptime_eu d :
  date_ok d → strptime_date (date_strftime "%d/%m/%Y" d) "%d/%m/%Y" = Some d.
Proof.
  destruct d as [y m d]. unfold date_ok. simpl. intros Hok.
  destruct (date_fields_fit _ _ _ Hok) as (Hy & Hm & Hd).
  unfold strptime_date, date_strftime. decode.
  by rewrite Hok.
Qed.

Lemma strptime_long d :
  date_ok d →
  strptime_date (date_strftime "%B %d, %Y" d) "%B %d, %Y" = Some d.
Proof.
  destruct d as [y m d]. unfold date_ok. simpl. intros Hok.
  destruct (date_fields_fit _ _ _ Hok) as (Hy & Hm & Hd).
  assert (1 ≤ m ≤ 12) as Hm' by (apply check_date_fields_spec in Hok; lia).
  unfold strptime_date, date_strftime. decode.
  rewrite read_name_month by done. decode.
  by rewrite Hok.
Qed.

Lemma datetime_fromisoformat_isoformat dt :
  datetime_ok dt →
  datetime_fromisoformat (datetime_isoformat dt) = Some (unfolded dt).
Proof.
  destruct dt as [y m d hh mm ss us fd]. unfold datetime_ok, unfolded. simpl.
  intros Hok.
  pose proof Hok as [Hdate Htime]%andb_true_iff.
  destruct (date_fields_fit _ _ _ Hdate) as (Hy & Hm & Hd).
  apply check_time_fields_spec in Htime as (Hhh & Hmm & Hss & Hus & Hfd).
  assert (0 ≤ hh < 10 ^ Z.of_nat 2) by (simpl; lia).
  assert (0 ≤ mm < 10 ^ Z.of_nat 2) by (simpl; lia).
  assert (0 ≤ ss < 10 ^ Z.of_nat 2) by (simpl; lia).
  assert (0 ≤ us < 10 ^ Z.of_nat 6) by (simpl; lia).
  assert (check_time_fields hh mm ss us 0 = true) as Htime0
    by (apply check_time_fields_spec; lia).
  unfold datetime_fromisoformat, datetime_isoformat.
  cbn [dt_year dt_month dt_day hour minute second microsecond].
  destruct (Z.eqb_spec us 0) as [->|Hne]; decode; by rewrite Hdate, Htime0.
Qed.

Lemma days_before_month_nonneg y m : 0 ≤ days_before_month y m.
Proof.
  unfold days_before_month.
  assert (0 ≤ default 0 (DAYS_BEFORE_MONTH !! Z.to_nat (m - 1))).
  { destruct (Z.to_nat (m - 1)) as [|[|[|[|[|[|[|[|[|[|[|[|k]]]]]]]]]]]];
      simpl; lia. }
  destruct ((2 <? m) && is_leap y); lia.
Qed.

(** The instant [_mktime] finds is the reading less one of the zone's
    offsets, so within a day of the reading. *)
Lemma mktime_near_reading tz dt :
  (∀ u, -86400 < tz u < 86400) →
  wall_seconds dt - 86400 < mktime tz dt < wall_seconds dt + 86400.
Proof.
  intros Hzone. unfold mktime, local. cbv zeta.
  generalize (wall_seconds dt). intros t.
  repeat match goal with
         | |- context [tz ?u] =>
             lazymatch goal with
             | _ : -86400 < tz u < 86400 |- _ => fail
             | _ => pose proof (Hzone u)
             end
         end.
  repeat match goal with
         | |- context [if ?c then _ else _] => destruct c
         end; lia.
Qed.

(** From 2020 on, local time is past the epoch in every zone. *)
Lemma mktime_nonneg tz dt :
  (∀ u, -86400 < tz u < 86400) → created_range dt → datetime_ok dt →
  0 ≤ mktime tz dt.
Proof.
  intros Hzone (Hy & _ & Hd & Hhh & Hmm) Hok.
  apply andb_true_iff in Hok as [_ (_ & _ & Hss & _)%check_time_fields_spec].
  pose proof (mktime_near_reading tz dt Hzone).
  pose proof (days_before_month_nonneg (dt_year dt) (dt_month dt)).
  assert (737424 ≤ days_before_year (dt_year dt))
    by (unfold days_before_year; cbv zeta; Z.div_mod_to_equations; lia).
  unfold wall_seconds, ymd2ord, EPOCH_ORDINAL in *. lia.
Qed.

(** Truncating the timestamp drops the microseconds and nothing else. *)
Lemma int_timestamp_mktime tz dt :
  (∀ u, -86400 < tz u < 86400) → created_range dt → datetime_ok dt →
  int_timestamp tz dt = mktime tz dt.
Proof.
  intros Hzone Hrange Hok.
  pose proof (mktime_nonneg tz dt Hzone Hrange Hok).
  apply andb_true_iff in Hok as [_ (_ & _ & _ & Hus & _)%check_time_fields_spec].
  unfold int_timestamp. rewrite Z.quot_div_nonneg by lia.
  symmetry. apply (Z.div_unique _ _ _ (microsecond dt)); lia.
Qed.

(** A value of the first pass is the value its ISO string is read as. *)
Lemma unfolded_first_pass dt : fold dt = 0 → unfolded dt = dt.
Proof. destruct dt. unfold unfolded. simpl. by intros ->. Qed.

(** * The record synthesizers *)

(** One record of the multi-date synthesizer, rendered. *)
Example multi_date_record_rendered :
  (λ r, (DataObjectWithDifferentDates.birth_date_iso r,
         DataObjectWithDifferentDates.birth_date_us r,
         DataObjectWithDifferentDates.birth_date_eu r,
         DataObjectWithDifferentDates.birth_date_long r,
         DataObjectWithDifferentDates.created_at_iso r,
         DataObjectWithDifferentDates.created_at_timestamp r,
         DataObjectWithDifferentDates.created_at_readable r))
    <$> outcome (generate_data_object_with_different_dates 7) sample_world
  = Some ("1971-07-26", "07/26/1971", "26/07/1971", "July 26, 1971",
          "2024-04-11T01:00:07.123456", 1712777407,
          "Thu, Apr 11 2024 01:00 AM").
Proof. by vm_compute. Qed.

(** X13: the four birth-date strings of a multi-date record decode to one
    calendar date. *)
Lemma birth_renderings_agree id w :
  clock_ok (platform w) →
  returns (generate_data_object_with_different_dates id) w
    (λ r, ∃ d : date,
       date_fromisoformat (DataObjectWithDifferentDates.birth_date_iso r)
       = Some d
       ∧ strptime_date (DataObjectWithDifferentDates.birth_date_us r) "%m/%d/%Y"
         = Some d
       ∧ strptime_date (DataObjectWithDifferentDates.birth_date_eu r) "%d/%m/%Y"
         = Some d
       ∧ strptime_date (DataObjectWithDifferentDates.birth_date_long r)
           "%B %d, %Y" = Some d).
Proof.
  intros Hclock.
  eapply returns_impl;
    [by apply returns_generate_data_object_with_different_dates|].
  intros r (_ & (d & Hd & -> & -> & -> & ->) & _).
  pose proof (birth_range_ok d Hd).
  exists d. split_and!.
  - by apply date_fromisoformat_isoformat.
  - by apply strptime_us.
  - by apply strptime_eu.
  - by apply strptime_long.
Qed.

(** When the clock is read outside the second pass of a repeated hour,
    [created_at_iso], read in the local zone of the host, and
    [created_at_timestamp] are one instant, to the second. *)
Lemma created_renderings_agree_first_pass id w :
  clock_ok (platform w) → zone_ok (platform w) → first_pass (platform w) →
  returns (generate_data_object_with_different_dates id) w
    (λ r, instant_of_iso (utcoffset (platform w))
            (DataObjectWithDifferentDates.created_at_iso r)
          = instant_of_timestamp
              (DataObjectWithDifferentDates.created_at_timestamp r)).
Proof.
  intros Hclock Hzone Hfirst.
  eapply returns_impl;
    [by apply returns_generate_data_object_with_different_dates|].
  intros r (_ & _ & (dt & Hdt & Hok & [n Hfold] & -> & ->) & _).
  unfold instant_of_iso, instant_of_timestamp.
  rewrite datetime_fromisoformat_isoformat by done. simpl.
  rewrite unfolded_first_pass by (rewrite Hfold; apply Hfirst).
  f_equal. symmetry. by apply int_timestamp_mktime.
Qed.

Lemma repeated_hour_platform_clock_ok : clock_ok repeated_hour_platform.
Proof. intros n. reflexivity. Qed.

Lemma repeated_hour_platform_zone_ok : zone_ok repeated_hour_platform.
Proof.
  intros u. simpl. unfold new_york_2021. destruct (u <? 1636264800); lia.
Qed.

(** C5 fails on the code.  A host in New York serves a request at
    2021-11-07 06:30:07 UTC, the second pass through the local hour that
    comes twice: [datetime.now()] reads 01:30:07 with [fold = 1].  Both
    1636263007 and 1636266607 have that reading on the wall clock.  With the
    draws 2021, 11, 7, 1 and 30, [replace] keeps [fold], [isoformat] prints
    ["2021-11-07T01:30:07.123456"] without it, and [timestamp] follows it to
    the later instant, 1636266607; the ISO string, read back on the same
    host, is the earlier instant, 1636263007: an hour apart. *)
Theorem repeated_hour_renderings_disagree :
  clock_ok repeated_hour_platform ∧ zone_ok repeated_hour_platform
  ∧ local new_york_2021 1636263007
    = wall_seconds (wallclock repeated_hour_platform 0)
  ∧ local new_york_2021 1636266607
    = wall_seconds (wallclock repeated_hour_platform 0)
  ∧ (λ r, (DataObjectWithDifferentDates.created_at_iso r,
           DataObjectWithDifferentDates.created_at_timestamp r,
           instant_of_timestamp
             (DataObjectWithDifferentDates.created_at_timestamp r),
           instant_of_iso (utcoffset repeated_hour_platform)
             (DataObjectWithDifferentDates.created_at_iso r)))
      <$> outcome (generate_data_object_with_different_dates 1)
            repeated_hour_world
    = Some ("2021-11-07T01:30:07.123456", 1636266607,
            Some 1636266607, Some 1636263007).
Proof.
  split; [exact repeated_hour_platform_clock_ok|].
  split; [exact repeated_hour_platform_zone_ok|].
  split; [by vm_compute|]. split; by vm_compute.
Qed.

Lemma all_tags_NoDup : NoDup all_tags.
Proof. by apply (bool_decide_unpack _). Qed.

Lemma all_skills_NoDup : NoDup all_skills.
Proof. by apply (bool_decide_unpack _). Qed.

(** A sample without replacement of a duplicate-free vocabulary is
    duplicate-free and stays within the vocabulary. *)
Lemma submseteq_distinct (l vocabulary : list string) :
  NoDup vocabulary → l ⊆+ vocabulary →
  NoDup l ∧ ∀ x, x ∈ l → x ∈ vocabulary.
Proof.
  intros Hnd Hsub. split.
  - apply submseteq_Permutation in Hsub as [rest Hperm].
    rewrite Hperm in Hnd. by apply NoDup_app in Hnd as [? _].
  - intros x Hx. by eapply elem_of_submseteq.
Qed.

(** C6: in every record of either synthesizer, [tags] has between 1 and 5
    entries, no entry twice, each from the 14-entry vocabulary, and
    [metadata.skills] has between 2 and 4 entries, no entry twice, each from
    the 6-entry vocabulary. *)
Theorem tags_and_skills_distinct id w :
  1 ≤ id → clock_ok (platform w) →
  length all_tags = 14%nat ∧ length all_skills = 6%nat
  ∧ returns (generate_data_object id) w
      (λ r, (1 ≤ length (DataObject.tags r) ≤ 5)%nat
            ∧ NoDup (DataObject.tags r)
            ∧ (∀ t, t ∈ DataObject.tags r → t ∈ all_tags)
            ∧ (2 ≤ length (skills (DataObject.metadata r)) ≤ 4)%nat
            ∧ NoDup (skills (DataObject.metadata r))
            ∧ (∀ s, s ∈ skills (DataObject.metadata r) → s ∈ all_skills))
  ∧ returns (generate_data_object_with_different_dates id) w
      (λ r, (1 ≤ length (DataObjectWithDifferentDates.tags r) ≤ 5)%nat
            ∧ NoDup (DataObjectWithDifferentDates.tags r)
            ∧ (∀ t, t ∈ DataObjectWithDifferentDates.tags r → t ∈ all_tags)
            ∧ (2 ≤ length (skills (DataObjectWithDifferentDates.metadata r))
               ≤ 4)%nat
            ∧ NoDup (skills (DataObjectWithDifferentDates.metadata r))
            ∧ (∀ s, s ∈ skills (DataObjectWithDifferentDates.metadata r) →
                 s ∈ all_skills)).
Proof.
  intros _ Hclock. split; [done|]. split; [done|]. split.
  - eapply returns_impl; [apply returns_generate_data_object|].
    intros r (_ & _ & _ & [Htl Hts] & [Hsl Hss]).
    destruct (submseteq_distinct _ _ all_tags_NoDup Hts).
    destruct (submseteq_distinct _ _ all_skills_NoDup Hss).
    done.
  - eapply returns_impl;
      [by apply returns_generate_data_object_with_different_dates|].
    intros r (_ & _ & _ & [Htl Hts] & [Hsl Hss]).
    destruct (submseteq_distinct _ _ all_tags_NoDup Hts).
    destruct (submseteq_distinct _ _ all_skills_NoDup Hss).
    done.
Qed.

Lemma tags_and_skills_distinct_witness :
  1 ≤ 7 ∧ clock_ok (platform sample_world)
  ∧ returns (generate_data_object 7) sample_world
      (λ r, (1 ≤ length (DataObject.tags r) ≤ 5)%nat
            ∧ NoDup (DataObject.tags r)
            ∧ (∀ t, t ∈ DataObject.tags r → t ∈ all_tags)
            ∧ (2 ≤ length (skills (DataObject.metadata r)) ≤ 4)%nat
            ∧ NoDup (skills (DataObject.metadata r))
            ∧ (∀ s, s ∈ skills (DataObject.metadata r) → s ∈ all_skills)).
Proof.
  split; [lia|]. split; [exact sample_platform_clock_ok|].
  apply (tags_and_skills_distinct 7 sample_world);
    [lia | exact sample_platform_clock_ok].
Defined.

(** C9: both synthesizers return a record for every identity from 1 on and
    raise nothing: a birth date with year in [1940, 2005], month in [1, 12]
    and day in [1, 28] is a date the constructor accepts, and replacing year
    (in [2020, 2024]), month, day (in [1, 28]), hour and minute of a clock
    reading is a datetime the constructor accepts. *)
Theorem synthesizers_total id w :
  1 ≤ id → clock_ok (platform w) →
  (∃ r w', generate_data_object id w = Ok (r, w'))
  ∧ (∃ r w', generate_data_object_with_different_dates id w = Ok (r, w'))
  ∧ (∀ y m d w0, 1940 ≤ y ≤ 2005 → 1 ≤ m ≤ 12 → 1 ≤ d ≤ 28 →
       date_new y m d w0 = Ok (Date y m d, w0))
  ∧ (∀ t y m d hh mm w0,
       datetime_ok t → 2020 ≤ y ≤ 2024 → 1 ≤ m ≤ 12 → 1 ≤ d ≤ 28 →
       0 ≤ hh ≤ 23 → 0 ≤ mm ≤ 59 →
       replace_ymdhm t y m d hh mm w0
       = Ok (DateTime y m d hh mm (second t) (microsecond t) (fold t), w0)).
Proof.
  intros _ Hclock. split_and!.
  - destruct (returns_generate_data_object id w) as (r & w' & ? & _). eauto.
  - destruct (returns_generate_data_object_with_different_dates id w Hclock)
      as (r & w' & ? & _).
    eauto.
  - intros y m d w0 Hy Hm Hd. unfold date_new.
    by rewrite check_date_fields_28 by lia.
  - intros t y m d hh mm w0 Ht Hy Hm Hd Hhh Hmm.
    apply andb_true_iff in Ht as [_ Ht%check_time_fields_spec].
    unfold replace_ymdhm, datetime_new.
    rewrite check_date_fields_28 by lia.
    by rewrite (proj2 (check_time_fields_spec _ _ _ _ _)) by lia.
Qed.

Lemma synthesizers_total_witness :
  1 ≤ 7 ∧ clock_ok (platform sample_world)
  ∧ (∃ r w', generate_data_object 7 sample_world = Ok (r, w'))
  ∧ (∃ r w',
       generate_data_object_with_different_dates 7 sample_world = Ok (r, w')).
Proof.
  split; [lia|]. split; [exact sample_platform_clock_ok|].
  destruct (synthesizers_total 7 sample_world) as (H1 & H2 & _);
    [lia | exact sample_platform_clock_ok | by split].
Defined.

(** * The schema document *)

Lemma forallb_JString (l : list string) :
  forallb (λ x, has_type x TString) (JString <$> l) = true.
Proof. induction l; [done|]. simpl. done. Qed.

(** C10: every record of the standard synthesizer validates against the
    schema document: each of the 13 required fields is present and not
    null, the age, drawn from [18, 80], is within the declared [0, 150], and
    only [score] and [description], the two properties the schema does not
    require, can be null (and each can). *)
Theorem standard_record_conforms_to_schema id w :
  1 ≤ id →
  length (required get_schema) = 13%nat
  ∧ optional_properties get_schema = ["score"; "description"]
  ∧ returns (generate_data_object id) w
      (λ r, validate get_schema (data_object_json r) = true
            ∧ Forall (λ k, ∃ v, assoc k (data_object_fields r) = Some v
                               ∧ v ≠ JNull) (required get_schema)
            ∧ 18 ≤ DataObject.age r ≤ 80
            ∧ (∀ k, assoc k (data_object_fields r) = Some JNull →
                 k = "score" ∨ k = "description"))
  ∧ returns (generate_data_object id) tails_world
      (λ r, assoc "score" (data_object_fields r) = Some JNull
            ∧ assoc "description" (data_object_fields r) = Some JNull).
Proof.
  intros _. split; [done|]. split; [done|]. split.
  - eapply returns_impl; [apply returns_generate_data_object|].
    intros r (_ & Hage & _).
    split; [|split; [|split; [done|]]].
    + unfold validate, data_object_json, data_object_fields. simpl.
      unfold valid_property, prop. simpl. rewrite forallb_JString.
      destruct (Z.leb_spec 0 (DataObject.age r)); [|lia].
      destruct (Z.leb_spec (DataObject.age r) 150); [|lia].
      by destruct (DataObject.score r), (DataObject.description r).
    + unfold data_object_fields.
      repeat (constructor; [by eexists|]). constructor.
    + unfold data_object_fields. intros k. simpl.
      repeat (case_decide; [done|]).
      case_decide; [by left|]. case_decide; [by right|]. done.
  - eapply returns_intro; [by vm_compute|done|done].
Qed.

Lemma standard_record_conforms_to_schema_witness :
  1 ≤ 7
  ∧ returns (generate_data_object 7) sample_world
      (λ r, validate get_schema (data_object_json r) = true
            ∧ Forall (λ k, ∃ v, assoc k (data_object_fields r) = Some v
                               ∧ v ≠ JNull) (required get_schema)
            ∧ 18 ≤ DataObject.age r ≤ 80
            ∧ (∀ k, assoc k (data_object_fields r) = Some JNull →
                 k = "score" ∨ k = "description")).
Proof.
  split; [lia|].
  apply (standard_record_conforms_to_schema 7 sample_world). lia.
Defined.

(** * Runs and the clock *)

Section runs_rules.
Context {A B : Type}.
Implicit Types (m : M A) (f : A → M B).

Lemma runs_ret (a : A) w (Q : A → World → Prop) : Q a w → runs (mret a) w Q.
Proof. intros HQ. by exists a, w. Qed.

Lemma runs_bind m f w (Q1 : A → World → Prop) (Q2 : B → World → Prop) :
  runs m w Q1 → (∀ a w', Q1 a w' → runs (f a) w' Q2) → runs (m ≫= f) w Q2.
Proof.
  intros (a & w1 & Hm & Ha) Hf.
  destruct (Hf a w1 Ha) as (b & w2 & Hb & HQ).
  exists b, w2. split; [|done]. unfold mbind, M_bind. by rewrite Hm.
Qed.

Lemma runs_impl m w (Q Q' : A → World → Prop) :
  runs m w Q → (∀ a w', Q a w' → Q' a w') → runs m w Q'.
Proof. intros (a & w' & ? & ?) HQQ. exists a, w'. auto. Qed.

(** An action that returns and never reads the clock leaves the clock where
    it was. *)
Lemma runs_clockless m w (P : A → Prop) :
  returns m w P → clockless m → runs m w (λ a w', P a ∧ later 0 w w').
Proof.
  intros (a & w' & Hm & Hp & Ha) Hquiet. exists a, w'.
  split; [done|]. split; [done|]. split; [done|].
  rewrite (Hquiet _ _ _ Hm). lia.
Qed.

Lemma clockless_ret (a : A) : clockless (mret a).
Proof. intros w a' w' [= _ <-]. done. Qed.

Lemma clockless_raise e : clockless (raise e : M A).
Proof. intros w a w' [=]. Qed.

Lemma clockless_bind m f :
  clockless m → (∀ a, clockless (f a)) → clockless (m ≫= f).
Proof.
  intros Hm Hf w b w2. unfold mbind, M_bind.
  destruct (m w) as [[a w1]|e] eqn:Hrun; [|done].
  intros Hb. rewrite (Hf _ _ _ _ Hb). by eapply Hm.
Qed.
End runs_rules.

Lemma runs_now w :
  runs now w (λ t w', t = wallclock (platform w) (ticks w) ∧ later 1 w w').
Proof. eexists _, _. split; [reflexivity|]. split; [done|]. split; simpl; [done|lia]. Qed.

Lemma later_trans j k w1 w2 w3 :
  later j w1 w2 → later k w2 w3 → later (j + k) w1 w3.
Proof. intros [? ?] [? ?]. split; [congruence|lia]. Qed.

(** A step through a [bind] of a run. *)
Tactic Notation "go" uconstr(rule) "as" simple_intropattern(x)
    simple_intropattern(Hx) :=
  eapply runs_bind; [eapply rule | intros x ? Hx; cbv beta in *].

(** The same, for an action that does not read the clock. *)
Tactic Notation "go" "quietly" uconstr(rule) uconstr(quiet) "as"
    simple_intropattern(x) simple_intropattern(Hx) :=
  eapply runs_bind;
  [eapply runs_clockless; [eapply rule | eapply quiet]
  | intros x ? Hx; cbv beta in *].

Lemma clockless_next_draw : clockless next_draw.
Proof. intros w a w' [= _ <-]. done. Qed.

Lemma clockless_local_zone : clockless local_zone.
Proof. intros w a w' [= _ <-]. done. Qed.

Lemma clockless_getitem {A} (l : list A) i : clockless (getitem l i).
Proof.
  unfold getitem. destruct (l !! Z.to_nat i);
    [apply clockless_ret | apply clockless_raise].
Qed.

Lemma clockless_randbelow n : clockless (randbelow n).
Proof.
  apply clockless_bind; [apply clockless_next_draw|].
  intros. apply clockless_ret.
Qed.

Lemma clockless_randint a b : clockless (randint a b).
Proof.
  unfold randint. destruct (0 <? b + 1 - a); [|apply clockless_raise].
  apply clockless_bind; [apply clockless_randbelow|].
  intros. apply clockless_ret.
Qed.

Lemma clockless_uniform_round2 a b : clockless (uniform_round2 a b).
Proof.
  apply clockless_bind; [apply clockless_randbelow|].
  intros. apply clockless_ret.
Qed.

Lemma clockless_choice {A} (l : list A) : clockless (choice l).
Proof.
  unfold choice. destruct (decide (l = [])); [apply clockless_raise|].
  apply clockless_bind; [apply clockless_randbelow|].
  intros. apply clockless_getitem.
Qed.

Lemma clockless_choices {A} (population : list A) k :
  clockless (choices population k).
Proof.
  induction k as [|k IH]; simpl; [apply clockless_ret|].
  apply clockless_bind; [apply clockless_randbelow|]. intros i.
  apply clockless_bind; [apply clockless_getitem|]. intros x.
  apply clockless_bind; [apply IH|]. intros. apply clockless_ret.
Qed.

Lemma clockless_sample_loop {A} n k : ∀ i (pool result : list A),
  clockless (sample_loop n k i pool result).
Proof.
  induction k as [|k IH]; intros i pool result; simpl; [apply clockless_ret|].
  apply clockless_bind; [apply clockless_randbelow|]. intros j.
  apply clockless_bind; [apply clockless_getitem|]. intros x.
  apply clockless_bind; [apply clockless_getitem|]. intros y.
  apply IH.
Qed.

Lemma clockless_sample {A} (population : list A) k :
  clockless (sample population k).
Proof.
  unfold sample. destruct (_ && _); [|apply clockless_raise].
  apply clockless_sample_loop.
Qed.

Lemma clockless_uuid4 : clockless uuid4.
Proof.
  apply clockless_bind; [apply clockless_randbelow|].
  intros. apply clockless_ret.
Qed.

Lemma clockless_generate_random_string n : clockless (generate_random_string n).
Proof.
  apply clockless_bind; [apply clockless_choices|].
  intros. apply clockless_ret.
Qed.

Lemma clockless_generate_random_email : clockless generate_random_email.
Proof.
  apply clockless_bind; [apply clockless_generate_random_string|]. intros s.
  apply clockless_bind; [apply clockless_choice|].
  intros. apply clockless_ret.
Qed.

Lemma clockless_generate_random_tags : clockless generate_random_tags.
Proof.
  apply clockless_bind; [apply clockless_randint|].
  intros. apply clockless_sample.
Qed.

Lemma clockless_date_new y m d : clockless (date_new y m d).
Proof.
  unfold date_new. destruct (check_date_fields y m d);
    [apply clockless_ret | apply clockless_raise].
Qed.

Lemma clockless_replace_ymdhm dt y m d hh mm :
  clockless (replace_ymdhm dt y m d hh mm).
Proof.
  unfold replace_ymdhm, datetime_new. destruct (_ && _);
    [apply clockless_ret | apply clockless_raise].
Qed.

(** ** The helpers, in detail *)

Lemma length_string_of_list_ascii cs :
  String.length (string_of_list_ascii cs) = length cs.
Proof. induction cs as [|c cs IH]; simpl; [done|]. by rewrite IH. Qed.

Lemma returns_generate_random_string_text n w :
  returns (generate_random_string n) w
    (λ s, String.length s = n ∧ text_over alphanumeric s).
Proof.
  unfold generate_random_string.
  step returns_choices as cs [Hlen Hall]; [done|].
  apply returns_ret. split.
  - by rewrite length_string_of_list_ascii.
  - unfold text_over. by rewrite list_ascii_of_string_of_list_ascii.
Qed.

(** [lower] keeps the length and folds the alphabet onto its lower-case
    half. *)
Lemma lower_char_alphanumeric c :
  c ∈ list_ascii_of_string alphanumeric →
  lower_char c ∈ list_ascii_of_string lower_alphanumeric.
Proof.
  revert c. apply Forall_forall. by apply (bool_decide_unpack _).
Qed.

Lemma lower_text s :
  text_over alphanumeric s →
  String.length (lower s) = String.length s
  ∧ text_over lower_alphanumeric (lower s).
Proof.
  intros Hs. unfold lower, text_over in *.
  rewrite length_string_of_list_ascii, length_fmap,
    list_ascii_of_string_of_list_ascii.
  split.
  - rewrite <-(string_of_list_ascii_of_string s) at 2.
    by rewrite length_string_of_list_ascii.
  - apply Forall_fmap. eapply Forall_impl; [exact Hs|].
    intros c. apply lower_char_alphanumeric.
Qed.

Lemma returns_generate_random_email_shape w :
  returns generate_random_email w email_shape.
Proof.
  unfold generate_random_email.
  step returns_generate_random_string_text as s [Hlen Htext].
  step returns_choice as domain Hdomain; [done|].
  apply returns_ret. exists (lower s), domain.
  destruct (lower_text s Htext) as [Hl Ht].
  split_and!; [done|congruence|done|done].
Qed.

Lemma returns_uuid4_of w :
  returns uuid4 w (λ u, ∃ r, 0 ≤ r < 2 ^ 128 ∧ u = uuid4_of r).
Proof.
  unfold uuid4. step returns_randbelow as r Hr; [done|].
  apply returns_ret. by exists r.
Qed.

(** Every world of a run, told from the first. *)
Ltac chain :=
  repeat match goal with
         | L1 : later _ ?w1 ?w2, L2 : later _ ?w2 ?w3 |- _ =>
             pose proof (later_trans _ _ _ _ _ L1 L2); clear L2
         end.

Ltac in_first_world :=
  repeat match goal with
         | L : later _ _ ?w' |- context [platform ?w'] =>
             rewrite (proj1 L)
         | L : later _ _ ?w' |- context [ticks ?w'] =>
             rewrite (proj2 L)
         end;
  rewrite ?Nat.add_0_r.

Lemma runs_generate_random_metadata w :
  runs generate_random_metadata w
    (λ m w', metadata_detail w (ticks w) m ∧ later 1 w w').
Proof.
  unfold generate_random_metadata.
  go quietly returns_choice clockless_choice as department [Hdep L1]; [done|].
  go quietly returns_choice clockless_choice as location [Hloc L2]; [done|].
  go quietly returns_randint clockless_randint as years [Hyears L3]; [lia|].
  go quietly returns_randint clockless_randint as k [Hk L4]; [lia|].
  go quietly returns_sample clockless_sample as l [[Hlen Hsub] L5];
    [simpl; lia|].
  go quietly returns_choice clockless_choice as cert [_ L6]; [done|].
  go runs_now as t [-> L7].
  apply runs_ret.
  chain. split; [|done].
  unfold metadata_detail, reading. simpl. in_first_world.
  split_and!; try done; try lia. split; [lia|done].
Qed.

(** The optional score, drawn after its coin. *)
Lemma runs_score (with_score : bool) w :
  runs (if with_score
        then v ← uniform_round2 0 100; mret (Some v)
        else mret None) w
    (λ score w', (∀ v, score = Some v → 0 ≤ v ≤ 10000) ∧ later 0 w w').
Proof.
  destruct with_score.
  - go quietly returns_uniform_round2 clockless_uniform_round2 as v [Hv L];
      [lia|].
    apply runs_ret. split; [|done]. intros ? [= <-]. lia.
  - apply runs_ret. split; [done|]. split; [done|lia].
Qed.

Lemma runs_generate_data_object id w :
  runs (generate_data_object id) w
    (λ r w', standard_detail w id r ∧ later 2 w w').
Proof.
  unfold generate_data_object.
  go quietly returns_uuid4_of clockless_uuid4 as u [Hu ?].
  go quietly returns_generate_random_string_text
    clockless_generate_random_string as s [Hs ?].
  go quietly returns_generate_random_email_shape
    clockless_generate_random_email as email [Hemail ?].
  go quietly returns_randint clockless_randint as age [Hage ?]; [lia|].
  go quietly returns_uniform_round2 clockless_uniform_round2
    as height [Hheight ?]; [lia|].
  go quietly returns_uniform_round2 clockless_uniform_round2
    as weight [Hweight ?]; [lia|].
  go quietly returns_choice clockless_choice as is_active [_ ?]; [done|].
  go quietly returns_uniform_round2 clockless_uniform_round2
    as balance [Hbalance ?]; [lia|].
  go quietly returns_randint clockless_randint as y [Hy ?]; [lia|].
  go quietly returns_randint clockless_randint as m [Hm ?]; [lia|].
  go quietly returns_randint clockless_randint as d [Hd ?]; [lia|].
  go quietly returns_date_new clockless_date_new as birth [-> ?];
    [apply check_date_fields_28; lia|].
  go runs_now as created [-> ?].
  go quietly returns_generate_random_tags clockless_generate_random_tags
    as tags [Htags ?].
  go runs_generate_random_metadata as metadata [Hmeta ?].
  go quietly returns_choice clockless_choice as with_score [_ ?]; [done|].
  go runs_score as score [Hscore ?].
  go quietly returns_choice clockless_choice as with_description [_ ?];
    [done|].
  apply runs_ret. chain. split; [|done].
  destruct Hu as (r & Hr & ->), Hs as [Hlen Htext].
  unfold standard_detail, common_detail, metadata_detail, reading in *. simpl.
  destruct Hmeta as (? & ? & ? & ? & ->). in_first_world.
  split_and!; try done; try lia.
  - by exists r.
  - by exists s.
  - destruct with_description; [|done]. by intros t [= <-].
  - exists (Date y m d). split; [|done]. unfold birth_range. simpl. lia.
  - f_equal. f_equal. lia.
Qed.

Lemma runs_generate_data_object_with_different_dates id w :
  clock_ok (platform w) →
  runs (generate_data_object_with_different_dates id) w
    (λ r w', multi_date_detail w id r ∧ later 2 w w').
Proof.
  intros Hclock. unfold generate_data_object_with_different_dates.
  go quietly returns_randint clockless_randint as y [Hy ?]; [lia|].
  go quietly returns_randint clockless_randint as m [Hm ?]; [lia|].
  go quietly returns_randint clockless_randint as d [Hd ?]; [lia|].
  go quietly returns_date_new clockless_date_new as birth [-> ?];
    [apply check_date_fields_28; lia|].
  go runs_now as t [-> ?].
  go quietly returns_randint clockless_randint as cy [Hcy ?]; [lia|].
  go quietly returns_randint clockless_randint as cm [Hcm ?]; [lia|].
  go quietly returns_randint clockless_randint as cd [Hcd ?]; [lia|].
  go quietly returns_randint clockless_randint as chh [Hchh ?]; [lia|].
  go quietly returns_randint clockless_randint as cmm [Hcmm ?]; [lia|].
  chain.
  assert (check_date_fields cy cm cd = true) as Hcdate
    by (apply check_date_fields_28; lia).
  go quietly returns_replace_ymdhm clockless_replace_ymdhm as created [-> ?];
    [in_first_world; apply Hclock | done | lia | lia |].
  go quietly returns_uuid4_of clockless_uuid4 as u [Hu ?].
  go quietly returns_generate_random_string_text
    clockless_generate_random_string as s [Hs ?].
  go quietly returns_generate_random_email_shape
    clockless_generate_random_email as email [Hemail ?].
  go quietly returns_randint clockless_randint as age [Hage ?]; [lia|].
  go quietly returns_uniform_round2 clockless_uniform_round2
    as height [Hheight ?]; [lia|].
  go quietly returns_uniform_round2 clockless_uniform_round2
    as weight [Hweight ?]; [lia|].
  go quietly returns_choice clockless_choice as is_active [_ ?]; [done|].
  go quietly returns_uniform_round2 clockless_uniform_round2
    as balance [Hbalance ?]; [lia|].
  go quietly returns_local_zone clockless_local_zone as tz [-> ?].
  go quietly returns_generate_random_tags clockless_generate_random_tags
    as tags [Htags ?].
  go runs_generate_random_metadata as metadata [Hmeta ?].
  go quietly returns_choice clockless_choice as with_score [_ ?]; [done|].
  go runs_score as score [Hscore ?].
  go quietly returns_choice clockless_choice as with_description [_ ?];
    [done|].
  apply runs_ret. chain. split; [|done].
  destruct Hu as (r & Hr & ->), Hs as [Hlen Htext].
  unfold multi_date_detail, common_detail, metadata_detail, reading in *.
  simpl. destruct Hmeta as (? & ? & ? & ? & ->). in_first_world.
  pose proof (Hclock (ticks w)) as Hnow.
  split_and!; try done; try lia.
  - by exists r.
  - by exists s.
  - destruct with_description; [|done]. by intros t [= <-].
  - exists (Date y m d). by split_and!.
  - exists (DateTime cy cm cd chh cmm
              (second (wallclock (platform w) (ticks w)))
              (microsecond (wallclock (platform w) (ticks w)))
              (fold (wallclock (platform w) (ticks w)))).
    split; [unfold created_range; simpl; lia|].
    split; [|done].
    unfold datetime_ok. simpl. rewrite Hcdate. simpl.
    apply andb_true_iff in Hnow as [_ Ht%check_time_fields_spec].
    apply check_time_fields_spec. lia.
  - f_equal. f_equal. lia.
Qed.

(** ** A page, record by record *)

(** A loop whose body reads the clock [c] times: the entry appended for the
    [k]-th index was made with the clock [c * k] readings on. *)
Lemma runs_for_append {A} (body : Z → M A) (c : nat)
    (P : nat → Z → A → Prop) l :
  ∀ data w,
    (∀ i w', platform w' = platform w →
       runs (body i) w' (λ x w'', P (ticks w') i x ∧ later c w' w'')) →
    runs (for_append body l data) w
      (λ out w', ∃ new,
         out = data ++ new ∧ length new = length l
         ∧ later (c * length l) w w'
         ∧ ∀ (k : nat) i x, l !! k = Some i → new !! k = Some x →
             P (ticks w + c * k)%nat i x).
Proof.
  induction l as [|i l IH]; intros data w Hbody; simpl.
  - apply runs_ret. exists []. rewrite app_nil_r.
    split_and!; try done. split; [done|lia].
  - go Hbody as x [Hx L]; [done|].
    eapply runs_impl.
    { apply IH. intros j w'' Hp. apply Hbody. destruct L. congruence. }
    intros out w2 (new & -> & Hlen & L' & Hnew). exists (x :: new).
    rewrite <-app_assoc. split_and!; [done|simpl; lia| |].
    + pose proof (later_trans _ _ _ _ _ L L') as [? ?]. split; [done|lia].
    + intros [|k] j y Hj Hy; simpl in *.
      * simplify_eq. by rewrite Nat.mul_0_r, Nat.add_0_r.
      * specialize (Hnew k j y Hj Hy). destruct L as [_ Ht].
        rewrite Ht in Hnew.
        by replace (ticks w + c * S k)%nat with (ticks w + c + c * k)%nat
          by lia.
Qed.

Lemma runs_paginate {A} (generate : Z → M A) (c : nat)
    (P : nat → Z → A → Prop) pg sz tot w :
  sz ≠ 0 →
  (∀ i w', platform w' = platform w →
     runs (generate i) w' (λ x w'', P (ticks w') i x ∧ later c w' w'')) →
  runs (paginate generate pg sz tot) w
    (λ e w', planned pg sz tot e
       ∧ Z.of_nat (length (data e))
         = Z.max 0 (end_index pg sz tot - start_index pg sz)
       ∧ later (c * length (data e)) w w'
       ∧ ∀ (k : nat) r, data e !! k = Some r →
           P (ticks w + c * k)%nat (start_index pg sz + Z.of_nat k + 1) r).
Proof.
  intros Hsz Hgen. unfold paginate, floordiv.
  destruct (Z.eqb_spec sz 0) as [|_]; [done|].
  eapply (runs_bind _ _ _ (λ r w', r = (tot + sz - 1) / sz ∧ w' = w));
    [by apply runs_ret|].
  intros pages w0 [-> ->].
  eapply runs_bind.
  { apply (runs_for_append _ c (λ n i r, P n (i + 1) r)).
    intros i w' Hp. by apply Hgen. }
  intros rows w' (new & -> & Hlen & L & Hnew).
  apply runs_ret. simpl. split; [by repeat split|].
  unfold range in *. rewrite length_seqZ in Hlen. rewrite Hlen.
  split; [fold (start_index pg sz) (end_index pg sz tot); lia|].
  split; [by rewrite length_seqZ in L|].
  intros k r Hr.
  assert (k < length new)%nat as Hk by (by eapply lookup_lt_Some).
  eapply Hnew; [|exact Hr].
  rewrite lookup_seqZ_lt by lia. done.
Qed.

Lemma returns_of_runs {A} (m : M A) w (P : A → Prop) :
  runs m w (λ a w', P a ∧ platform w' = platform w) → returns m w P.
Proof. intros (a & w' & Hm & Ha & Hp). by exists a, w'. Qed.

Lemma runs_get_data pg sz tot w :
  sz ≠ 0 →
  runs (get_data pg sz tot) w
    (λ e w', planned pg sz tot e
       ∧ Z.of_nat (length (data e))
         = Z.max 0 (end_index pg sz tot - start_index pg sz)
       ∧ later (2 * length (data e)) w w'
       ∧ ∀ (k : nat) r, data e !! k = Some r →
           standard_detail (world_at (platform w) (ticks w + 2 * k))
             (start_index pg sz + Z.of_nat k + 1) r).
Proof.
  intros Hsz. rewrite get_data_paginate.
  apply (runs_paginate _ 2
           (λ n i r, standard_detail (world_at (platform w) n) i r));
    [done|].
  intros i w' Hp. eapply runs_impl; [apply runs_generate_data_object|].
  intros r w'' [Hr L]. split; [|done].
  unfold standard_detail, metadata_detail, reading in *. simpl.
  by rewrite <-Hp.
Qed.

Lemma runs_get_data_with_date_formats pg sz tot w :
  sz ≠ 0 → clock_ok (platform w) →
  runs (get_data_with_date_formats pg sz tot) w
    (λ e w', planned pg sz tot e
       ∧ Z.of_nat (length (data e))
         = Z.max 0 (end_index pg sz tot - start_index pg sz)
       ∧ later (2 * length (data e)) w w'
       ∧ ∀ (k : nat) r, data e !! k = Some r →
           multi_date_detail (world_at (platform w) (ticks w + 2 * k))
             (start_index pg sz + Z.of_nat k + 1) r).
Proof.
  intros Hsz Hclock. rewrite get_data_with_date_formats_paginate.
  apply (runs_paginate _ 2
           (λ n i r, multi_date_detail (world_at (platform w) n) i r));
    [done|].
  intros i w' Hp. eapply runs_impl.
  { apply runs_generate_data_object_with_different_dates. by rewrite Hp. }
  intros r w'' [Hr L]. split; [|done].
  unfold multi_date_detail, metadata_detail, reading in *. simpl.
  by rewrite <-Hp.
Qed.

(** * More of the pagination planner *)

(** The runs of identities of the first [n] pages, one after the other. *)
Lemma concat_page_runs sz tot (n : nat) :
  0 < sz → 0 ≤ tot → Z.of_nat n ≤ (tot + sz - 1) / sz →
  concat ((λ p, seqZ ((p - 1) * sz + 1) (Z.min (p * sz) tot - (p - 1) * sz))
            <$> seqZ 1 (Z.of_nat n))
  = seqZ 1 (Z.min (Z.of_nat n * sz) tot).
Proof.
  intros Hsz Htot. induction n as [|n IH]; intros Hn.
  - simpl. rewrite Z.min_l by lia. done.
  - rewrite seqZ_S, fmap_app, concat_app, IH by lia. simpl.
    rewrite app_nil_r.
    assert (Z.of_nat n * sz < tot) as Hfull.
    { assert (Z.of_nat n < (tot + sz - 1) / sz) as Hlt by lia.
      revert Hlt. Z.div_mod_to_equations. nia. }
    rewrite (Z.min_l (Z.of_nat n * sz)) by lia.
    replace (1 + Z.of_nat n - 1) with (Z.of_nat n) by lia.
    replace (Z.of_nat n * sz + 1) with (1 + Z.of_nat n * sz) by lia.
    rewrite <-seqZ_app by lia. f_equal. lia.
Qed.

Lemma eq_of_Forall2 {A B C} (f : A → C) (g : B → C) l k :
  Forall2 (λ x y, g y = f x) l k → g <$> k = f <$> l.
Proof. induction 1 as [|x y l k Hxy _ IH]; [done|]. simpl. by f_equal. Qed.

Lemma get_data_ids pg sz tot w e w' :
  sz ≠ 0 → get_data pg sz tot w = Ok (e, w') →
  standard_ids e
  = seqZ (start_index pg sz + 1) (end_index pg sz tot - start_index pg sz).
Proof.
  intros Hsz He.
  destruct (returns_get_data pg sz tot w Hsz) as (e0 & w0 & He0 & _ & _ & ? & _).
  rewrite He in He0. by simplify_eq.
Qed.

Lemma get_data_with_date_formats_ids pg sz tot w e w' :
  sz ≠ 0 → clock_ok (platform w) →
  get_data_with_date_formats pg sz tot w = Ok (e, w') →
  multi_date_ids e
  = seqZ (start_index pg sz + 1) (end_index pg sz tot - start_index pg sz).
Proof.
  intros Hsz Hclock He.
  destruct (returns_get_data_with_date_formats pg sz tot w Hsz Hclock)
    as (e0 & w0 & He0 & _ & _ & ? & _).
  rewrite He in He0. by simplify_eq.
Qed.

Lemma all_pages_ids sz tot :
  0 < sz → 0 ≤ tot →
  concat ((λ p, seqZ (start_index p sz + 1)
                  (end_index p sz tot - start_index p sz))
            <$> seqZ 1 ((tot + sz - 1) / sz))
  = seqZ 1 tot.
Proof.
  intros Hsz Htot.
  assert (0 ≤ (tot + sz - 1) / sz) as Hpages by (apply Z.div_pos; lia).
  destruct (Z_of_nat_complete _ Hpages) as [n Hn]. rewrite Hn.
  assert (tot ≤ Z.of_nat n * sz) as Hcover.
  { rewrite <-Hn. Z.div_mod_to_equations. nia. }
  transitivity (seqZ 1 (Z.min (Z.of_nat n * sz) tot));
    [|by rewrite Z.min_r].
  rewrite <-concat_page_runs by lia. f_equal.
  apply list_fmap_ext. intros _ p _. unfold end_index, start_index.
  by replace ((p - 1) * sz + sz) with (p * sz) by ring.
Qed.

(** X1: the pages 1 .. total_pages of a record set, however and whenever each
    was fetched, hold the identities 1 .. total_records, each once and in
    order. *)
Theorem pages_partition_records sz tot :
  0 < sz → 0 ≤ tot →
  (∀ envs,
     Forall2 (λ pg e, ∃ w w', get_data pg sz tot w = Ok (e, w'))
       (seqZ 1 ((tot + sz - 1) / sz)) envs →
     concat (standard_ids <$> envs) = seqZ 1 tot)
  ∧ (∀ envs,
       Forall2 (λ pg e, ∃ w w', clock_ok (platform w)
                  ∧ get_data_with_date_formats pg sz tot w = Ok (e, w'))
         (seqZ 1 ((tot + sz - 1) / sz)) envs →
       concat (multi_date_ids <$> envs) = seqZ 1 tot).
Proof.
  intros Hsz Htot. split; intros envs Hall.
  - rewrite <-(all_pages_ids sz tot) by done. f_equal.
    apply eq_of_Forall2. eapply Forall2_impl; [exact Hall|].
    intros pg e (w & w' & He). eapply get_data_ids; [lia|done].
  - rewrite <-(all_pages_ids sz tot) by done. f_equal.
    apply eq_of_Forall2. eapply Forall2_impl; [exact Hall|].
    intros pg e (w & w' & Hclock & He).
    eapply get_data_with_date_formats_ids; [lia|done..].
Qed.

Lemma outcome_Some {A} (m : M A) w a :
  outcome m w = Some a → ∃ w', m w = Ok (a, w').
Proof.
  unfold outcome. destruct (m w) as [[a' w']|]; [|done].
  intros [= ->]. by exists w'.
Qed.

Lemma sample_pages_fetched :
  Forall2 (λ pg e, ∃ w w', get_data pg 3 10 w = Ok (e, w'))
    (seqZ 1 4) sample_pages.
Proof.
  assert (mapM (λ pg, outcome (get_data pg 3 10) sample_world) (seqZ 1 4)
          = Some sample_pages) as Hall by (vm_compute; reflexivity).
  apply mapM_Some in Hall. eapply Forall2_impl; [exact Hall|].
  intros pg e He. exists sample_world. by apply outcome_Some.
Qed.

Lemma pages_partition_records_witness :
  0 < 3 ∧ 0 ≤ 10 ∧ length sample_pages = 4%nat
  ∧ concat (standard_ids <$> sample_pages) = seqZ 1 10.
Proof.
  split; [lia|]. split; [lia|]. split; [by vm_compute|].
  destruct (pages_partition_records 3 10) as [Hstandard _]; [lia|lia|].
  exact (Hstandard sample_pages sample_pages_fetched).
Defined.

Section fill.
Context {A : Type} (pg sz tot : Z) (e : PaginatedResponse A).
Hypothesis Hpg : 1 ≤ pg.
Hypothesis Hsz : 0 < sz.
Hypothesis Htot : 0 ≤ tot.
Hypothesis Hplan : planned pg sz tot e.
Hypothesis Hlen :
  Z.of_nat (length (data e)) = Z.max 0 (end_index pg sz tot - start_index pg sz).

Lemma plan_fill :
  (pg < total_pages e → Z.of_nat (length (data e)) = sz)
  ∧ (pg = total_pages e → 1 ≤ Z.of_nat (length (data e)) ≤ sz)
  ∧ (total_pages e < pg → data e = []).
Proof.
  destruct Hplan as (_ & _ & _ & Hpages & _).
  unfold end_index, start_index in Hlen.
  split_and!; intros Hcmp.
  - rewrite Hlen. rewrite Hpages in Hcmp. revert Hcmp.
    Z.div_mod_to_equations. nia.
  - rewrite Hlen. rewrite Hpages in Hcmp. revert Hcmp.
    Z.div_mod_to_equations. nia.
  - apply length_zero_iff_nil. rewrite Hpages in Hcmp.
    assert (Z.of_nat (length (data e)) = 0); [|lia].
    rewrite Hlen. revert Hcmp. Z.div_mod_to_equations. nia.
Qed.
End fill.

(** X2: every page before the last is full, the last page holds at least
    one record, and every page after the last is empty. *)
Theorem pages_full_then_empty pg sz tot w :
  1 ≤ pg → 0 < sz → 0 ≤ tot → clock_ok (platform w) →
  returns (get_data pg sz tot) w
    (λ e, (pg < total_pages e → Z.of_nat (length (data e)) = sz)
          ∧ (pg = total_pages e → 1 ≤ Z.of_nat (length (data e)) ≤ sz)
          ∧ (total_pages e < pg → data e = []))
  ∧ returns (get_data_with_date_formats pg sz tot) w
      (λ e, (pg < total_pages e → Z.of_nat (length (data e)) = sz)
            ∧ (pg = total_pages e → 1 ≤ Z.of_nat (length (data e)) ≤ sz)
            ∧ (total_pages e < pg → data e = [])).
Proof.
  intros Hpg Hsz Htot Hclock. split.
  - apply returns_of_runs. eapply runs_impl.
    { apply runs_get_data. lia. }
    intros e w' (Hplan & Hlen & [Hp _] & _). split; [|done].
    by eapply plan_fill.
  - apply returns_of_runs. eapply runs_impl.
    { apply runs_get_data_with_date_formats; [lia|done]. }
    intros e w' (Hplan & Hlen & [Hp _] & _). split; [|done].
    by eapply plan_fill.
Qed.

Lemma pages_full_then_empty_witness :
  1 ≤ 4 ∧ 0 < 3 ∧ 0 ≤ 10 ∧ clock_ok (platform sample_world)
  ∧ returns (get_data 4 3 10) sample_world
      (λ e, (4 < total_pages e → Z.of_nat (length (data e)) = 3)
            ∧ (4 = total_pages e → 1 ≤ Z.of_nat (length (data e)) ≤ 3)
            ∧ (total_pages e < 4 → data e = [])).
Proof.
  split; [lia|]. split; [lia|]. split; [lia|].
  split; [exact sample_platform_clock_ok|].
  destruct (pages_full_then_empty 4 3 10 sample_world) as [Hstandard _];
    [lia | lia | lia | exact sample_platform_clock_ok | exact Hstandard].
Defined.

Section next_page.
Context {A : Type} (pg sz tot : Z) (e e' : PaginatedResponse A).
Hypothesis Hpg : 1 ≤ pg.
Hypothesis Hsz : 0 < sz.
Hypothesis Hplan : planned pg sz tot e.
Hypothesis Hlen' :
  Z.of_nat (length (data e'))
  = Z.max 0 (end_index (pg + 1) sz tot - start_index (pg + 1) sz).

Lemma plan_has_next : has_next e = true ↔ data e' ≠ [].
Proof.
  destruct Hplan as (_ & _ & _ & Hpages & -> & _).
  rewrite Hpages, Z.ltb_lt.
  unfold end_index, start_index in Hlen'.
  rewrite <-length_zero_iff_nil.
  assert (pg < (tot + sz - 1) / sz ↔ pg * sz < tot) as ->
    by (Z.div_mod_to_equations; nia).
  lia.
Qed.
End next_page.

(** X3: [has_next] of a page tells whether the next page holds a record,
    whatever the worlds the two pages are fetched in. *)
Theorem has_next_announces_records pg sz tot w1 w2 :
  1 ≤ pg → 0 < sz →
  clock_ok (platform w1) → clock_ok (platform w2) →
  returns (get_data pg sz tot) w1 (λ e,
    returns (get_data (pg + 1) sz tot) w2 (λ e',
      has_next e = true ↔ data e' ≠ []))
  ∧ returns (get_data_with_date_formats pg sz tot) w1 (λ e,
      returns (get_data_with_date_formats (pg + 1) sz tot) w2 (λ e',
        has_next e = true ↔ data e' ≠ [])).
Proof.
  intros Hpg Hsz Hclock1 Hclock2. split.
  - apply returns_of_runs. eapply runs_impl; [apply runs_get_data; lia|].
    intros e w' (Hplan & _ & [Hp _] & _). split; [|done].
    apply returns_of_runs. eapply runs_impl; [apply runs_get_data; lia|].
    intros e' w'' (_ & Hlen' & [Hp' _] & _). split; [|done].
    by eapply plan_has_next.
  - apply returns_of_runs.
    eapply runs_impl; [apply runs_get_data_with_date_formats; [lia|done]|].
    intros e w' (Hplan & _ & [Hp _] & _). split; [|done].
    apply returns_of_runs.
    eapply runs_impl; [apply runs_get_data_with_date_formats; [lia|done]|].
    intros e' w'' (_ & Hlen' & [Hp' _] & _). split; [|done].
    by eapply plan_has_next.
Qed.

Lemma has_next_announces_records_witness :
  1 ≤ 3 ∧ 0 < 3
  ∧ clock_ok (platform sample_world) ∧ clock_ok (platform other_world)
  ∧ returns (get_data 3 3 10) sample_world (λ e,
      returns (get_data (3 + 1) 3 10) other_world (λ e',
        has_next e = true ↔ data e' ≠ [])).
Proof.
  split; [lia|]. split; [lia|].
  split; [exact sample_platform_clock_ok|].
  split; [exact other_platform_clock_ok|].
  destruct (has_next_announces_records 3 3 10 sample_world other_world)
    as [Hstandard _];
    [lia | lia | exact sample_platform_clock_ok
     | exact other_platform_clock_ok | exact Hstandard].
Defined.

(** X4: off the boundary, the endpoint bodies divide by a [page_size] of
    zero before anything is drawn, and answer a negative [page_size] with an
    empty page without drawing or reading the clock. *)
Theorem body_off_the_boundary pg sz tot w :
  get_data pg 0 tot w = Raise ZeroDivisionError
  ∧ get_data_with_date_formats pg 0 tot w = Raise ZeroDivisionError
  ∧ (sz < 0 →
     (∃ e, get_data pg sz tot w = Ok (e, w) ∧ data e = []
           ∧ total_pages e = (tot + sz - 1) / sz)
     ∧ (∃ e, get_data_with_date_formats pg sz tot w = Ok (e, w)
             ∧ data e = [] ∧ total_pages e = (tot + sz - 1) / sz)).
Proof.
  split; [done|]. split; [done|]. intros Hsz.
  assert (range ((pg - 1) * sz) (Z.min ((pg - 1) * sz + sz) tot) = [])
    as Hempty by (unfold range; apply seqZ_nil; lia).
  split.
  - unfold get_data, floordiv. destruct (Z.eqb_spec sz 0); [lia|].
    cbv zeta. rewrite Hempty. eexists. by split.
  - unfold get_data_with_date_formats, floordiv.
    destruct (Z.eqb_spec sz 0); [lia|].
    cbv zeta. rewrite Hempty. eexists. by split.
Qed.

Lemma body_off_the_boundary_witness :
  -3 < 0
  ∧ ∃ e, get_data 2 (-3) 10 sample_world = Ok (e, sample_world)
         ∧ data e = [] ∧ total_pages e = (10 + -3 - 1) / -3.
Proof.
  split; [lia|].
  destruct (body_off_the_boundary 2 (-3) 10 sample_world)
    as (_ & _ & Hnegative).
  destruct Hnegative as [Hstandard _]; [lia | exact Hstandard].
Defined.

(** X5: each endpoint answers every request, and answers 422 exactly when a
    supplied value is out of bounds: no request makes an endpoint raise. *)
Theorem endpoints_answer_every_request req w :
  clock_ok (platform w) →
  returns (api_data req) w
    (λ resp,
       (valid_input (page_of req) (page_size_of req) (total_records_of req)
        ∧ ∃ e, resp = Status200 e)
       ∨ (¬ valid_input (page_of req) (page_size_of req) (total_records_of req)
          ∧ resp = Status422))
  ∧ returns (api_data_with_date_formats req) w
      (λ resp,
         (valid_input (page_of req) (page_size_of req) (total_records_of req)
          ∧ ∃ e, resp = Status200 e)
         ∨ (¬ valid_input (page_of req) (page_size_of req)
                (total_records_of req)
            ∧ resp = Status422)).
Proof.
  intros Hclock. unfold api_data, api_data_with_date_formats. split.
  - destruct (route_cases get_data req) as [[Hbad ->]|[Hvalid _]].
    { apply returns_ret. by right. }
    assert (page_size_of req ≠ 0) by (destruct Hvalid as (_ & ? & _); lia).
    eapply returns_impl.
    { apply returns_route; [done|]. by apply returns_get_data. }
    intros resp (e & -> & _). left. eauto.
  - destruct (route_cases get_data_with_date_formats req)
      as [[Hbad ->]|[Hvalid _]].
    { apply returns_ret. by right. }
    assert (page_size_of req ≠ 0) by (destruct Hvalid as (_ & ? & _); lia).
    eapply returns_impl.
    { apply returns_route; [done|].
      by apply returns_get_data_with_date_formats. }
    intros resp (e & -> & _). left. eauto.
Qed.

Lemma endpoints_answer_every_request_witness :
  clock_ok (platform sample_world)
  ∧ returns (api_data (request_of 1 0 10)) sample_world
      (λ resp,
         (valid_input 1 0 10 ∧ ∃ e, resp = Status200 e)
         ∨ (¬ valid_input 1 0 10 ∧ resp = Status422)).
Proof.
  split; [exact sample_platform_clock_ok|].
  destruct (endpoints_answer_every_request (request_of 1 0 10) sample_world)
    as [Hstandard _]; [exact sample_platform_clock_ok | exact Hstandard].
Defined.

Section bounds.
Context {A : Type} (ident : A → Z).
Context (pg sz tot : Z) (e : PaginatedResponse A).
Hypothesis Hvalid : valid_input pg sz tot.
Hypothesis Hplan : planned pg sz tot e.
Hypothesis Hids :
  ident <$> data e
  = seqZ (start_index pg sz + 1) (end_index pg sz tot - start_index pg sz).

Lemma plan_bounds :
  Z.of_nat (length (data e)) ≤ sz
  ∧ 1 ≤ total_pages e ≤ tot
  ∧ Forall (λ r, 1 ≤ ident r ≤ tot) (data e).
Proof.
  destruct Hvalid as (? & ? & ?). split_and!.
  - rewrite (plan_length ident pg sz tot e) by done. lia.
  - destruct Hplan as (_ & _ & _ & -> & _). Z.div_mod_to_equations. nia.
  - destruct Hplan as (_ & _ & _ & -> & _). Z.div_mod_to_equations. nia.
  - assert (Forall (λ i, 1 ≤ i ≤ tot) (ident <$> data e)) as Hall.
    { rewrite Hids. apply Forall_forall. intros i [? ?]%elem_of_seqZ.
      unfold end_index, start_index in *. nia. }
    by apply Forall_fmap in Hall.
Qed.
End bounds.

(** X6: a page never holds more than [page_size] records, the page count is
    between 1 and [total_records], and no record has an identity outside
    1 .. [total_records]. *)
Theorem pages_within_bounds pg sz tot w :
  valid_input pg sz tot → clock_ok (platform w) →
  returns (get_data pg sz tot) w
    (λ e, Z.of_nat (length (data e)) ≤ sz
          ∧ 1 ≤ total_pages e ≤ tot
          ∧ Forall (λ r, 1 ≤ DataObject.id r ≤ tot) (data e))
  ∧ returns (get_data_with_date_formats pg sz tot) w
      (λ e, Z.of_nat (length (data e)) ≤ sz
            ∧ 1 ≤ total_pages e ≤ tot
            ∧ Forall (λ r, 1 ≤ DataObjectWithDifferentDates.id r ≤ tot)
                (data e)).
Proof.
  intros Hvalid Hclock.
  assert (sz ≠ 0) by (destruct Hvalid as (_ & ? & _); lia).
  split.
  - eapply returns_impl; [by apply returns_get_data|].
    intros e (Hplan & Hids & _). by eapply plan_bounds.
  - eapply returns_impl; [by apply returns_get_data_with_date_formats|].
    intros e (Hplan & Hids & _). by eapply plan_bounds.
Qed.

Lemma pages_within_bounds_witness :
  valid_input 4 3 10 ∧ clock_ok (platform sample_world)
  ∧ returns (get_data 4 3 10) sample_world
      (λ e, Z.of_nat (length (data e)) ≤ 3
            ∧ 1 ≤ total_pages e ≤ 10
            ∧ Forall (λ r, 1 ≤ DataObject.id r ≤ 10) (data e)).
Proof.
  split; [unfold valid_input; lia|].
  split; [exact sample_platform_clock_ok|].
  destruct (pages_within_bounds 4 3 10 sample_world) as [Hstandard _];
    [unfold valid_input; lia | exact sample_platform_clock_ok
     | exact Hstandard].
Defined.

Lemma plan_view_across {A B} (ida : A → Z) (idb : B → Z) pg sz tot
    (e1 : PaginatedResponse A) (e2 : PaginatedResponse B) :
  planned pg sz tot e1 → planned pg sz tot e2 →
  ida <$> data e1 = idb <$> data e2 →
  plan_view ida e1 = plan_view idb e2.
Proof.
  intros (Ht1 & Hp1 & Hs1 & Hn1 & Hx1 & Hv1) (Ht2 & Hp2 & Hs2 & Hn2 & Hx2 & Hv2)
    Hids.
  unfold plan_view.
  rewrite Ht1, Ht2, Hp1, Hp2, Hs1, Hs2, Hx1, Hx2, Hv1, Hv2, Hn1, Hn2, Hids.
  by rewrite <-(length_fmap ida (data e1)), Hids, length_fmap.
Qed.

(** X7: the two endpoints plan alike: on one request they give the same
    status and, when they answer, the same total, page, page_size,
    total_pages, has_next, has_previous, number of records and
    identities. *)
Theorem endpoints_plan_alike req w1 w2 :
  clock_ok (platform w2) →
  returns (api_data req) w1 (λ r1,
    returns (api_data_with_date_formats req) w2 (λ r2,
      response_view DataObject.id r1
      = response_view DataObjectWithDifferentDates.id r2)).
Proof.
  intros Hclock. unfold api_data, api_data_with_date_formats.
  destruct (route_cases get_data req) as [[Hbad ->]|[Hvalid ?]].
  - apply returns_ret.
    destruct (route_cases get_data_with_date_formats req)
      as [[_ ->]|[? _]]; [|done].
    by apply returns_ret.
  - assert (page_size_of req ≠ 0) by (destruct Hvalid as (_ & ? & _); lia).
    eapply returns_impl.
    { apply returns_route; [done|]. by apply returns_get_data. }
    intros r1 (e1 & -> & Hplan1 & Hids1 & _).
    eapply returns_impl.
    { apply returns_route; [done|].
      by apply returns_get_data_with_date_formats. }
    intros r2 (e2 & -> & Hplan2 & Hids2 & _). simpl. f_equal.
    eapply plan_view_across; [done..|congruence].
Qed.

Lemma endpoints_plan_alike_witness :
  clock_ok (platform other_world)
  ∧ returns (api_data (request_of 2 3 10)) sample_world (λ r1,
      returns (api_data_with_date_formats (request_of 2 3 10)) other_world
        (λ r2, response_view DataObject.id r1
               = response_view DataObjectWithDifferentDates.id r2)).
Proof.
  split; [exact other_platform_clock_ok|].
  exact (endpoints_plan_alike (request_of 2 3 10) sample_world other_world
           other_platform_clock_ok).
Defined.

(** X8: a page is stamped record by record: the [k]-th record is made from
    the clock readings [2 k] and [2 k + 1] of the request, the first for its
    creation instant and the second for [metadata.last_login], and the
    request takes two readings per record. *)
Theorem records_stamped_in_order pg sz tot w :
  sz ≠ 0 → clock_ok (platform w) →
  runs (get_data pg sz tot) w
    (λ e w', ticks w' = (ticks w + 2 * length (data e))%nat
       ∧ ∀ (k : nat) r, data e !! k = Some r →
           DataObject.created_at r = reading w (ticks w + 2 * k)
           ∧ last_login (DataObject.metadata r)
             = reading w (ticks w + 2 * k + 1))
  ∧ runs (get_data_with_date_formats pg sz tot) w
      (λ e w', ticks w' = (ticks w + 2 * length (data e))%nat
         ∧ ∀ (k : nat) r, data e !! k = Some r →
             (∃ dt,
                DataObjectWithDifferentDates.created_at_iso r
                = datetime_isoformat dt
                ∧ second dt
                  = second (wallclock (platform w) (ticks w + 2 * k))
                ∧ microsecond dt
                  = microsecond (wallclock (platform w) (ticks w + 2 * k)))
             ∧ last_login (DataObjectWithDifferentDates.metadata r)
               = reading w (ticks w + 2 * k + 1)).
Proof.
  intros Hsz Hclock. split.
  - eapply runs_impl; [by apply runs_get_data|].
    intros e w' (_ & _ & [_ Ht] & Hrows). split; [done|].
    intros k r Hr. destruct (Hrows k r Hr) as (_ & _ & _ & Hc & Hm).
    destruct Hm as (_ & _ & _ & _ & Hl). split; [done|].
    rewrite Hl. unfold reading. simpl. do 2 f_equal. lia.
  - eapply runs_impl; [by apply runs_get_data_with_date_formats|].
    intros e w' (_ & _ & [_ Ht] & Hrows). split; [done|].
    intros k r Hr.
    destruct (Hrows k r Hr)
      as (_ & _ & _ & (dt & _ & _ & Hs & Hus & _ & Hiso & _) & Hm).
    destruct Hm as (_ & _ & _ & _ & Hl). split; [by exists dt|].
    rewrite Hl. unfold reading. simpl. do 2 f_equal. lia.
Qed.

Lemma records_stamped_in_order_witness :
  3 ≠ 0 ∧ clock_ok (platform other_world)
  ∧ runs (get_data 2 3 10) other_world
      (λ e w', ticks w' = (ticks other_world + 2 * length (data e))%nat
         ∧ ∀ (k : nat) r, data e !! k = Some r →
             DataObject.created_at r
             = reading other_world (ticks other_world + 2 * k)
             ∧ last_login (DataObject.metadata r)
               = reading other_world (ticks other_world + 2 * k + 1)).
Proof.
  split; [lia|]. split; [exact other_platform_clock_ok|].
  destruct (records_stamped_in_order 2 3 10 other_world) as [Hstandard _];
    [lia | exact other_platform_clock_ok | exact Hstandard].
Defined.

(** * More of the record synthesizers *)

Lemma returns_standard_detail id w :
  returns (generate_data_object id) w (standard_detail w id).
Proof.
  apply returns_of_runs. eapply runs_impl; [apply runs_generate_data_object|].
  intros r w' [Hr [Hp _]]. done.
Qed.

Lemma returns_multi_date_detail id w :
  clock_ok (platform w) →
  returns (generate_data_object_with_different_dates id) w
    (multi_date_detail w id).
Proof.
  intros Hclock. apply returns_of_runs.
  eapply runs_impl;
    [by apply runs_generate_data_object_with_different_dates|].
  intros r w' [Hr [Hp _]]. done.
Qed.

(** X9: the numbers of a record lie in the ranges they are drawn from
    (height, weight, balance and score in hundredths), and department and
    location are entries of their lists. *)
Theorem record_numbers_in_range id w :
  clock_ok (platform w) →
  returns (generate_data_object id) w
    (λ r, 15000 ≤ DataObject.height r ≤ 20000
          ∧ 4500 ≤ DataObject.weight r ≤ 12000
          ∧ 0 ≤ DataObject.balance r ≤ 10000000
          ∧ (∀ v, DataObject.score r = Some v → 0 ≤ v ≤ 10000)
          ∧ 1 ≤ experience_years (DataObject.metadata r) ≤ 20
          ∧ department (DataObject.metadata r) ∈ departments
          ∧ location (DataObject.metadata r) ∈ locations)
  ∧ returns (generate_data_object_with_different_dates id) w
      (λ r, 18 ≤ DataObjectWithDifferentDates.age r ≤ 80
            ∧ 15000 ≤ DataObjectWithDifferentDates.height r ≤ 20000
            ∧ 4500 ≤ DataObjectWithDifferentDates.weight r ≤ 12000
            ∧ 0 ≤ DataObjectWithDifferentDates.balance r ≤ 10000000
            ∧ (∀ v, DataObjectWithDifferentDates.score r = Some v →
                 0 ≤ v ≤ 10000)
            ∧ 1 ≤ experience_years (DataObjectWithDifferentDates.metadata r)
              ≤ 20
            ∧ department (DataObjectWithDifferentDates.metadata r)
              ∈ departments
            ∧ location (DataObjectWithDifferentDates.metadata r) ∈ locations).
Proof.
  intros Hclock. split.
  - eapply returns_impl; [apply returns_standard_detail|].
    intros r (_ & Hcommon & _ & _ & Hmeta).
    destruct Hcommon as (_ & _ & _ & _ & ? & ? & ? & _ & ? & _).
    destruct Hmeta as (? & ? & ? & _). done.
  - eapply returns_impl; [by apply returns_multi_date_detail|].
    intros r (_ & Hcommon & _ & _ & Hmeta).
    destruct Hcommon as (_ & _ & _ & ? & ? & ? & ? & _ & ? & _).
    destruct Hmeta as (? & ? & ? & _). done.
Qed.

Lemma record_numbers_in_range_witness :
  clock_ok (platform sample_world)
  ∧ returns (generate_data_object 7) sample_world
      (λ r, 15000 ≤ DataObject.height r ≤ 20000
            ∧ 4500 ≤ DataObject.weight r ≤ 12000
            ∧ 0 ≤ DataObject.balance r ≤ 10000000
            ∧ (∀ v, DataObject.score r = Some v → 0 ≤ v ≤ 10000)
            ∧ 1 ≤ experience_years (DataObject.metadata r) ≤ 20
            ∧ department (DataObject.metadata r) ∈ departments
            ∧ location (DataObject.metadata r) ∈ locations).
Proof.
  split; [exact sample_platform_clock_ok|].
  destruct (record_numbers_in_range 7 sample_world) as [Hstandard _];
    [exact sample_platform_clock_ok | exact Hstandard].
Defined.

(** X10: the text of a record: the name is ["User "] and six letters or
    digits, the email is eight lower-case letters or digits, an at sign and
    one of the five domains, and a description, when there is one, is the
    template with the identity in decimal. *)
Theorem record_text_shapes id w :
  clock_ok (platform w) →
  returns (generate_data_object id) w
    (λ r, (∃ s, DataObject.name r = "User " +:+ s
                ∧ String.length s = 6%nat ∧ text_over alphanumeric s)
          ∧ email_shape (DataObject.email r)
          ∧ (∀ t, DataObject.description r = Some t →
               t = "This is a sample description for user " +:+ pretty id))
  ∧ returns (generate_data_object_with_different_dates id) w
      (λ r, (∃ s, DataObjectWithDifferentDates.name r = "User " +:+ s
                  ∧ String.length s = 6%nat ∧ text_over alphanumeric s)
            ∧ email_shape (DataObjectWithDifferentDates.email r)
            ∧ (∀ t, DataObjectWithDifferentDates.description r = Some t →
                 t = "This is a sample description for user "
                     +:+ pretty id)).
Proof.
  intros Hclock. split.
  - eapply returns_impl; [apply returns_standard_detail|].
    intros r (_ & Hcommon & _).
    by destruct Hcommon as (_ & ? & ? & _ & _ & _ & _ & _ & _ & ?).
  - eapply returns_impl; [by apply returns_multi_date_detail|].
    intros r (_ & Hcommon & _).
    by destruct Hcommon as (_ & ? & ? & _ & _ & _ & _ & _ & _ & ?).
Qed.

Lemma record_text_shapes_witness :
  clock_ok (platform sample_world)
  ∧ returns (generate_data_object 7) sample_world
      (λ r, (∃ s, DataObject.name r = "User " +:+ s
                  ∧ String.length s = 6%nat ∧ text_over alphanumeric s)
            ∧ email_shape (DataObject.email r)
            ∧ (∀ t, DataObject.description r = Some t →
                 t = "This is a sample description for user " +:+ pretty 7)).
Proof.
  split; [exact sample_platform_clock_ok|].
  destruct (record_text_shapes 7 sample_world) as [Hstandard _];
    [exact sample_platform_clock_ok | exact Hstandard].
Defined.

Lemma created_range_unfolded dt : created_range dt → created_range (unfolded dt).
Proof. by destruct dt. Qed.

(** X11: the date strings of a standard record read back: [birth_date] is a
    date with year in 1940 .. 2005 and day in 1 .. 28, [created_at] is the
    reading the clock gave when the record was made and
    [metadata.last_login] the next one. *)
Theorem standard_dates_decode id w :
  clock_ok (platform w) →
  returns (generate_data_object id) w
    (λ r, (∃ d, date_fromisoformat (DataObject.birth_date r) = Some d
                ∧ birth_range d)
          ∧ datetime_fromisoformat (DataObject.created_at r)
            = Some (unfolded (wallclock (platform w) (ticks w)))
          ∧ datetime_fromisoformat (last_login (DataObject.metadata r))
            = Some (unfolded (wallclock (platform w) (ticks w + 1)))).
Proof.
  intros Hclock. eapply returns_impl; [apply returns_standard_detail|].
  intros r (_ & _ & (d & Hd & ->) & -> & Hmeta).
  destruct Hmeta as (_ & _ & _ & _ & ->). unfold reading. split_and!.
  - exists d. split; [|done].
    apply date_fromisoformat_isoformat. by apply birth_range_ok.
  - by apply datetime_fromisoformat_isoformat.
  - replace (ticks w + 1)%nat with (S (ticks w)) by lia.
    by apply datetime_fromisoformat_isoformat.
Qed.

Lemma standard_dates_decode_witness :
  clock_ok (platform sample_world)
  ∧ returns (generate_data_object 7) sample_world
      (λ r, (∃ d, date_fromisoformat (DataObject.birth_date r) = Some d
                  ∧ birth_range d)
            ∧ datetime_fromisoformat (DataObject.created_at r)
              = Some (unfolded (wallclock (platform sample_world)
                                  (ticks sample_world)))
            ∧ datetime_fromisoformat (last_login (DataObject.metadata r))
              = Some (unfolded (wallclock (platform sample_world)
                                  (ticks sample_world + 1)))).
Proof.
  split; [exact sample_platform_clock_ok|].
  exact (standard_dates_decode 7 sample_world sample_platform_clock_ok).
Defined.

(** X12: the created instant of a multi-date record replaces year, month,
    day, hour and minute of the clock reading and nothing else:
    [created_at_iso] reads back as a value with year in 2020 .. 2024, day in
    1 .. 28, and the second and microsecond of the reading. *)
Theorem created_instant_is_a_partial_replacement id w :
  clock_ok (platform w) →
  returns (generate_data_object_with_different_dates id) w
    (λ r, ∃ dt,
       datetime_fromisoformat (DataObjectWithDifferentDates.created_at_iso r)
       = Some dt
       ∧ created_range dt
       ∧ second dt = second (wallclock (platform w) (ticks w))
       ∧ microsecond dt = microsecond (wallclock (platform w) (ticks w))).
Proof.
  intros Hclock. eapply returns_impl; [by apply returns_multi_date_detail|].
  intros r (_ & _ & _ & (dt & Hrange & Hok & Hs & Hus & _ & -> & _) & _).
  exists (unfolded dt). split_and!.
  - by apply datetime_fromisoformat_isoformat.
  - by apply created_range_unfolded.
  - by destruct dt.
  - by destruct dt.
Qed.

Lemma created_instant_is_a_partial_replacement_witness :
  clock_ok (platform sample_world)
  ∧ returns (generate_data_object_with_different_dates 7) sample_world
      (λ r, ∃ dt,
         datetime_fromisoformat (DataObjectWithDifferentDates.created_at_iso r)
         = Some dt
         ∧ created_range dt
         ∧ second dt = 7 ∧ microsecond dt = 123456).
Proof.
  split; [exact sample_platform_clock_ok|].
  exact (created_instant_is_a_partial_replacement 7 sample_world
           sample_platform_clock_ok).
Defined.

Lemma birth_renderings_agree_witness :
  clock_ok (platform sample_world)
  ∧ returns (generate_data_object_with_different_dates 7) sample_world
      (λ r, ∃ d : date,
         date_fromisoformat (DataObjectWithDifferentDates.birth_date_iso r)
         = Some d
         ∧ strptime_date (DataObjectWithDifferentDates.birth_date_us r)
             "%m/%d/%Y" = Some d
         ∧ strptime_date (DataObjectWithDifferentDates.birth_date_eu r)
             "%d/%m/%Y" = Some d
         ∧ strptime_date (DataObjectWithDifferentDates.birth_date_long r)
             "%B %d, %Y" = Some d).
Proof.
  split; [exact sample_platform_clock_ok|].
  exact (birth_renderings_agree 7 sample_world sample_platform_clock_ok).
Defined.

(** In a zone whose offset never changes, [_mktime] is the reading less the
    offset, whatever [fold] says. *)
Lemma mktime_fixed_offset tz c dt :
  (∀ u, tz u = c) → mktime tz dt = wall_seconds dt - c.
Proof.
  intros Hfixed. unfold mktime, local. cbv zeta. rewrite !Hfixed.
  generalize (wall_seconds dt). intros t.
  replace (t + c - t) with c by lia.
  replace (t - c + c) with t by lia.
  rewrite Z.eqb_refl. simpl.
  match goal with |- context [?u + c - ?u] =>
    replace (u + c - u) with c by lia end.
  by rewrite Z.eqb_refl.
Qed.

(** X14: [created_at_iso], read in the local zone of the host, and
    [created_at_timestamp] are one instant, to the second, when the clock is
    not read during the second pass of a repeated hour, and on any host
    whose zone has one offset. *)
Theorem created_renderings_agree id w :
  clock_ok (platform w) → zone_ok (platform w) →
  first_pass (platform w) ∨ (∃ c, ∀ u, utcoffset (platform w) u = c) →
  returns (generate_data_object_with_different_dates id) w
    (λ r, instant_of_iso (utcoffset (platform w))
            (DataObjectWithDifferentDates.created_at_iso r)
          = instant_of_timestamp
              (DataObjectWithDifferentDates.created_at_timestamp r)).
Proof.
  intros Hclock Hzone [Hfirst|[c Hfixed]].
  - by apply created_renderings_agree_first_pass.
  - eapply returns_impl;
      [by apply returns_generate_data_object_with_different_dates|].
    intros r (_ & _ & (dt & Hdt & Hok & _ & -> & ->) & _).
    unfold instant_of_iso, instant_of_timestamp.
    rewrite datetime_fromisoformat_isoformat by done. simpl.
    rewrite int_timestamp_mktime by done.
    rewrite !(mktime_fixed_offset _ c) by done. by destruct dt.
Qed.

Lemma created_renderings_agree_witness :
  clock_ok (platform sample_world) ∧ zone_ok (platform sample_world)
  ∧ first_pass (platform sample_world)
  ∧ returns (generate_data_object_with_different_dates 7) sample_world
      (λ r, instant_of_iso (utcoffset (platform sample_world))
              (DataObjectWithDifferentDates.created_at_iso r)
            = instant_of_timestamp
                (DataObjectWithDifferentDates.created_at_timestamp r)).
Proof.
  assert (first_pass (platform sample_world)) as Hfirst by (intros n; done).
  split; [exact sample_platform_clock_ok|].
  split; [exact sample_platform_zone_ok|].
  split; [exact Hfirst|].
  exact (created_renderings_agree 7 sample_world sample_platform_clock_ok
           sample_platform_zone_ok (or_introl Hfirst)).
Defined.

(** ** The readable rendering *)

Lemma read_name_day wd rest :
  0 ≤ wd < 7 →
  read_name DAY_ABBR 0 (default "" (DAY_ABBR !! Z.to_nat wd) +:+ rest)
  = Some (wd, rest).
Proof.
  intros Hwd.
  assert (wd = 0 ∨ wd = 1 ∨ wd = 2 ∨ wd = 3 ∨ wd = 4 ∨ wd = 5 ∨ wd = 6)
    as Hcases by lia.
  destruct_or!; by subst wd.
Qed.

Lemma read_name_month_abbr m rest :
  1 ≤ m ≤ 12 →
  read_name MONTH_ABBR 1 (default "" (MONTH_ABBR !! Z.to_nat (m - 1)) +:+ rest)
  = Some (m, rest).
Proof.
  intros Hm.
  assert (m = 1 ∨ m = 2 ∨ m = 3 ∨ m = 4 ∨ m = 5 ∨ m = 6 ∨ m = 7 ∨ m = 8
          ∨ m = 9 ∨ m = 10 ∨ m = 11 ∨ m = 12) as Hcases by lia.
  destruct_or!; by subst m.
Qed.

Lemma read_name_am_pm hh :
  read_name ["AM"; "PM"] 0 ((if hh <? 12 then "AM" else "PM") +:+ "")
  = Some (if hh <? 12 then 0 else 1, "").
Proof. by destruct (hh <? 12). Qed.

(** The 12-hour clock loses nothing: the hour printed by [%I] and [%p] is
    the hour read back. *)
Lemma hour_of_12_printed hh :
  0 ≤ hh ≤ 23 →
  1 ≤ (hh + 11) `mod` 12 + 1 ≤ 12
  ∧ hour_of_12 ((hh + 11) `mod` 12 + 1) ((if hh <? 12 then 0 else 1) =? 1) = hh.
Proof.
  intros Hhh. split; [Z.div_mod_to_equations; lia|].
  unfold hour_of_12.
  destruct (Z.ltb_spec hh 12); simpl;
    destruct (Z.eqb_spec ((hh + 11) `mod` 12 + 1) 12) as [He|He];
    revert He; Z.div_mod_to_equations; lia.
Qed.

Lemma strptime_strftime_readable dt :
  datetime_ok dt →
  strptime (strftime "%a, %b %d %Y %I:%M %p" dt) "%a, %b %d %Y %I:%M %p"
  = Some (to_the_minute dt).
Proof.
  destruct dt as [y m d hh mm ss us fd]. unfold datetime_ok, to_the_minute.
  simpl. intros Hok.
  pose proof Hok as [Hdate Htime]%andb_true_iff.
  destruct (date_fields_fit _ _ _ Hdate) as (Hy & Hm & Hd).
  assert (1 ≤ m ≤ 12) as Hm' by (apply check_date_fields_spec in Hdate; lia).
  apply check_time_fields_spec in Htime as (Hhh & Hmm & _).
  destruct (hour_of_12_printed hh Hhh) as [HI Hback].
  assert (0 ≤ (hh + 11) `mod` 12 + 1 < 10 ^ Z.of_nat 2) by (simpl; lia).
  assert (0 ≤ mm < 10 ^ Z.of_nat 2) by (simpl; lia).
  assert (0 ≤ weekday y m d < 7)
    by (unfold weekday; apply Z.mod_pos_bound; lia).
  assert (check_time_fields hh mm 0 0 0 = true) as Htime0
    by (apply check_time_fields_spec; lia).
  unfold strptime. decode.
  rewrite read_name_day by done. decode.
  rewrite read_name_month_abbr by done. decode.
  destruct (Z.leb_spec 1 ((hh + 11) `mod` 12 + 1)); [|lia].
  destruct (Z.leb_spec ((hh + 11) `mod` 12 + 1) 12); [|lia]. decode.
  rewrite read_name_am_pm. decode.
  by rewrite Hback, Hdate, Htime0.
Qed.

(** X15: [created_at_readable] reads back, with its own format, as the value
    [created_at_iso] reads back as, cut to the minute: the third rendering
    of the created instant agrees with the first on date, hour and
    minute. *)
Theorem readable_rendering_agrees id w :
  clock_ok (platform w) →
  returns (generate_data_object_with_different_dates id) w
    (λ r, ∃ dt,
       datetime_fromisoformat (DataObjectWithDifferentDates.created_at_iso r)
       = Some dt
       ∧ strptime (DataObjectWithDifferentDates.created_at_readable r)
           "%a, %b %d %Y %I:%M %p"
         = Some (to_the_minute dt)).
Proof.
  intros Hclock. eapply returns_impl; [by apply returns_multi_date_detail|].
  intros r (_ & _ & _ & (dt & _ & Hok & _ & _ & _ & -> & _ & ->) & _).
  exists (unfolded dt). split.
  - by apply datetime_fromisoformat_isoformat.
  - rewrite strptime_strftime_readable by done. by destruct dt.
Qed.

Lemma readable_rendering_agrees_witness :
  clock_ok (platform sample_world)
  ∧ returns (generate_data_object_with_different_dates 7) sample_world
      (λ r, ∃ dt,
         datetime_fromisoformat (DataObjectWithDifferentDates.created_at_iso r)
         = Some dt
         ∧ strptime (DataObjectWithDifferentDates.created_at_readable r)
             "%a, %b %d %Y %I:%M %p"
           = Some (to_the_minute dt)).
Proof.
  split; [exact sample_platform_clock_ok|].
  exact (readable_rendering_agrees 7 sample_world sample_platform_clock_ok).
Defined.

Example readable_read_back :
  strptime "Thu, Apr 11 2024 01:00 AM" "%a, %b %d %Y %I:%M %p"
  = Some (DateTime 2024 4 11 1 0 0 0 0)
  ∧ strptime "Sun, Nov 07 2021 12:05 PM" "%a, %b %d %Y %I:%M %p"
    = Some (DateTime 2021 11 7 12 5 0 0 0)
  ∧ strptime "Sun, Nov 07 2021 12:05 AM" "%a, %b %d %Y %I:%M %p"
    = Some (DateTime 2021 11 7 0 5 0 0 0)
  ∧ strptime "Sun, Nov 07 2021 13:05 PM" "%a, %b %d %Y %I:%M %p" = None.
Proof. by vm_compute. Qed.

(** * The optional fields *)

Lemma returns_outcome {A B} (m : M A) w (P : A → Prop) (f : A → B) b :
  returns m w P → f <$> outcome m w = Some b → returns m w (λ a, f a = b).
Proof.
  intros (a & w' & Hrun & Hp & _). unfold outcome. rewrite Hrun. simpl.
  intros [= <-]. by exists a, w'.
Qed.

Lemma coin_platform_clock_ok ones : clock_ok (coin_platform ones).
Proof. intros n. by vm_compute. Qed.

(** X16: whatever the identity, each of the four combinations of a present
    or absent score with a present or absent description is the outcome of
    some run of either synthesizer: the two coins are drawn separately, and
    neither field is tied to the other or to the identity. *)
Theorem score_and_description_independent (id : Z)
    (with_score with_description : bool) :
  (∃ w, returns (generate_data_object id) w
          (λ r, standard_options r = (with_score, with_description)))
  ∧ (∃ w, returns (generate_data_object_with_different_dates id) w
            (λ r, multi_date_options r = (with_score, with_description))).
Proof.
  split.
  - exists (coin_world (standard_coins with_score with_description)).
    eapply returns_outcome; [apply returns_standard_detail|].
    destruct with_score, with_description; by vm_compute.
  - exists (coin_world (multi_date_coins with_score with_description)).
    eapply returns_outcome;
      [apply returns_multi_date_detail, coin_platform_clock_ok|].
    destruct with_score, with_description; by vm_compute.
Qed.

(** * The text of the unique token *)

Lemma pow_16 (w : nat) : 16 ^ Z.of_nat w = 2 ^ (4 * Z.of_nat w).
Proof. rewrite Z.pow_mul_r by lia. done. Qed.

Lemma nibble_below (u : Z) (w k : nat) :
  (k < w)%nat → nibble (u `mod` 16 ^ Z.of_nat w) k = nibble u k.
Proof.
  intros Hk. unfold nibble. rewrite pow_16. apply Z.bits_inj'. intros i Hi.
  rewrite !Z.land_spec, !Z.shiftr_spec by lia.
  destruct (decide (i < 4)) as [Hlt|Hge].
  - by rewrite Z.mod_pow2_bits_low by lia.
  - replace (Z.testbit 15 i) with false; [by rewrite !andb_false_r|].
    symmetry. apply (Z.bounded_iff_bits_nonneg 4 15); lia.
Qed.

Lemma nibble_top (u : Z) (w : nat) :
  0 ≤ u < 16 ^ Z.of_nat (S w) → u / 16 ^ Z.of_nat w = nibble u w.
Proof.
  intros Hu. unfold nibble. rewrite Z.shiftr_div_pow2 by lia.
  rewrite <- pow_16. change 15 with (Z.ones 4). rewrite Z.land_ones by lia.
  symmetry. apply Z.mod_small.
  assert (0 < 16 ^ Z.of_nat w) by (apply Z.pow_pos_nonneg; lia).
  split; [apply Z.div_pos; lia|].
  apply Z.div_lt_upper_bound; [lia|].
  replace (16 ^ Z.of_nat (S w)) with (16 ^ Z.of_nat w * 2 ^ 4) in Hu; [lia|].
  rewrite Nat2Z.inj_succ, Z.pow_succ_r by lia. change (2 ^ 4) with 16. ring.
Qed.

(** The digits of ["%0wx" % u], read off [u] bit by bit. *)
Lemma hexpad_nibbles (w : nat) (u : Z) :
  0 ≤ u < 16 ^ Z.of_nat w →
  hexpad w u
  = string_of_list_ascii ((λ k, hex_char (nibble u k)) <$> rev (seq 0 w)).
Proof.
  revert u. induction w as [|w IH]; intros u Hu; [done|].
  cbn [hexpad]. rewrite seq_S, rev_app_distr. cbn [rev app fmap list_fmap].
  cbn [string_of_list_ascii Nat.add]. f_equal.
  - f_equal. by apply nibble_top.
  - assert (0 < 16 ^ Z.of_nat w) by (apply Z.pow_pos_nonneg; lia).
    rewrite IH by (apply Z.mod_pos_bound; lia).
    f_equal. apply list_fmap_ext. intros i k Hk.
    f_equal. apply nibble_below.
    apply list_elem_of_lookup_2 in Hk.
    apply list_elem_of_In in Hk. rewrite <- in_rev in Hk.
    apply in_seq in Hk. lia.
Qed.

Lemma hex_char_hex (d : Z) :
  hex_char d ∈ list_ascii_of_string hex_digits.
Proof.
  unfold hex_char.
  destruct (list_ascii_of_string "0123456789abcdef" !! Z.to_nat d)
    as [c|] eqn:Hc; simpl.
  - exact (list_elem_of_lookup_2 _ _ _ Hc).
  - by left.
Qed.

Lemma testbit_uuid4_of (r n : Z) :
  0 ≤ n →
  Z.testbit (uuid4_of r) n
  = (Z.testbit r n && negb (Z.testbit 0xc000 (n - 48))
     || Z.testbit 0x8000 (n - 48))
    && negb (Z.testbit 0xf000 (n - 64))
    || Z.testbit 4 (n - 76).
Proof.
  intros Hn. unfold uuid4_of.
  rewrite Z.lor_spec, Z.ldiff_spec, Z.lor_spec, Z.ldiff_spec.
  by rewrite !Z.shiftl_spec by lia.
Qed.

Lemma testbit_high (k a l : Z) :
  0 ≤ k → 0 ≤ a < 2 ^ k → k ≤ l → Z.testbit a l = false.
Proof. intros Hk Ha. apply (Z.bounded_iff_bits_nonneg k a); lia. Qed.

Lemma uuid4_of_range (r : Z) :
  0 ≤ r < 2 ^ 128 → 0 ≤ uuid4_of r < 16 ^ Z.of_nat 32.
Proof.
  intros Hr. rewrite pow_16.
  assert (0 ≤ uuid4_of r) as Hpos.
  { unfold uuid4_of. rewrite Z.lor_nonneg, Z.ldiff_nonneg, Z.lor_nonneg,
      Z.ldiff_nonneg. split; [left; split; [left; lia|by vm_compute]|by vm_compute]. }
  apply Z.bounded_iff_bits_nonneg'; [lia|done|].
  intros l Hl. rewrite testbit_uuid4_of by lia.
  rewrite (testbit_high 128 r l), (testbit_high 3 4 (l - 76)),
    (testbit_high 16 0x8000 (l - 48)) by lia.
  done.
Qed.

Lemma nibble_range (u : Z) (k : nat) : 0 ≤ nibble u k < 16.
Proof.
  unfold nibble. change 15 with (Z.ones 4). rewrite Z.land_ones by lia.
  apply Z.mod_pos_bound. lia.
Qed.

Lemma testbit_nibble (u : Z) (k : nat) (i : Z) :
  0 ≤ i < 4 → Z.testbit (nibble u k) i = Z.testbit u (i + 4 * Z.of_nat k).
Proof.
  intros Hi. unfold nibble. rewrite Z.land_spec, Z.shiftr_spec by lia.
  assert (i = 0 ∨ i = 1 ∨ i = 2 ∨ i = 3) as [E|[E|[E|E]]] by lia;
    subst i; apply andb_true_r.
Qed.

Lemma bit_of_uuid4_of (r n : Z) (b : bool) :
  0 ≤ n →
  (∀ x, (x && negb (Z.testbit 0xc000 (n - 48)) || Z.testbit 0x8000 (n - 48))
        && negb (Z.testbit 0xf000 (n - 64)) || Z.testbit 4 (n - 76) = b) →
  Z.testbit (uuid4_of r) n = b.
Proof. intros Hn Hb. rewrite testbit_uuid4_of by done. apply Hb. Qed.

Lemma nibble_of_bits (x : Z) (b0 b1 b2 b3 : bool) :
  0 ≤ x < 16 →
  Z.testbit x 0 = b0 → Z.testbit x 1 = b1 → Z.testbit x 2 = b2 →
  Z.testbit x 3 = b3 →
  x = Z.b2z b0 + 2 * Z.b2z b1 + 4 * Z.b2z b2 + 8 * Z.b2z b3.
Proof.
  intros Hx <- <- <- <-. rewrite !Z.testbit_spec' by lia.
  change (2 ^ 0) with 1. change (2 ^ 1) with 2.
  change (2 ^ 2) with 4. change (2 ^ 3) with 8.
  Z.div_mod_to_equations. lia.
Qed.

Lemma nibble_bits (u : Z) (k : nat) (b0 b1 b2 b3 : bool) :
  Z.testbit u (4 * Z.of_nat k) = b0 →
  Z.testbit u (4 * Z.of_nat k + 1) = b1 →
  Z.testbit u (4 * Z.of_nat k + 2) = b2 →
  Z.testbit u (4 * Z.of_nat k + 3) = b3 →
  nibble u k = Z.b2z b0 + 2 * Z.b2z b1 + 4 * Z.b2z b2 + 8 * Z.b2z b3.
Proof.
  intros H0 H1 H2 H3.
  apply nibble_of_bits; [apply nibble_range|..];
    rewrite testbit_nibble by lia.
  - by rewrite Z.add_0_l.
  - by rewrite Z.add_comm.
  - by rewrite Z.add_comm.
  - by rewrite Z.add_comm.
Qed.

(** Bits 76 to 79 hold the version. *)
Lemma uuid4_of_version (r : Z) : nibble (uuid4_of r) 19 = 4.
Proof.
  apply (nibble_bits _ 19 false false true false);
    (apply bit_of_uuid4_of; [lia|]); intros x; by destruct x.
Qed.

(** Bits 62 and 63 hold the variant, [10]. *)
Lemma uuid4_of_variant (r : Z) : 8 ≤ nibble (uuid4_of r) 15 ≤ 11.
Proof.
  rewrite (nibble_bits (uuid4_of r) 15 (Z.testbit (uuid4_of r) 60)
             (Z.testbit (uuid4_of r) 61) false true); try done.
  - destruct (Z.testbit (uuid4_of r) 60), (Z.testbit (uuid4_of r) 61);
      simpl; lia.
  - apply bit_of_uuid4_of; [lia|]. intros x; by destruct x.
  - apply bit_of_uuid4_of; [lia|]. intros x; by destruct x.
Qed.

Lemma hex_char_variant (d : Z) :
  8 ≤ d ≤ 11 → hex_char d ∈ list_ascii_of_string "89ab".
Proof.
  intros Hd.
  assert (d = 8 ∨ d = 9 ∨ d = 10 ∨ d = 11) as [E|[E|[E|E]]] by lia;
    subst d; apply list_elem_of_In; vm_compute; auto 10.
Qed.

Lemma uuid_str_shape (r : Z) :
  0 ≤ r < 2 ^ 128 → uuid_shape (uuid_str (uuid4_of r)).
Proof.
  intros Hr. unfold uuid_str.
  rewrite hexpad_nibbles by by apply uuid4_of_range.
  set (f := λ k, hex_char (nibble (uuid4_of r) k)).
  assert (f 15%nat ∈ list_ascii_of_string "89ab") as Hvariant
    by apply hex_char_variant, uuid4_of_variant.
  assert (∀ k, f k ∈ list_ascii_of_string hex_digits) as Hall
    by (intros k; apply hex_char_hex).
  assert (f 19%nat = "4"%char) as Hfour
    by (unfold f; by rewrite uuid4_of_version).
  clearbody f.
  exists (string_of_list_ascii (f <$> rev (seq 24 8))),
    (string_of_list_ascii (f <$> rev (seq 20 4))),
    (string_of_list_ascii (f <$> rev (seq 16 3))), (f 15%nat),
    (string_of_list_ascii (f <$> rev (seq 12 3))),
    (string_of_list_ascii (f <$> rev (seq 0 12))).
  rewrite <- Hfour.
  split; [reflexivity|]. do 5 (split; [reflexivity|]).
  split; [|done].
  unfold text_over.
  cbv [list_ascii_of_string string_of_list_ascii String.append fmap list_fmap
       rev seq app].
  repeat (constructor; [apply Hall|]). constructor.
Qed.

(** X17: the unique token of every record is the canonical text of a
    version-4 UUID: 32 lower-case hexadecimal digits in groups of 8, 4, 4, 4
    and 12 between hyphens, with the version digit [4] leading the third
    group and a variant digit, one of [8], [9], [a] and [b], leading the
    fourth. *)
Theorem record_uuid_canonical id w :
  clock_ok (platform w) →
  returns (generate_data_object id) w (λ r, uuid_shape (DataObject.uuid r))
  ∧ returns (generate_data_object_with_different_dates id) w
      (λ r, uuid_shape (DataObjectWithDifferentDates.uuid r)).
Proof.
  intros Hclock. split.
  - eapply returns_impl; [apply returns_standard_detail|].
    intros r (_ & ((u & Hu & ->) & _) & _). by apply uuid_str_shape.
  - eapply returns_impl; [by apply returns_multi_date_detail|].
    intros r (_ & ((u & Hu & ->) & _) & _). by apply uuid_str_shape.
Qed.

Lemma record_uuid_canonical_witness :
  clock_ok (platform sample_world)
  ∧ returns (generate_data_object 7) sample_world
      (λ r, uuid_shape (DataObject.uuid r)).
Proof.
  split; [exact sample_platform_clock_ok|].
  destruct (record_uuid_canonical 7 sample_world) as [Hstandard _];
    [exact sample_platform_clock_ok | exact Hstandard].
Defined.

(** * The schema document and the two record shapes *)

(** X18: the properties of the schema document are the fields of the
    standard record, in the order of the class; a record of the date-formats
    endpoint never validates against the document, whatever its content: of
    the 13 required properties it lacks [birth_date] and [created_at], which
    it replaces by seven keys the document does not describe. *)
Theorem schema_describes_standard_records_only
    (r : DataObject.t) (r' : DataObjectWithDifferentDates.t) :
  (data_object_fields r).*1 = (properties get_schema).*1
  ∧ validate get_schema (multi_date_json r') = false
  ∧ filter (λ k, ¬ is_Some (assoc k (multi_date_fields r')))
      (required get_schema)
    = ["birth_date"; "created_at"]
  ∧ filter (λ k, ¬ is_Some (assoc k (properties get_schema)))
      (multi_date_fields r').*1
    = ["birth_date_iso"; "birth_date_us"; "birth_date_eu"; "birth_date_long";
       "created_at_iso"; "created_at_timestamp"; "created_at_readable"].
Proof. repeat split; by vm_compute. Qed.
